(* ===== verification/_CoqProject ===== *)
-Q . S2P
Spec2Rocq.v
Numpy.v
Pyplot.v
ArithAlg.v
CalcFinal.v
Calc.v
Trig.v
TrigBatch2.v
CalcP2P3.v
SharedDir.v
