(* ===== verification/Spec2Rocq.v ===== *)
(** * A verification development of the quiz-image generator scripts

    ** The program

    The repository ships six independent Python scripts that draw the
    illustrations of quiz questions with matplotlib and numpy and save
    them as PNG files:

    - [src/generate_arith_alg_images.py]  (arithmetic quiz 278, algebra 279)
    - [src/generate_trig_images.py]       (trigonometry quiz 280, batch 1)
    - [src/generate_trig_images_batch2.py](trigonometry quiz 280, batch 2)
    - [src/server/scripts/generate_calculus_final_images.py]
    - [src/server/scripts/generate_calculus_images.py]
    - [src/server/scripts/generate_calculus_images_p2_p3.py]

    Each script has the same shape: module-level code that names an output
    directory and creates it ([os.makedirs]), a helper [save_plot] that
    saves the current figure into that directory and closes it, one
    function per diagram (open a figure, compute sample arrays with numpy,
    draw lines, markers, texts and patches, save, close), and a
    [__main__] block that calls the diagram functions in source order.
    The scripts share no code; they interact only through the file system
    (three of them write into the same directory) and through the global
    state of [matplotlib.pyplot] (the list of open figures, the current
    figure), which every diagram function uses and must leave clean.

    ** Layout of the development

    - [Spec2Rocq.v] (this file): the prelude shared by all components:
      the error monad used for Python exceptions (notation [do x <- m ; k]
      in [res_scope]), its laws, the monadic fold used to run statement
      sequences, the [q2r] rewrite database moving rational arithmetic to
      the reals, and the tactics of the development.
    - [Numpy.v]: the numeric layer.  Module [Numpy] has [Expr], the
      closed-form expressions the scripts evaluate elementwise with numpy
      ([2*x + 1], [np.sin(5*x)/x], [np.log2(x)], [np.sqrt(x + 1)], ...);
      [evalR], their exact real denotation; [dom], the condition under
      which numpy returns a finite number (no division by zero, no log of a
      non-positive number, no square root of a negative number, [arccos]
      inside [-1, 1]); [evalQ], an executable evaluator on the rational
      fragment, proved to refine [evalR]; [safe], an executable checker
      proved to imply [dom]; [np_linspace] and [np_apply], the numpy
      sampling of a curve.
    - [Pyplot.v]: the contract of the parts of matplotlib.pyplot and os
      the scripts call, as a state machine.  The state [St] holds the open
      figures (the current one first), the directories, the files (a gmap
      keyed by [(directory, file name)]) and the printed lines.  A Python
      statement of the scripts is a [Call]; a function body is a list of
      calls run by [exec]; exceptions ([FileExistsError],
      [FileNotFoundError], [ValueError], [NameError]) are the [inl] side of
      the result.  The file proves the lifecycle lemmas the scripts rely
      on: drawing calls touch neither the file system nor the set of open
      figures, a diagram body of the shape "open a figure, draw, save,
      close" writes exactly one file and leaves no figure open, a
      sequence of such bodies writes exactly their files, and every
      [plt.plot] call of such a body leaves a line with the plotted arrays
      in the saved figure ([image_of_plot_line]), so that what the arrays
      satisfy in the reals ([line_on]) is a property of the saved image.
      Generic lemmas carry the scripts' theorems: [run_into_dir] (an
      import that readies the directory, [dir_ready], followed by the
      [__main__] block), [diagram_prefix_open] and [script_prefix_open]
      (the figure lifecycle: every prefix of a diagram function runs, one
      figure is open from its first statement through its [savefig] and
      none after its [plt.close()]) and
      [guarded_scripts_commute] (two guarded scripts writing disjoint
      files into one directory commute).
    - [ArithAlg.v]: [generate_arith_alg_images.py], every diagram function,
      [save_plot], the module-level directory creation and [__main__].
    - [CalcFinal.v]: [generate_calculus_final_images.py], likewise, with
      the [os.path.exists] guard in front of [os.makedirs].
    - [Calc.v]: [generate_calculus_images.py] (period I), likewise,
      including the boolean masks ([x[mask]], [y1[x1<1]]) that keep the
      samples of the rational function away from its poles.
    - [Trig.v]: [generate_trig_images.py], likewise, with [setup_plot]
      and the two prints of its [__main__] block; its curves over
      [0, 2 pi] are arrays of numpy expressions in [Pi].
    - [TrigBatch2.v]: [generate_trig_images_batch2.py], likewise, drawing
      on the axes [plt.subplots] returns ([ax.<op>]), with its triangles
      as [plt.Polygon] patches and its arrow as an annotation.
    - [CalcP2P3.v]: [generate_calculus_images_p2_p3.py], likewise, with
      the [for] loop of [q29_rates] as a [map] over its radii.
    - [SharedDir.v]: [Calc.v]'s and [CalcP2P3.v]'s scripts together, the
      two scripts that share the directory [generated_images_calculus].

    Each script file is a Module named after it whose definitions carry
    the names of the source: [save_plot], one definition per diagram
    function ([plot_line_slope], [q5_rational], ...) built from [Call]s in
    source order, [<fn>_x] for its sample array and [<fn>_f] for the
    formula it applies to it, [main] for the [__main__] block and [run]
    for import followed by [__main__].

    ** What is proved

    - Script runs (functional, error): from any state with no open
      figure in which the output directory can be created, running a
      script writes exactly the files named in its source, into its output
      directory, leaves no figure open, every other file untouched and
      prints what its source prints; when the directory path is occupied
      by a non-directory the script stops with the exception its source
      raises.
    - Lifecycle (invariant): run with no figure open into an existing
      directory, every prefix of a diagram function runs without raising;
      the number of open figures after its k-th statement is 0 for k = 0,
      1 up to and including its [savefig], and 0 again once its final
      [plt.close()] has run, so a function that forgot to close its
      figure would break it.
    - Composition (equivalence): the two scripts writing into
      [generated_images_calculus] leave the same state whichever runs
      first.
    - Numeric safety (safety): in the two calculus scripts whose curves
      have poles or restricted domains ([Calc.v], [CalcP2P3.v]), every
      sample array lies inside the domain of the numpy functions applied
      to it, so no curve contains [nan] or [inf]; this depends on the
      sampling ([log2] from a positive start, the masks, an even number
      of points around the removable singularity of sin(5x)/x).  The
      rational evaluator refines the real semantics ([Numpy.v]).
    - Drawn mathematics (functional): the markers, slope triangles and
      labels each diagram draws agree with the curves it draws (a marked
      vertex is the extremum of the plotted parabola, a marked intersection
      solves the plotted system, the open and closed endpoint markers of a
      piecewise function match the strictness of its conditions, the
      interval drawn on a number line is the solution set of its title,
      the graph titled injective rises at every drawn point, the labels
      of the square stand beside its sides).
    - Geometry (functional): the triangles, circle, parabola and ellipse
      of the trigonometry set have the side lengths, angles, foci and
      directrix their labels and markers claim (the unit circle is
      sampled at 100 evenly spaced angles over the whole turn, and its
      radius ends at the point at 30 degrees), and where they do not
      (the 30 degree label of the angle of elevation, the law-of-sines
      labels) the theorem states the mismatch.
    - Asymptotes and limits (functional): dashed lines drawn as
      asymptotes stand where the plotted function is undefined or tends
      to (vertical and horizontal), and tangent lines touch the plotted
      curve at exactly the marked point.
    - Bounds: the sine wave of the amplitude diagram stays between the
      lines drawn at its extremes.

    ** Abstractions and bounds

    Numbers are exact: a numpy float64 value is modelled by the real it
    approximates (literals by rationals), so rounding is not modelled and
    the domain facts are stated for exact sample points (the sample points
    of [np.linspace] are rationals whenever its endpoints are).  Arrays are
    lists; [np.linspace a b n] is computed exactly as numpy specifies it
    (start, start + step, ..., the last point set to stop).  Purely
    cosmetic keyword arguments (linewidth, alpha, fontsize, fontweight,
    markersize, zorder, colors of texts) are not modelled; everything that
    determines what is drawn where, the marker fill (open or closed), line
    styles, titles, limits and axis settings is.  [os.path.join] is
    modelled by the pair (directory, name).  Rendering to pixels and PNG
    encoding are not modelled: a saved file holds the figure it was saved
    from and the requested dpi.  No fuel is needed: every function of the
    scripts is straight-line code, and [exec] is structural on the list of
    calls.

    ** Not modelled

    All six scripts are modelled, every function and every statement
    that draws, saves, closes, prints or creates a directory.  What is
    left out: matplotlib and os themselves, which the repository only
    calls (their behaviour for these calls is the contract of
    [Pyplot.v]); float64 rounding (numbers are exact); pixels, fonts and
    PNG encoding; keyword arguments that only style what is drawn
    (linewidth, alpha, fontsize, colours of texts and reference lines);
    and Python locals that are computed and never used ([A], [B], [C] of
    [plot_law_sines], the first [x] and [y] of [q24_increasing]).  The
    three scripts writing into
    [L:\PAGINA WEB\APP CUESTIONARIOS\imagenes temporales preguntas]
    print, so their runs do not commute as a whole: their stdout depends
    on the order. *)

From Stdlib Require Import QArith Qreals Reals Psatz List.
Import ListNotations.

(** ** The result monad: [inl] is a raised exception, [inr] a value *)

Declare Scope res_scope.
Delimit Scope res_scope with res.

Definition bindr {E A B} (m : E + A) (k : A -> E + B) : E + B :=
  match m with
  | inl e => inl e
  | inr a => k a
  end.

Notation "'do' x <- m ; k" := (bindr m (fun x => k))
  (at level 10, x name, m at level 100, k at level 200) : res_scope.

Open Scope res_scope.

(** Running a sequence of statements, each of which may raise. *)
Fixpoint fold_res {E A B} (f : A -> B -> E + A) (l : list B) (a : A) : E + A :=
  match l with
  | [] => inr a
  | b :: l' => do a' <- f a b ; fold_res f l' a'
  end.

Lemma bindr_inr {E A B} (a : A) (k : A -> E + B) : bindr (inr a) k = k a.
Proof. reflexivity. Qed.

Lemma bindr_inl {E A B} (e : E) (k : A -> E + B) : bindr (inl e) k = inl e.
Proof. reflexivity. Qed.

Lemma bindr_assoc {E A B C} (m : E + A) (k : A -> E + B) (h : B -> E + C) :
  bindr (bindr m k) h = bindr m (fun a => bindr (k a) h).
Proof. destruct m; reflexivity. Qed.

Lemma bindr_inr_inv {E A B} (m : E + A) (k : A -> E + B) (b : B) :
  bindr m k = inr b -> exists a, m = inr a /\ k a = inr b.
Proof. destruct m; simpl; [discriminate | eauto]. Qed.

Lemma fold_res_cons {E A B} (f : A -> B -> E + A) (b : B) (l : list B) (a : A) :
  fold_res f (b :: l) a = bindr (f a b) (fold_res f l).
Proof. reflexivity. Qed.

Lemma fold_res_app {E A B} (f : A -> B -> E + A) (l1 l2 : list B) (a : A) :
  fold_res f (l1 ++ l2) a = bindr (fold_res f l1 a) (fold_res f l2).
Proof.
  revert a; induction l1 as [|b l1 IH]; intros a; simpl; [reflexivity|].
  destruct (f a b); simpl; auto.
Qed.

(** An invariant of the state preserved by every step is preserved by
    the whole sequence. *)
Lemma fold_res_invariant {E A B} (P : A -> Prop) (f : A -> B -> E + A) :
  (forall a b a', P a -> f a b = inr a' -> P a') ->
  forall l a a', P a -> fold_res f l a = inr a' -> P a'.
Proof.
  intros Hstep l; induction l as [|b l IH]; simpl; intros a a' Ha H.
  - congruence.
  - apply bindr_inr_inv in H as (a1 & H1 & H2). eauto.
Qed.

(** ** Rational arithmetic seen in the reals *)

Create Rewrite HintDb q2r.
#[export] Hint Rewrite Q2R_plus Q2R_mult Q2R_minus Q2R_opp : q2r.

Lemma Q2R_le_iff (x y : Q) : (x <= y)%Q <-> (Q2R x <= Q2R y)%R.
Proof. split; [apply Qle_Rle | apply Rle_Qle]. Qed.

Lemma Q2R_lt_iff (x y : Q) : (x < y)%Q <-> (Q2R x < Q2R y)%R.
Proof. split; [apply Qlt_Rlt | apply Rlt_Qlt]. Qed.

Lemma Q2R_eq_iff (x y : Q) : (x == y)%Q <-> Q2R x = Q2R y.
Proof. split; [apply Qeq_eqR | apply eqR_Qeq]. Qed.

Lemma Q2R_neq (x : Q) : ~ (x == 0)%Q -> Q2R x <> 0%R.
Proof. intros H E. apply H, eqR_Qeq. rewrite E. unfold Q2R; simpl; lra. Qed.

(** The cube is injective on the reals. *)
Lemma Rcube_inj (x y : R) : (x * (x * (x * 1)) = y * (y * (y * 1)) -> x = y)%R.
Proof.
  intros H. destruct (Req_dec x y) as [E|E]; [exact E|exfalso].
  assert (Hs : (0 < x * x + y * y)%R).
  { destruct (Req_dec x 0) as [->|Hx]; [assert (y <> 0)%R by (intros ->; apply E; reflexivity)|];
      [pose proof (Rsqr_pos_lt y H0) | pose proof (Rsqr_pos_lt x Hx)]; unfold Rsqr in *; nra. }
  assert (Hf : ((x - y) * ((x + y) * (x + y) + x * x + y * y) = 0)%R) by nra.
  apply Rmult_integral in Hf as [Hf|Hf]; [apply E; lra | nra].
Qed.

(** ** Tactics of the development *)

(** Split the hypotheses [bindr m k = inr b] produced by running code. *)
Ltac res_inv :=
  repeat match goal with
  | H : bindr _ _ = inr _ |- _ =>
      let a := fresh "a" in let E1 := fresh "E" in
      apply bindr_inr_inv in H as (a & E1 & H)
  | H : inr _ = inr _ |- _ => injection H as H; subst
  | H : inl _ = inr _ |- _ => discriminate H
  end.

(** Move a goal on rationals into the reals and close it with [lra]. *)
Ltac q2r_lra :=
  repeat rewrite Q2R_le_iff, ?Q2R_lt_iff;
  autorewrite with q2r; unfold Q2R; simpl; lra.
