(* ===== verification/Numpy.v ===== *)
(** * Numpy.v: the numeric layer of the scripts

    The scripts compute every curve as a numpy expression applied
    elementwise to a sample array: [y = 2*x + 1], [y = np.sin(5*x)/x],
    [y = np.log2(x)], [x = r * np.cos(np.radians(theta))], and so on.  This
    file models those expressions ([Expr]), their exact real value
    ([evalR]), the condition under which numpy returns a finite value
    ([dom]), an executable evaluator of the rational fragment ([evalQ],
    proved to refine [evalR]), an executable domain checker ([safe],
    proved sound for [dom]) and the array constructors the scripts use
    ([np_linspace], [np_apply], boolean masks). *)

From Stdlib Require Import QArith Qabs Qreals Reals Psatz List Lia.
From S2P Require Import Spec2Rocq.
Import ListNotations.

Module Numpy.

(** ** Expressions evaluated by numpy *)

(** [X] is the array the expression is applied to elementwise. *)
Inductive Expr : Type :=
| X
| Cst (q : Q)
| Pi                                  (* np.pi *)
| Add (a b : Expr)
| Sub (a b : Expr)
| Mul (a b : Expr)
| Div (a b : Expr)
| Neg (a : Expr)
| Pow (a : Expr) (n : nat)            (* a**n, n a literal *)
| Sin (a : Expr)                      (* np.sin *)
| Cos (a : Expr)                      (* np.cos *)
| Exp (a : Expr)                      (* np.exp *)
| Log2 (a : Expr)                     (* np.log2 *)
| Sqrt (a : Expr)                     (* np.sqrt *)
| Arccos (a : Expr)                   (* np.arccos *)
| Abs (a : Expr).                     (* np.abs *)

(** [np.radians(d)] multiplies by pi/180. *)
Definition radians (d : Expr) : Expr := Mul d (Div Pi (Cst 180)).

(** ** Exact real semantics *)

Fixpoint evalR (x : R) (e : Expr) : R :=
  match e with
  | X => x
  | Cst q => Q2R q
  | Pi => PI
  | Add a b => evalR x a + evalR x b
  | Sub a b => evalR x a - evalR x b
  | Mul a b => evalR x a * evalR x b
  | Div a b => evalR x a / evalR x b
  | Neg a => - evalR x a
  | Pow a n => pow (evalR x a) n
  | Sin a => sin (evalR x a)
  | Cos a => cos (evalR x a)
  | Exp a => exp (evalR x a)
  | Log2 a => ln (evalR x a) / ln 2
  | Sqrt a => sqrt (evalR x a)
  | Arccos a => acos (evalR x a)
  | Abs a => Rabs (evalR x a)
  end%R.

(** Numpy returns a finite value exactly when every partial operation
    is applied inside its domain; otherwise it returns [nan] or [inf]
    (with a RuntimeWarning, not an exception). *)
Fixpoint dom (x : R) (e : Expr) : Prop :=
  match e with
  | X | Cst _ | Pi => True
  | Add a b | Sub a b | Mul a b => dom x a /\ dom x b
  | Div a b => dom x a /\ dom x b /\ evalR x b <> 0%R
  | Neg a | Pow a _ | Sin a | Cos a | Exp a | Abs a => dom x a
  | Log2 a => dom x a /\ (0 < evalR x a)%R
  | Sqrt a => dom x a /\ (0 <= evalR x a)%R
  | Arccos a => dom x a /\ (-1 <= evalR x a <= 1)%R
  end.

(** ** Executable evaluation of the rational fragment *)

Fixpoint qpow (q : Q) (n : nat) : Q :=
  match n with
  | O => 1
  | S n' => q * qpow q n'
  end.

Definition lift2 (f : Q -> Q -> Q) (a b : option Q) : option Q :=
  match a, b with
  | Some u, Some v => Some (f u v)
  | _, _ => None
  end.

Fixpoint evalQ (x : Q) (e : Expr) : option Q :=
  match e with
  | X => Some x
  | Cst q => Some q
  | Add a b => lift2 Qplus (evalQ x a) (evalQ x b)
  | Sub a b => lift2 Qminus (evalQ x a) (evalQ x b)
  | Mul a b => lift2 Qmult (evalQ x a) (evalQ x b)
  | Div a b =>
      match evalQ x a, evalQ x b with
      | Some u, Some v => if Qeq_bool v 0 then None else Some (u / v)
      | _, _ => None
      end
  | Neg a => option_map Qopp (evalQ x a)
  | Pow a n => option_map (fun u => qpow u n) (evalQ x a)
  | Abs a => option_map Qabs (evalQ x a)
  | Pi | Sin _ | Cos _ | Exp _ | Log2 _ | Sqrt _ | Arccos _ => None
  end.

(** The test a guard of [safe] applies to a subterm, when that subterm
    has a rational value. *)
Definition guard (p : Q -> bool) (o : option Q) : bool :=
  match o with Some v => p v | None => false end.

(** A conservative executable check of [dom]: every guard whose argument
    is rational is checked on its value; a guard on an irrational
    argument is rejected. *)
Fixpoint safe (x : Q) (e : Expr) : bool :=
  match e with
  | X | Cst _ | Pi => true
  | Add a b | Sub a b | Mul a b => safe x a && safe x b
  | Div a b => safe x a && safe x b && guard (fun v => negb (Qeq_bool v 0)) (evalQ x b)
  | Neg a | Pow a _ | Sin a | Cos a | Exp a | Abs a => safe x a
  | Log2 a => safe x a && guard (fun v => negb (Qle_bool v 0)) (evalQ x a)
  | Sqrt a => safe x a && guard (Qle_bool 0) (evalQ x a)
  | Arccos a => safe x a && guard (fun v => Qle_bool (-1) v && Qle_bool v 1) (evalQ x a)
  end.

(** ** Arrays *)

(** Replace the array variable by a sample point. *)
Fixpoint subst (s : Expr) (e : Expr) : Expr :=
  match e with
  | X => s
  | Cst q => Cst q
  | Pi => Pi
  | Add a b => Add (subst s a) (subst s b)
  | Sub a b => Sub (subst s a) (subst s b)
  | Mul a b => Mul (subst s a) (subst s b)
  | Div a b => Div (subst s a) (subst s b)
  | Neg a => Neg (subst s a)
  | Pow a n => Pow (subst s a) n
  | Sin a => Sin (subst s a)
  | Cos a => Cos (subst s a)
  | Exp a => Exp (subst s a)
  | Log2 a => Log2 (subst s a)
  | Sqrt a => Sqrt (subst s a)
  | Arccos a => Arccos (subst s a)
  | Abs a => Abs (subst s a)
  end.

(** [f(x)] for a numpy array [x]: the expression applied elementwise. *)
Definition np_apply (f : Expr) (xs : list Expr) : list Expr :=
  map (fun s => subst s f) xs.

(** A literal array of rationals. *)
Definition arr (l : list Q) : list Expr := map Cst l.

(** [np.linspace(start, stop, num)]: [num] evenly spaced points,
    [start + i * step] with [step = (stop - start) / (num - 1)], the last
    one set to [stop]; one point is [[start]]. *)
Definition np_linspace (start stop : Q) (num : nat) : list Q :=
  match num with
  | O => []
  | S O => [start]
  | S k =>
      map (fun i => if Nat.eqb i k then stop
                    else start + inject_Z (Z.of_nat i) * ((stop - start) / inject_Z (Z.of_nat k)))
          (seq 0 num)
  end.

(** The same on symbolic endpoints (used where an endpoint involves
    [np.pi]): the sample points are expressions. *)
Definition np_linspace_e (start stop : Expr) (num : nat) : list Expr :=
  match num with
  | O => []
  | S O => [start]
  | S k =>
      map (fun i => if Nat.eqb i k then stop
                    else Add start (Mul (Cst (inject_Z (Z.of_nat i)))
                                        (Div (Sub stop start) (Cst (inject_Z (Z.of_nat k))))))
          (seq 0 num)
  end.

(** [np.arange(start, stop, step)] on integers: [start, start + step, ...]
    below [stop]. *)
Definition np_arange (start stop : Z) (step : positive) : list Q :=
  map (fun i => inject_Z (start + Z.of_nat i * Z.pos step))
      (seq 0 (Z.to_nat ((stop - start + Z.pos step - 1) / Z.pos step))).

(** Boolean indexing [x[mask]]. *)
Definition np_mask (p : Q -> bool) (xs : list Q) : list Q := filter p xs.

(** [y[p(x)]]: an array indexed by a mask computed from another array of
    the same length. *)
Definition np_mask_by {A} (p : Q -> bool) (xs : list Q) (ys : list A) : list A :=
  map snd (filter (fun xy => p (fst xy)) (combine xs ys)).

(** [np.ones_like(x)]. *)
Definition np_ones_like {A} (xs : list A) : list Expr := map (fun _ => Cst 1) xs.


(** Compute the real value of an expression with literal rationals. *)
Ltac evalR_simpl :=
  cbn [evalR pow]; unfold Q2R; simpl; rewrite ?Rinv_1, ?Rmult_1_r.

(** ** The rational evaluator refines the real semantics *)

Lemma Q2R_qpow (q : Q) (n : nat) : Q2R (qpow q n) = pow (Q2R q) n.
Proof.
  induction n as [|n IH]; simpl; [apply RMicromega.Q2R_1|].
  rewrite Q2R_mult, IH. reflexivity.
Qed.

Lemma Q2R_Qabs (q : Q) : Q2R (Qabs q) = Rabs (Q2R q).
Proof.
  destruct (Qlt_le_dec q 0) as [Hn|Hp].
  - rewrite (Qeq_eqR _ _ (Qabs_neg q (Qlt_le_weak _ _ Hn))), Q2R_opp.
    rewrite Rabs_left; [reflexivity|].
    apply Qlt_Rlt in Hn. rewrite RMicromega.Q2R_0 in Hn. exact Hn.
  - rewrite (Qeq_eqR _ _ (Qabs_pos q Hp)).
    rewrite Rabs_pos_eq; [reflexivity|].
    apply Qle_Rle in Hp. rewrite RMicromega.Q2R_0 in Hp. exact Hp.
Qed.

#[export] Hint Rewrite Q2R_qpow Q2R_Qabs : q2r.

(** Case analysis on the evaluation of the two operands of a binary
    operator. *)
Ltac evalQ_cases x a b :=
  destruct (evalQ x a) as [u|] eqn:Ea; destruct (evalQ x b) as [v|] eqn:Eb;
  simpl; try discriminate.

(** Refinement: when the executable evaluator returns a rational, numpy
    returns a finite value and it is that rational. *)
Lemma evalQ_sound (x : Q) (e : Expr) (q : Q) :
  evalQ x e = Some q -> dom (Q2R x) e /\ evalR (Q2R x) e = Q2R q.
Proof.
  revert q; induction e as [| c | | a IHa b IHb | a IHa b IHb | a IHa b IHb
                            | a IHa b IHb | a IHa | a IHa n | a IHa | a IHa
                            | a IHa | a IHa | a IHa | a IHa | a IHa];
    intros q H; simpl in *; try discriminate.
  - injection H as <-. auto.
  - injection H as <-. auto.
  - evalQ_cases x a b. injection H as <-.
    destruct (IHa u eq_refl), (IHb v eq_refl). split; [tauto|].
    autorewrite with q2r. congruence.
  - evalQ_cases x a b. injection H as <-.
    destruct (IHa u eq_refl), (IHb v eq_refl). split; [tauto|].
    autorewrite with q2r. congruence.
  - evalQ_cases x a b. injection H as <-.
    destruct (IHa u eq_refl), (IHb v eq_refl). split; [tauto|].
    autorewrite with q2r. congruence.
  - evalQ_cases x a b.
    destruct (Qeq_bool v 0) eqn:Ez; [discriminate|]. injection H as <-.
    assert (Hv : ~ (v == 0)%Q) by (rewrite <- Qeq_bool_iff; congruence).
    destruct (IHa u eq_refl), (IHb v eq_refl).
    rewrite Q2R_div by exact Hv. repeat split; try tauto; try congruence.
    rewrite H2. apply Q2R_neq, Hv.
  - destruct (evalQ x a) as [u|] eqn:Ea; simpl in H; try discriminate.
    injection H as <-. destruct (IHa u eq_refl). split; [tauto|].
    rewrite Q2R_opp. congruence.
  - destruct (evalQ x a) as [u|] eqn:Ea; simpl in H; try discriminate.
    injection H as <-. destruct (IHa u eq_refl). split; [tauto|].
    rewrite Q2R_qpow. congruence.
  - destruct (evalQ x a) as [u|] eqn:Ea; simpl in H; try discriminate.
    injection H as <-. destruct (IHa u eq_refl). split; [tauto|].
    rewrite Q2R_Qabs. congruence.
Qed.

(** A guard that passed on a rational value. *)
Lemma guard_true (p : Q -> bool) (o : option Q) :
  guard p o = true -> exists v, o = Some v /\ p v = true.
Proof. destruct o; simpl; [eauto | discriminate]. Qed.

(** Soundness of the checker: an expression accepted by [safe] at a
    rational sample point evaluates to a finite number there. *)
Lemma safe_sound (x : Q) (e : Expr) : safe x e = true -> dom (Q2R x) e.
Proof.
  induction e; simpl; intros H;
    repeat match goal with
    | H : _ && _ = true |- _ => apply andb_prop in H as [? ?]
    | H : guard _ _ = true |- _ => apply guard_true in H as (? & ? & ?)
    | Ev : evalQ _ _ = Some _ |- _ =>
        apply evalQ_sound in Ev as [_ ->]
    | H : negb _ = true |- _ => apply negb_true_iff in H
    | H : Qle_bool _ _ = true |- _ => apply Qle_bool_iff, Qle_Rle in H
    end;
    rewrite ?Q2R_opp, ?RMicromega.Q2R_0, ?RMicromega.Q2R_1 in *;
    repeat split; auto.
  - apply Q2R_neq. rewrite <- Qeq_bool_iff. congruence.
  - apply Rnot_le_lt. intros Hle. rewrite <- RMicromega.Q2R_0 in Hle.
    apply Rle_Qle, Qle_bool_iff in Hle. congruence.
  - match goal with H : (Q2R (-1) <= _)%R |- _ =>
      replace (Q2R (-1)) with (-1)%R in H by (unfold Q2R; simpl; lra) end.
    assumption.
Qed.

(** ** Substitution and elementwise application *)

Lemma evalR_subst (r : R) (s e : Expr) :
  evalR r (subst s e) = evalR (evalR r s) e.
Proof. induction e; simpl; congruence. Qed.

Lemma dom_subst (r : R) (s e : Expr) :
  dom r s -> (dom r (subst s e) <-> dom (evalR r s) e).
Proof.
  intros Hs. induction e; simpl; rewrite ?evalR_subst; tauto.
Qed.

(** The value of the [i]-th element of [f(x)] is [f] at the [i]-th
    sample point. *)
Lemma np_apply_cst (f : Expr) (q : Q) (r : R) :
  evalR r (subst (Cst q) f) = evalR (Q2R q) f.
Proof. apply evalR_subst. Qed.

(** A curve sampled at rational points is finite everywhere when the
    checker accepts every sample point. *)
Lemma np_apply_safe (f : Expr) (xs : list Q) :
  forallb (fun q => safe q f) xs = true ->
  Forall (dom 0%R) (np_apply f (arr xs)).
Proof.
  intros H. rewrite forallb_forall in H. apply Forall_forall.
  unfold np_apply, arr. intros e He. rewrite map_map in He.
  apply in_map_iff in He as (q & <- & Hq).
  apply (dom_subst 0%R (Cst q) f I). apply safe_sound, H, Hq.
Qed.

(** ** Sampling *)

Lemma length_np_linspace (a b : Q) (n : nat) : length (np_linspace a b n) = n.
Proof.
  destruct n as [|[|k]]; simpl; [reflexivity | reflexivity |].
  rewrite length_map, length_seq. reflexivity.
Qed.

Lemma Q_of_nat_le (i k : nat) : (i <= k)%nat ->
  (inject_Z (Z.of_nat i) <= inject_Z (Z.of_nat k))%Q.
Proof. intros H. rewrite <- Zle_Qle. lia. Qed.

(** An inner sample point lies between the endpoints. *)
Lemma linspace_point_bounds (a b : Q) (i k : nat) :
  (a <= b)%Q -> (i <= k)%nat -> (0 < k)%nat ->
  (a <= a + inject_Z (Z.of_nat i) * ((b - a) / inject_Z (Z.of_nat k)) <= b)%Q.
Proof.
  intros Hab Hik Hk.
  set (d := ((b - a) / inject_Z (Z.of_nat k))%Q).
  assert (Hk' : (0 < inject_Z (Z.of_nat k))%Q) by (change 0%Q with (inject_Z 0); rewrite <- Zlt_Qlt; lia).
  assert (Hd : (0 <= d)%Q).
  { unfold d, Qdiv. apply Qmult_le_0_compat; [lra|].
    apply Qlt_le_weak, Qinv_lt_0_compat, Hk'. }
  assert (Hkd : (inject_Z (Z.of_nat k) * d == b - a)%Q).
  { unfold d. field. intros Hz. rewrite Hz in Hk'. discriminate. }
  assert (Hi0 : (0 <= inject_Z (Z.of_nat i))%Q) by (change 0%Q with (inject_Z 0); rewrite <- Zle_Qle; lia).
  pose proof (Q_of_nat_le i k Hik) as Hik'.
  split.
  - assert (0 <= inject_Z (Z.of_nat i) * d)%Q by (apply Qmult_le_0_compat; auto). lra.
  - assert (inject_Z (Z.of_nat i) * d <= inject_Z (Z.of_nat k) * d)%Q
      by (apply Qmult_le_compat_r; auto). lra.
Qed.

(** Every sample point of [np.linspace(a, b, n)] lies in [[a, b]]. *)
Lemma np_linspace_bounds (a b : Q) (n : nat) :
  (a <= b)%Q -> Forall (fun v => a <= v <= b)%Q (np_linspace a b n).
Proof.
  intros Hab. destruct n as [|[|k]].
  - constructor.
  - constructor; [lra | constructor].
  - unfold np_linspace. cbv beta iota. apply Forall_forall. intros v Hv. apply in_map_iff in Hv as (i & <- & Hi).
    apply in_seq in Hi.
    cbv beta. destruct (Nat.eqb_spec i (S k)) as [_|Hne]; [lra|].
    apply linspace_point_bounds; [exact Hab | lia | lia].
Qed.

(** ** Masks *)

(** Every element kept by a mask satisfies it. *)
Lemma np_mask_spec (p : Q -> bool) (xs : list Q) :
  Forall (fun v => p v = true) (np_mask p xs).
Proof.
  apply Forall_forall. intros v Hv. unfold np_mask in Hv.
  apply filter_In in Hv as [_ Hv]. exact Hv.
Qed.

(** Masking an array by its own values keeps only the values the mask
    accepts. *)
Lemma np_mask_by_self (p : Q -> bool) (xs : list Q) :
  Forall (fun v => p v = true) (np_mask_by p xs xs).
Proof.
  apply Forall_forall. intros v Hv. unfold np_mask_by in Hv.
  apply in_map_iff in Hv as ([a b] & <- & Hab).
  apply filter_In in Hab as [Hab Hm]. simpl in *.
  assert (a = b) as <-.
  { clear Hm. induction xs as [|x xs IH]; simpl in Hab; [contradiction|].
    destruct Hab as [E|Hab]; [injection E as -> ->; reflexivity | auto]. }
  exact Hm.
Qed.

(** Arrays computed from the same samples satisfy pointwise what the
    formulas satisfy at each sample. *)
Lemma np_apply_Forall2 (P : R -> R -> Prop) (f g : Expr) (xs : list Expr) :
  Forall (fun s => P (evalR (evalR 0 s) f) (evalR (evalR 0 s) g)) xs ->
  Forall2 (fun ex ey => P (evalR 0 ex) (evalR 0 ey)) (np_apply f xs) (np_apply g xs).
Proof. induction 1; simpl; constructor; rewrite ?evalR_subst; auto. Qed.

(** The graph of a formula over its sample array. *)
Lemma np_apply_graph (P : R -> R -> Prop) (f : Expr) (xs : list Expr) :
  Forall (fun s => P (evalR 0 s) (evalR (evalR 0 s) f)) xs ->
  Forall2 (fun ex ey => P (evalR 0 ex) (evalR 0 ey)) xs (np_apply f xs).
Proof. induction 1; simpl; constructor; rewrite ?evalR_subst; auto. Qed.

(** The real values of an array computed by a formula. *)
Lemma map_evalR_np_apply (f : Expr) (ts : list Expr) :
  map (evalR 0) (np_apply f ts) = map (fun r => evalR r f) (map (evalR 0) ts).
Proof. unfold np_apply. rewrite !map_map. apply map_ext. intros t. apply evalR_subst. Qed.

Lemma Q2R_of_nat (i : nat) : Q2R (inject_Z (Z.of_nat i)) = INR i.
Proof. unfold Q2R; simpl. rewrite Rinv_1, Rmult_1_r, INR_IZR_INZ. reflexivity. Qed.

(** The real values of the symbolic sample points of
    [np.linspace(a, b, k + 2)]: evenly spaced from [a] to [b], both
    included. *)
Lemma np_linspace_e_evalR (a b : Expr) (k : nat) :
  map (evalR 0) (np_linspace_e a b (S (S k))) =
  map (fun i => evalR 0 a + INR i * ((evalR 0 b - evalR 0 a) / INR (S k)))%R (seq 0 (S (S k))).
Proof.
  unfold np_linspace_e. rewrite map_map. apply map_ext_in. intros i _.
  destruct (Nat.eqb_spec i (S k)) as [->|_].
  - field. apply not_0_INR. lia.
  - cbn [evalR]. rewrite !Q2R_of_nat. reflexivity.
Qed.

End Numpy.
