(* ===== verification/Pyplot.v ===== *)
(** * Pyplot.v: the matplotlib.pyplot and os contract the scripts use

    The scripts talk to two libraries with global state: [os] (the
    directories and files of the disk) and [matplotlib.pyplot] (the list
    of open figures, the current one, the axes of each).  This file
    states the behaviour of the calls the scripts make as a state
    machine: [St] is the global state, [Call] one statement of a script
    that calls the libraries, [exec] runs a function body.  The library
    itself is not part of the repository; only the behaviour its
    documentation specifies for these calls is modelled, and the scripts'
    theorems are proved against it. *)

From Stdlib Require Import QArith Qminmax Qreals Reals Psatz Ascii String.
From stdpp Require Import base gmap strings list.
From S2P Require Import Spec2Rocq Numpy.
Import Numpy.

Module Pyplot.

Local Open Scope Q_scope.

(** ** Artists and axes *)

Inductive LineStyle := Solid | Dashed | DashDot | Dotted | NoLine.
Inductive Marker := NoMarker | Circle.

#[export] Instance LineStyle_eq_dec : EqDecision LineStyle.
Proof. solve_decision. Defined.
#[export] Instance Marker_eq_dec : EqDecision Marker.
Proof. solve_decision. Defined.

(** The keyword arguments of [plot] that change what is drawn. *)
Record PlotKw := mkKw {
  kw_color : option string;        (* color= *)
  kw_marker : option Marker;       (* marker= *)
  kw_linestyle : option LineStyle; (* linestyle= *)
  kw_mfc : option string;          (* markerfacecolor= *)
  kw_mec : option string;          (* markeredgecolor= *)
  kw_fill_none : bool;             (* fillstyle='none' *)
  kw_label : option string         (* label= *)
}.

Definition kw0 : PlotKw := mkKw None None None None None false None.

Record Line2D := mkLine {
  ln_xs : list Expr;
  ln_ys : list Expr;
  ln_color : option string;
  ln_style : LineStyle;
  ln_marker : Marker;
  ln_mfc : option string;
  ln_fill_none : bool;
  ln_label : option string
}.

Inductive Patch :=
| Rect (x y w h : Q) (fill : bool) (axes_coords : bool)   (* plt.Rectangle *)
| Poly (pts : list (Expr * Expr)) (fill : bool).         (* plt.Polygon *)

Inductive Artist :=
| ALine (l : Line2D)
| AScatter (xs ys : list Expr) (color : option string)
| AText (x y : Expr) (s : string)
| AHLine (y : Expr) (style : LineStyle) (label : option string)
| AVLine (x : Expr) (style : LineStyle) (label : option string)
| APatch (p : Patch)
| AWedge (theta1 theta2 : Q) (color : string)             (* degrees *)
| AAnnot (s : string) (xy xytext : Expr * Expr).

Record Axes := mkAxes {
  ax_artists : list Artist;
  ax_title : string;
  ax_xlim : option (Q * Q);
  ax_ylim : option (Q * Q);
  ax_grid : bool;
  ax_axis_on : bool;
  ax_aspect_equal : bool;
  ax_legend : bool;
  ax_xticks : option (list Q);
  ax_hidden_spines : list string;
  ax_spine_pos : list (string * string);
  ax_yaxis_visible : bool
}.

Definition empty_axes : Axes :=
  mkAxes [] "" None None false true false false None [] [] true.

Record Fig := mkFig { fnum : nat; fsize : Q * Q; faxes : option Axes }.

(** What a saved PNG holds in the model: the figure and the dpi asked
    for ([None]: matplotlib's default). *)
Record Image := mkImage { img_fig : Fig; img_dpi : option Q }.

(** ** Global state and exceptions *)

Record St := mkSt {
  figs : list Fig;                        (* open figures, current first *)
  dirs : list string;                     (* existing directories *)
  blocked : list string;                  (* paths that exist and are not directories *)
  files : gmap (string * string) Image;   (* (directory, name) -> content *)
  out : list string                       (* lines printed on stdout *)
}.

Inductive PyErr :=
| FileExistsError (p : string)
| FileNotFoundError (p : string)
| ValueError (msg : string)
| NameError (n : string).

Definition set_figs (s : St) (fs : list Fig) : St :=
  mkSt fs (dirs s) (blocked s) (files s) (out s).

(** ** Format strings of [plot] ('b-', 'r--', 'ro', 'wo', 'purple', ...) *)

Definition fmt_colors : list Ascii.ascii :=
  ["b"; "g"; "r"; "c"; "m"; "y"; "k"; "w"]%char.

Definition named_colors : list string :=
  ["purple"; "blue"; "red"; "green"; "black"; "white"; "gray"; "orange"].

Fixpoint fmt_scan (s : string) : option (option string * option LineStyle * option Marker) :=
  match s with
  | EmptyString => Some (None, None, None)
  | String c r =>
      if Ascii.eqb c "-" then
        match r with
        | String c2 r2 =>
            if Ascii.eqb c2 "-" then
              match fmt_scan r2 with Some (col, _, mk) => Some (col, Some Dashed, mk) | None => None end
            else if Ascii.eqb c2 "." then
              match fmt_scan r2 with Some (col, _, mk) => Some (col, Some DashDot, mk) | None => None end
            else match fmt_scan r with Some (col, _, mk) => Some (col, Some Solid, mk) | None => None end
        | EmptyString => Some (None, Some Solid, None)
        end
      else if Ascii.eqb c ":" then
        match fmt_scan r with Some (col, _, mk) => Some (col, Some Dotted, mk) | None => None end
      else if Ascii.eqb c "o" then
        match fmt_scan r with Some (col, ls, _) => Some (col, ls, Some Circle) | None => None end
      else if bool_decide (c ∈ fmt_colors) then
        match fmt_scan r with Some (_, ls, mk) => Some (Some (String c EmptyString), ls, mk) | None => None end
      else None
  end.

(** A named color is a color only; otherwise the characters are read.
    Without a line style the line is solid, unless a marker is given. *)
Definition parse_fmt (s : string) : option (option string * LineStyle * Marker) :=
  if bool_decide (s ∈ named_colors) then Some (Some s, Solid, NoMarker)
  else
    match fmt_scan s with
    | None => None
    | Some (col, ls, mk) =>
        let ls' := match ls, mk with
                   | Some l, _ => l
                   | None, Some _ => NoLine
                   | None, None => Solid
                   end in
        Some (col, ls', default NoMarker mk)
    end.

Definition mk_line (xs ys : list Expr) (fmt : string) (kw : PlotKw) : PyErr + Line2D :=
  match parse_fmt fmt with
  | None => inl (ValueError (String.append "Unrecognized format string: " fmt))
  | Some (col, ls, mk) =>
      if bool_decide (length xs = length ys) then
        let mk' := default mk (kw_marker kw) in
        let ls' := default ls (kw_linestyle kw) in
        inr (mkLine xs ys (match kw_color kw with Some c => Some c | None => col end)
                    ls' mk' (kw_mfc kw) (kw_fill_none kw) (kw_label kw))
      else inl (ValueError "x and y must have same first dimension")
  end.

(** A marker drawn open: its face is white or unfilled. *)
Definition hollow (l : Line2D) : bool :=
  match ln_marker l with
  | NoMarker => false
  | Circle =>
      ln_fill_none l
      || bool_decide (ln_mfc l = Some "white")
      || bool_decide (ln_mfc l = None /\ ln_color l = Some "w")
  end.

(** ** Pie charts: the wedges of [ax.pie] in degrees *)

Fixpoint pie_wedges (fracs : list Q) (colors : list string) (k : nat)
         (theta : Q) (counterclock : bool) : list Artist :=
  match fracs with
  | [] => []
  | f :: fs =>
      let theta' := if counterclock then theta + f * 360 else theta - f * 360 in
      let col := default "" (colors !! Nat.modulo k (length colors)) in
      AWedge (Qmin theta theta') (Qmax theta theta') col
        :: pie_wedges fs colors (S k) theta' counterclock
  end.

(** Sizes summing to more than 1 are normalised. *)
Definition pie (sizes : list Q) (colors : list string) (start : Q) (cc : bool) : list Artist :=
  let total := fold_right Qplus 0 sizes in
  let fracs := if Qle_bool total 1 then sizes else map (fun v => v / total) sizes in
  pie_wedges fracs colors 0 start cc.

(** ** Methods of an axes *)

Inductive AxOp :=
| Plot (xs ys : list Expr) (fmt : string) (kw : PlotKw)
| Scatter (xs ys : list Expr) (color : option string)
| Text (x y : Expr) (s : string)
| Axhline (y : Expr) (ls : LineStyle) (label : option string)
| Axvline (x : Expr) (ls : LineStyle) (label : option string)
| AddPatch (p : Patch)
| Pie (sizes : list Q) (colors : list string) (startangle : Q) (counterclock : bool)
| Annotate (s : string) (xy xytext : Expr * Expr)
| SetTitle (s : string)
| Grid (b : bool)
| AxisMode (mode : string)
| SetAspect (mode : string)
| SetXlim (a b : Q)
| SetYlim (a b : Q)
| Legend
| SetXticks (l : list Q)
| SpineVisible (which : string) (b : bool)
| SpinePosition (which pos : string)
| YaxisVisible (b : bool).

Definition add_artists (a : Axes) (l : list Artist) : Axes :=
  mkAxes (ax_artists a ++ l) (ax_title a) (ax_xlim a) (ax_ylim a) (ax_grid a)
         (ax_axis_on a) (ax_aspect_equal a) (ax_legend a) (ax_xticks a)
         (ax_hidden_spines a) (ax_spine_pos a) (ax_yaxis_visible a).

Definition apply_op (o : AxOp) (a : Axes) : PyErr + Axes :=
  match o with
  | Plot xs ys fmt kw => do l <- mk_line xs ys fmt kw ; inr (add_artists a [ALine l])
  | Scatter xs ys c =>
      if bool_decide (length xs = length ys) then inr (add_artists a [AScatter xs ys c])
      else inl (ValueError "x and y must be the same size")
  | Text x y s => inr (add_artists a [AText x y s])
  | Axhline y ls lb => inr (add_artists a [AHLine y ls lb])
  | Axvline x ls lb => inr (add_artists a [AVLine x ls lb])
  | AddPatch p => inr (add_artists a [APatch p])
  | Pie sz cs st cc => inr (add_artists a (pie sz cs st cc))
  | Annotate s xy xyt => inr (add_artists a [AAnnot s xy xyt])
  | SetTitle t =>
      inr (mkAxes (ax_artists a) t (ax_xlim a) (ax_ylim a) (ax_grid a) (ax_axis_on a)
                  (ax_aspect_equal a) (ax_legend a) (ax_xticks a) (ax_hidden_spines a)
                  (ax_spine_pos a) (ax_yaxis_visible a))
  | Grid b =>
      inr (mkAxes (ax_artists a) (ax_title a) (ax_xlim a) (ax_ylim a) b (ax_axis_on a)
                  (ax_aspect_equal a) (ax_legend a) (ax_xticks a) (ax_hidden_spines a)
                  (ax_spine_pos a) (ax_yaxis_visible a))
  | AxisMode m =>
      let off := bool_decide (m = "off") in
      let eq := bool_decide (m = "equal") in
      inr (mkAxes (ax_artists a) (ax_title a) (ax_xlim a) (ax_ylim a) (ax_grid a)
                  (ax_axis_on a && negb off) (ax_aspect_equal a || eq) (ax_legend a)
                  (ax_xticks a) (ax_hidden_spines a) (ax_spine_pos a) (ax_yaxis_visible a))
  | SetAspect m =>
      inr (mkAxes (ax_artists a) (ax_title a) (ax_xlim a) (ax_ylim a) (ax_grid a)
                  (ax_axis_on a) (ax_aspect_equal a || bool_decide (m = "equal"))
                  (ax_legend a) (ax_xticks a) (ax_hidden_spines a) (ax_spine_pos a)
                  (ax_yaxis_visible a))
  | SetXlim l h =>
      inr (mkAxes (ax_artists a) (ax_title a) (Some (l, h)) (ax_ylim a) (ax_grid a)
                  (ax_axis_on a) (ax_aspect_equal a) (ax_legend a) (ax_xticks a)
                  (ax_hidden_spines a) (ax_spine_pos a) (ax_yaxis_visible a))
  | SetYlim l h =>
      inr (mkAxes (ax_artists a) (ax_title a) (ax_xlim a) (Some (l, h)) (ax_grid a)
                  (ax_axis_on a) (ax_aspect_equal a) (ax_legend a) (ax_xticks a)
                  (ax_hidden_spines a) (ax_spine_pos a) (ax_yaxis_visible a))
  | Legend =>
      inr (mkAxes (ax_artists a) (ax_title a) (ax_xlim a) (ax_ylim a) (ax_grid a)
                  (ax_axis_on a) (ax_aspect_equal a) true (ax_xticks a)
                  (ax_hidden_spines a) (ax_spine_pos a) (ax_yaxis_visible a))
  | SetXticks l =>
      inr (mkAxes (ax_artists a) (ax_title a) (ax_xlim a) (ax_ylim a) (ax_grid a)
                  (ax_axis_on a) (ax_aspect_equal a) (ax_legend a) (Some l)
                  (ax_hidden_spines a) (ax_spine_pos a) (ax_yaxis_visible a))
  | SpineVisible w b =>
      let hs := if b then filter (fun x => negb (bool_decide (x = w))) (ax_hidden_spines a)
                else w :: ax_hidden_spines a in
      inr (mkAxes (ax_artists a) (ax_title a) (ax_xlim a) (ax_ylim a) (ax_grid a)
                  (ax_axis_on a) (ax_aspect_equal a) (ax_legend a) (ax_xticks a)
                  hs (ax_spine_pos a) (ax_yaxis_visible a))
  | SpinePosition w p =>
      inr (mkAxes (ax_artists a) (ax_title a) (ax_xlim a) (ax_ylim a) (ax_grid a)
                  (ax_axis_on a) (ax_aspect_equal a) (ax_legend a) (ax_xticks a)
                  (ax_hidden_spines a) ((w, p) :: ax_spine_pos a) (ax_yaxis_visible a))
  | YaxisVisible b =>
      inr (mkAxes (ax_artists a) (ax_title a) (ax_xlim a) (ax_ylim a) (ax_grid a)
                  (ax_axis_on a) (ax_aspect_equal a) (ax_legend a) (ax_xticks a)
                  (ax_hidden_spines a) (ax_spine_pos a) b)
  end.

(** ** The pyplot figure registry and the os calls *)

Definition default_figsize : Q * Q := (6.4, 4.8).

(** [plt.figure()] numbers a new figure one above the largest open one. *)
Definition new_num (fs : list Fig) : nat := S (list_max (map fnum fs)).

Definition fig_axes (f : Fig) : Axes := default empty_axes (faxes f).

Definition set_axes (f : Fig) (a : Axes) : Fig := mkFig (fnum f) (fsize f) (Some a).

(** [plt.figure(figsize=sz)] ([ax = false]) and [plt.subplots(figsize=sz)]
    ([ax = true], which also creates the axes): the new figure becomes
    current. *)
Definition new_figure (sz : Q * Q) (ax : bool) (s : St) : nat * St :=
  let n := new_num (figs s) in
  (n, set_figs s (mkFig n sz (if ax then Some empty_axes else None) :: figs s)).

(** [plt.<op>(...)]: the method of [gca()], which creates a figure and
    its axes when there is none. *)
Definition on_gca (o : AxOp) (s : St) : PyErr + St :=
  match figs s with
  | [] => do a <- apply_op o empty_axes ;
          inr (set_figs s [mkFig (new_num []) default_figsize (Some a)])
  | f :: rest => do a <- apply_op o (fig_axes f) ; inr (set_figs s (set_axes f a :: rest))
  end.

(** [ax.<op>(...)] where [ax] belongs to figure [n].  Drawing on the axes
    of a figure that was closed changes nothing that can be saved. *)
Fixpoint on_fig (n : nat) (o : AxOp) (fs : list Fig) : PyErr + list Fig :=
  match fs with
  | [] => inr []
  | f :: rest =>
      if Nat.eqb (fnum f) n then do a <- apply_op o (fig_axes f) ; inr (set_axes f a :: rest)
      else do rest' <- on_fig n o rest ; inr (f :: rest')
  end.

(** [os.path.join] on Windows, for messages. *)
Definition path_join (d n : string) : string := String.append d (String.append "\" n).

(** [plt.gcf()]: the current figure, a new empty one when there is none. *)
Definition current (s : St) : Fig * St :=
  match figs s with
  | [] => let f := mkFig (new_num []) default_figsize None in (f, set_figs s [f])
  | f :: _ => (f, s)
  end.

(** [plt.savefig(os.path.join(d, n), bbox_inches='tight', dpi=dpi)]. *)
Definition savefig (d n : string) (dpi : option Q) (s : St) : PyErr + St :=
  let '(f, s1) := current s in
  if bool_decide (d ∈ dirs s1)
  then inr (mkSt (figs s1) (dirs s1) (blocked s1)
                 (<[(d, n) := mkImage f dpi]> (files s1)) (out s1))
  else inl (FileNotFoundError (path_join d n)).

(** [plt.close()]: closes the current figure, if any. *)
Definition close (s : St) : St := set_figs s (tail (figs s)).

Definition print (m : string) (s : St) : St :=
  mkSt (figs s) (dirs s) (blocked s) (files s) (out s ++ [m]).

(** [os.makedirs(d, exist_ok=...)]: a path occupied by a non-directory
    raises even with [exist_ok=True]. *)
Definition makedirs (d : string) (exist_ok : bool) (s : St) : PyErr + St :=
  if bool_decide (d ∈ dirs s) then (if exist_ok then inr s else inl (FileExistsError d))
  else if bool_decide (d ∈ blocked s) then inl (FileExistsError d)
  else inr (mkSt (figs s) (d :: dirs s) (blocked s) (files s) (out s)).

(** [os.path.exists(d)]. *)
Definition path_exists (d : string) (s : St) : bool :=
  bool_decide (d ∈ dirs s \/ d ∈ blocked s).

(** [if not os.path.exists(d): os.makedirs(d)], the guard the calculus
    and trigonometry scripts run on import. *)
Definition ensure_dir (d : string) (s : St) : PyErr + St :=
  if path_exists d s then inr s else makedirs d false s.

(** What a script's import leaves when it succeeds: a directory at [d]
    and nothing else changed. *)
Definition dir_ready (d : string) (s s1 : St) : Prop :=
  figs s1 = figs s /\ d ∈ dirs s1 /\ blocked s1 = blocked s /\ files s1 = files s /\ out s1 = out s.

(** ** Statements and their execution *)

Inductive Call :=
| CFigure (sz : Q * Q)                       (* plt.figure(figsize=sz) *)
| CSubplots (sz : Q * Q)                     (* fig, ax = plt.subplots(figsize=sz) *)
| CPlt (o : AxOp)                            (* plt.<o> *)
| CAx (o : AxOp)                             (* ax.<o> *)
| CSavefig (d n : string) (dpi : option Q)   (* plt.savefig(os.path.join(d, n), ...) *)
| CClose                                     (* plt.close() *)
| CPrint (m : string).                       (* print(m) *)

(** Syntactic equality of calls, so that [decide] finds a call in a
    function body by evaluation. *)
#[local] Instance Q_syn_eq_dec : EqDecision Q.
Proof. solve_decision. Defined.
#[export] Instance Expr_eq_dec : EqDecision Expr.
Proof. solve_decision. Defined.
#[export] Instance PlotKw_eq_dec : EqDecision PlotKw.
Proof. solve_decision. Defined.
#[export] Instance Patch_eq_dec : EqDecision Patch.
Proof. solve_decision. Defined.
#[export] Instance AxOp_eq_dec : EqDecision AxOp.
Proof. solve_decision. Defined.
#[export] Instance Call_eq_dec : EqDecision Call.
Proof. solve_decision. Defined.

(** A frame is the local [ax] of the running function (the figure
    number its [plt.subplots] returned) and the global state. *)
Definition exec_call (fr : option nat * St) (c : Call) : PyErr + (option nat * St) :=
  let '(ax, s) := fr in
  match c with
  | CFigure sz => inr (ax, snd (new_figure sz false s))
  | CSubplots sz => let '(n, s') := new_figure sz true s in inr (Some n, s')
  | CPlt o => do s' <- on_gca o s ; inr (ax, s')
  | CAx o =>
      match ax with
      | None => inl (NameError "ax")
      | Some n => do fs <- on_fig n o (figs s) ; inr (ax, set_figs s fs)
      end
  | CSavefig d n dpi => do s' <- savefig d n dpi s ; inr (ax, s')
  | CClose => inr (ax, close s)
  | CPrint m => inr (ax, print m s)
  end.

Definition exec_frame (cs : list Call) (fr : option nat * St) : PyErr + (option nat * St) :=
  fold_res exec_call cs fr.

(** Calling a function of the script: its body runs in a fresh frame. *)
Definition exec (cs : list Call) (s : St) : PyErr + St :=
  do fr <- exec_frame cs (None, s) ; inr (snd fr).

(** The [__main__] block: the functions called one after the other. *)
Definition exec_seq (bodies : list (list Call)) (s : St) : PyErr + St :=
  fold_res (fun s' body => exec body s') bodies s.

(** ** Diagram functions: open a figure, draw, save, close *)

Definition drawing (c : Call) : bool :=
  match c with CPlt _ | CAx _ => true | _ => false end.

(** A drawing call when [f] is the only open figure. *)
Definition draw_call (ax : option nat) (f : Fig) (c : Call) : PyErr + Fig :=
  match c with
  | CPlt o => do a <- apply_op o (fig_axes f) ; inr (set_axes f a)
  | CAx o =>
      match ax with
      | None => inl (NameError "ax")
      | Some n =>
          if Nat.eqb (fnum f) n then do a <- apply_op o (fig_axes f) ; inr (set_axes f a)
          else inr f
      end
  | _ => inr f
  end.

Definition render (ax : option nat) (cs : list Call) (f : Fig) : PyErr + Fig :=
  fold_res (draw_call ax) cs f.

(** The figure a diagram function opens when no figure is open. *)
Definition open_call (c : Call) : option (option nat * Fig) :=
  match c with
  | CFigure sz => Some (None, mkFig 1 sz None)
  | CSubplots sz => Some (Some 1%nat, mkFig 1 sz (Some empty_axes))
  | _ => None
  end.

Fixpoint split_draws (cs : list Call) : list Call * list Call :=
  match cs with
  | c :: rest =>
      if drawing c then let '(d, t) := split_draws rest in (c :: d, t) else ([], cs)
  | [] => ([], [])
  end.

Definition print_msg (c : Call) : list string :=
  match c with CPrint m => [m] | _ => [] end.

Definition is_print (c : Call) : bool :=
  match c with CPrint _ => true | _ => false end.

(** What one diagram function leaves behind. *)
Record Output := mkOut {
  o_dir : string; o_name : string; o_img : Image; o_msgs : list string
}.

(** The output of a body of the shape "open one figure; drawing calls;
    savefig; close; prints", computed without running it. *)
Definition diagram (body : list Call) : option Output :=
  match body with
  | c0 :: rest =>
      match open_call c0 with
      | None => None
      | Some (ax, f0) =>
          let '(draws, tl) := split_draws rest in
          match tl with
          | CSavefig d n dpi :: CClose :: prints =>
              if forallb is_print prints then
                match render ax draws f0 with
                | inr f => Some (mkOut d n (mkImage f dpi) (concat (map print_msg prints)))
                | inl _ => None
                end
              else None
          | _ => None
          end
      end
  | [] => None
  end.

Definition out_key (o : Output) : string * string := (o_dir o, o_name o).

Fixpoint diagrams (bodies : list (list Call)) : option (list Output) :=
  match bodies with
  | [] => Some []
  | b :: bs =>
      match diagram b, diagrams bs with
      | Some o, Some os => Some (o :: os)
      | _, _ => None
      end
  end.

Definition write_outputs (os : list Output) (m : gmap (string * string) Image)
  : gmap (string * string) Image :=
  fold_left (fun m o => <[out_key o := o_img o]> m) os m.

(** The images and labels drawn in a figure. *)
Definition artists (f : Fig) : list Artist := ax_artists (fig_axes f).

(** ** Reading a saved figure *)

Definition lines (f : Fig) : list Line2D :=
  flat_map (fun a => match a with ALine l => [l] | _ => [] end) (artists f).

Definition texts (f : Fig) : list (Expr * Expr * string) :=
  flat_map (fun a => match a with AText x y t => [(x, y, t)] | _ => [] end) (artists f).

(** A point with rational coordinates. *)
Definition qpt (ex ey : Expr) : option (Q * Q) :=
  match evalQ 0 ex, evalQ 0 ey with
  | Some a, Some b => Some (a, b)
  | _, _ => None
  end.

Definition line_pts (l : Line2D) : list (Q * Q) :=
  omap (fun '(ex, ey) => qpt ex ey) (zip (ln_xs l) (ln_ys l)).

(** The marker points of a figure and whether each is drawn open. *)
Definition markers (f : Fig) : list (Q * Q * bool) :=
  flat_map (fun l => match ln_marker l with
                     | Circle => map (fun p => (p, hollow l)) (line_pts l)
                     | NoMarker => []
                     end) (lines f)
  ++ flat_map (fun a => match a with
                        | AScatter xs ys _ =>
                            map (fun p => (p, false)) (omap (fun '(ex, ey) => qpt ex ey) (zip xs ys))
                        | _ => []
                        end) (artists f).

(** The polylines drawn in a given line style; the curves are the solid
    ones. *)
Definition polylines (st : LineStyle) (f : Fig) : list (list (Q * Q)) :=
  map line_pts (filter (fun l => bool_decide (ln_style l = st)) (lines f)).

Definition curves (f : Fig) : list (list (Q * Q)) := polylines Solid f.

(** The angle, in degrees, covered by the pie wedges of a color. *)
Definition wedge_span (col : option string) (f : Fig) : Q :=
  fold_right Qplus 0
    (flat_map (fun a => match a with
                        | AWedge t1 t2 c =>
                            if bool_decide (col = None \/ col = Some c) then [t2 - t1] else []
                        | _ => []
                        end) (artists f)).

Definition between (a b c : Q) : bool := Qle_bool (Qmin a b) c && Qle_bool c (Qmax a b).

Definition on_segment (p a b : Q * Q) : bool :=
  Qeq_bool ((b.1 - a.1) * (p.2 - a.2)) ((b.2 - a.2) * (p.1 - a.1))
  && between a.1 b.1 p.1 && between a.2 b.2 p.2.

Fixpoint on_polyline (p : Q * Q) (pts : list (Q * Q)) : bool :=
  match pts with
  | a :: ((b :: _) as rest) => on_segment p a b || on_polyline p rest
  | [a] => Qeq_bool p.1 a.1 && Qeq_bool p.2 a.2
  | [] => false
  end.

(** The heights of the horizontal lines ([axhline]) of a given style. *)
Definition hlines (st : LineStyle) (f : Fig) : list Q :=
  flat_map (fun a => match a with
                     | AHLine y st' _ =>
                         if bool_decide (st' = st) then default [] (option_map (fun v => [v]) (evalQ 0 y))
                         else []
                     | _ => []
                     end) (artists f).

(** The abscissas of the vertical lines ([axvline]) of a given style. *)
Definition vlines (st : LineStyle) (f : Fig) : list Q :=
  flat_map (fun a => match a with
                     | AVLine x st' _ =>
                         if bool_decide (st' = st) then default [] (option_map (fun v => [v]) (evalQ 0 x))
                         else []
                     | _ => []
                     end) (artists f).

(** The segments drawn by the line artists of a given style. *)
Fixpoint pairs {A} (l : list A) : list (A * A) :=
  match l with
  | a :: ((b :: _) as rest) => (a, b) :: pairs rest
  | _ => []
  end.

Definition segments (st : LineStyle) (f : Fig) : list ((Q * Q) * (Q * Q)) :=
  flat_map (fun l => if bool_decide (ln_style l = st) then pairs (line_pts l) else []) (lines f).

(** Where the texts [s] of a figure are written, and the first of them. *)
Definition text_pts (s : string) (f : Fig) : list (Q * Q) :=
  omap (fun '(ex, ey, t) => if String.eqb t s then qpt ex ey else None) (texts f).
Definition text_pos (s : string) (f : Fig) : option (Q * Q) := head (text_pts s f).

(** The rectangles ([plt.Rectangle] patches) placed in data
    coordinates: lower-left corner, width and height. *)
Definition rects (f : Fig) : list (Q * Q * Q * Q) :=
  flat_map (fun a => match a with APatch (Rect x y w h _ false) => [(x, y, w, h)] | _ => [] end)
           (artists f).

(** A polyline rising in both coordinates from each point to the next:
    the graph of a strictly increasing function, which every horizontal
    line meets at most once. *)
Definition increasing_pts (pts : list (Q * Q)) : bool :=
  forallb (fun '(p, q) => negb (Qle_bool q.1 p.1) && negb (Qle_bool q.2 p.2)) (pairs pts).

(** Plane geometry of drawn points: squared distance, midpoint, and the
    squared cosine of the angle at [a] between the rays to [p] and [q]. *)
Definition dist2 (p q : Q * Q) : Q := (p.1 - q.1) * (p.1 - q.1) + (p.2 - q.2) * (p.2 - q.2).
Definition midpoint (p q : Q * Q) : Q * Q := ((p.1 + q.1) / 2, (p.2 + q.2) / 2).
Definition cos2_at (a p q : Q * Q) : Q :=
  let d := (p.1 - a.1) * (q.1 - a.1) + (p.2 - a.2) * (q.2 - a.2) in
  d * d / (dist2 a p * dist2 a q).

(** The vertices of the polygons ([plt.Polygon] patches) and the
    arrows ([annotate]) of a figure. *)
Definition polygons (f : Fig) : list (list (Expr * Expr)) :=
  flat_map (fun a => match a with APatch (Poly pts _) => [pts] | _ => [] end) (artists f).
Definition annotations (f : Fig) : list (string * (Expr * Expr) * (Expr * Expr)) :=
  flat_map (fun a => match a with AAnnot s xy xyt => [(s, xy, xyt)] | _ => [] end) (artists f).

(** A drawn point read in the reals, and the squared distance there. *)
Definition ptR (p : Expr * Expr) : R * R := (evalR 0 p.1, evalR 0 p.2).
Definition dist2R (p q : R * R) : R := ((p.1 - q.1) * (p.1 - q.1) + (p.2 - q.2) * (p.2 - q.2))%R.

(** A line all of whose drawn points satisfy [P], read in the reals. *)
Definition line_on (P : R -> R -> Prop) (l : Line2D) : Prop :=
  Forall2 (fun ex ey => P (evalR 0 ex) (evalR 0 ey)) (ln_xs l) (ln_ys l).

(** The figure a diagram function saves. *)
Definition image_of (body : list Call) : option Fig :=
  match diagram body with Some o => Some (img_fig (o_img o)) | None => None end.

(** The coordinates an artist plots from numpy arrays. *)
Definition artist_coords (a : Artist) : list Expr :=
  match a with
  | ALine l => ln_xs l ++ ln_ys l
  | AScatter xs ys _ => xs ++ ys
  | _ => []
  end.

(** Every coordinate drawn by a line or a scatter passes the numpy
    domain checker. *)
Definition fig_safe (f : Fig) : bool :=
  forallb (fun a => forallb (safe 0) (artist_coords a)) (artists f).

(** Every figure a sequence of diagram functions saves passes
    [fig_safe]. *)
Definition script_safe (bodies : list (list Call)) : bool :=
  forallb (fun b => match image_of b with Some f => fig_safe f | None => false end) bodies.

(** A fresh process on an empty disk. *)
Definition init_state : St := mkSt [] [] [] ∅ [].

(** The files a sequence of diagram functions writes, and what it prints. *)
Definition script_keys (bodies : list (list Call)) : option (list (string * string)) :=
  option_map (map out_key) (diagrams bodies).

Definition script_msgs (bodies : list (list Call)) : option (list string) :=
  option_map (fun os => concat (map o_msgs os)) (diagrams bodies).

(** ** Lifecycle lemmas *)

Create HintDb pyplot discriminated.
Create Rewrite HintDb pyplot_rw.

Lemma set_figs_set_figs (s : St) (fs fs' : list Fig) :
  set_figs (set_figs s fs) fs' = set_figs s fs'.
Proof. reflexivity. Qed.

Lemma set_figs_same (s : St) : set_figs s (figs s) = s.
Proof. destruct s; reflexivity. Qed.

#[export] Hint Rewrite set_figs_set_figs set_figs_same : pyplot_rw.

Lemma exec_frame_app (c1 c2 : list Call) (fr : option nat * St) :
  exec_frame (c1 ++ c2) fr = bindr (exec_frame c1 fr) (exec_frame c2).
Proof. apply fold_res_app. Qed.

(** Drawing calls with one open figure [f] act on [f] only: running them
    is rendering [f] (errors included). *)
Lemma render_exec (draws : list Call) (ax : option nat) (f : Fig) (s : St) :
  forallb drawing draws = true -> figs s = [f] ->
  exec_frame draws (ax, s) = bindr (render ax draws f) (fun f' => inr (ax, set_figs s [f'])).
Proof.
  unfold exec_frame, render.
  revert f s; induction draws as [|c rest IH]; intros f [fs d b fl o] Hd Hf;
    simpl in *; subst fs; [reflexivity|].
  apply andb_prop in Hd as [Hc Hrest].
  destruct c as [| |op|op| | |]; try discriminate; simpl.
  - unfold on_gca; simpl.
    destruct (apply_op op (fig_axes f)) as [e|a]; simpl; [reflexivity|].
    rewrite (IH (set_axes f a)); auto.
  - destruct ax as [n|]; simpl; [|reflexivity].
    destruct (Nat.eqb (fnum f) n); simpl.
    + destruct (apply_op op (fig_axes f)) as [e|a]; simpl; [reflexivity|].
      rewrite (IH (set_axes f a)); auto.
    + rewrite (IH f); auto.
Qed.

Lemma exec_prints (ps : list Call) (ax : option nat) (s : St) :
  forallb is_print ps = true ->
  exec_frame ps (ax, s) =
  inr (ax, mkSt (figs s) (dirs s) (blocked s) (files s) (out s ++ concat (map print_msg ps))).
Proof.
  unfold exec_frame.
  revert s; induction ps as [|c ps IH]; intros s Hp; simpl in *.
  - destruct s; simpl. rewrite app_nil_r. reflexivity.
  - apply andb_prop in Hp as [Hc Hp]. destruct c; try discriminate. simpl.
    rewrite IH by exact Hp. simpl. rewrite <- app_assoc. reflexivity.
Qed.

Lemma split_draws_spec (cs d t : list Call) :
  split_draws cs = (d, t) -> cs = d ++ t /\ forallb drawing d = true.
Proof.
  revert d t; induction cs as [|c cs IH]; intros d t H; simpl in H.
  - injection H as <- <-. auto.
  - destruct (drawing c) eqn:Hc.
    + destruct (split_draws cs) as [d' t'] eqn:Hs. injection H as <- <-.
      destruct (IH _ _ eq_refl) as [-> Hd']. simpl. rewrite Hc, Hd'. auto.
    + injection H as <- <-. auto.
Qed.

Lemma open_call_exec (c : Call) (ax : option nat) (f : Fig) (s : St) :
  open_call c = Some (ax, f) -> figs s = [] ->
  exec_call (None, s) c = inr (ax, set_figs s [f]).
Proof.
  intros Ho Hf. destruct c; simpl in Ho; try discriminate;
    injection Ho as <- <-; simpl; unfold new_figure; rewrite Hf; reflexivity.
Qed.

(** The shape [diagram] accepts, read back from its result. *)
Lemma diagram_inv (body : list Call) (o : Output) :
  diagram body = Some o ->
  exists c0 ax f0 draws prints f,
    body = c0 :: draws ++ CSavefig (o_dir o) (o_name o) (img_dpi (o_img o)) :: CClose :: prints /\
    open_call c0 = Some (ax, f0) /\ forallb drawing draws = true /\
    forallb is_print prints = true /\ render ax draws f0 = inr f /\
    img_fig (o_img o) = f /\ o_msgs o = concat (map print_msg prints).
Proof.
  intros Hd. destruct body as [|c0 rest]; [discriminate|].
  simpl in Hd. destruct (open_call c0) as [[ax f0]|] eqn:Ho; [|discriminate].
  destruct (split_draws rest) as [draws tl] eqn:Hs.
  destruct (split_draws_spec _ _ _ Hs) as [-> Hdraws].
  destruct tl as [|[] tl]; try discriminate.
  destruct tl as [|[] prints]; try discriminate.
  destruct (forallb is_print prints) eqn:Hp; [|discriminate].
  destruct (render ax draws f0) as [e|f] eqn:Hr; [discriminate|].
  injection Hd as <-. exists c0, ax, f0, draws, prints, f. simpl. auto 8.
Qed.

(** A diagram function run with no figure open, into an existing
    directory, writes exactly its one file, prints its messages and
    leaves no figure open. *)
Lemma diagram_exec (body : list Call) (o : Output) (s : St) :
  diagram body = Some o -> figs s = [] -> o_dir o ∈ dirs s ->
  exec body s =
  inr (mkSt [] (dirs s) (blocked s) (<[out_key o := o_img o]> (files s)) (out s ++ o_msgs o)).
Proof.
  intros Hd Hf Hdir.
  destruct (diagram_inv _ _ Hd) as (c0 & ax & f0 & draws & prints & f & -> & Ho & Hdraws & Hp & Hr & Hi & Hm).
  destruct o as [d n [f1 dpi] msgs]; simpl in *; subst f1 msgs.
  pose proof (render_exec draws ax f0 (set_figs s [f0]) Hdraws eq_refl) as Hre.
  unfold exec, exec_frame in *.
  rewrite fold_res_cons, (open_call_exec _ _ _ _ Ho Hf), bindr_inr, fold_res_app, Hre, Hr.
  simpl. unfold savefig, current. simpl. rewrite bool_decide_true by exact Hdir. simpl.
  pose proof (exec_prints prints ax (close (mkSt [f] (dirs s) (blocked s)
        (<[(d, n) := mkImage f dpi]> (files s)) (out s))) Hp) as Hpr.
  unfold exec_frame in Hpr. rewrite Hpr. reflexivity.
Qed.

(** The guard leaves a directory at [d] unless a file is there. *)
Lemma ensure_dir_ok (d : string) (s : St) :
  d ∉ blocked s -> exists s1, ensure_dir d s = inr s1 /\ dir_ready d s s1.
Proof.
  intros Hb. unfold ensure_dir, path_exists, dir_ready. case_bool_decide as He.
  - exists s. repeat split; auto. destruct He as [He|He]; [exact He | contradiction].
  - unfold makedirs. rewrite !bool_decide_false by tauto.
    eexists. repeat split; simpl; auto. left.
Qed.

(** [os.makedirs(d, exist_ok=True)] leaves a directory at [d] unless a
    file is there. *)
Lemma makedirs_exist_ok (d : string) (s : St) :
  d ∉ blocked s -> exists s1, makedirs d true s = inr s1 /\ dir_ready d s s1.
Proof.
  intros Hb. unfold makedirs, dir_ready. case_bool_decide as Hd.
  - exists s. repeat split; auto.
  - rewrite bool_decide_false by exact Hb. eexists. repeat split; simpl; auto. left.
Qed.

(** With a file at [d], the guard does nothing. *)
Lemma ensure_dir_blocked (d : string) (s : St) :
  d ∈ blocked s -> ensure_dir d s = inr s.
Proof. intros Hb. unfold ensure_dir, path_exists. rewrite bool_decide_true by tauto. reflexivity. Qed.

Lemma forallb_take {A} (p : A -> bool) (n : nat) (l : list A) :
  forallb p l = true -> forallb p (take n l) = true.
Proof.
  rewrite <- (take_drop n l) at 1. rewrite forallb_app. intros H.
  apply andb_prop in H as [H _]. exact H.
Qed.

Lemma prints_nil (ps : list Call) :
  forallb is_print ps = true -> concat (map print_msg ps) = [] -> ps = [].
Proof. destruct ps as [|[] ps]; simpl; try discriminate; auto. Qed.

(** A prefix of a sequence whose run succeeds also succeeds. *)
Lemma fold_res_prefix {E A B} (f : A -> B -> E + A) (l : list B) (k : nat) (a a' : A) :
  fold_res f l a = inr a' -> exists a1, fold_res f (take k l) a = inr a1.
Proof.
  rewrite <- (take_drop k l) at 1. rewrite fold_res_app. intros H.
  apply bindr_inr_inv in H as (a1 & H & _). eauto.
Qed.

(** The figure lifecycle of a diagram function that prints nothing:
    called with no figure open and its directory present, each prefix
    of its body runs, and exactly one figure is open after its first
    statement ([plt.figure] or [plt.subplots]) up to its [savefig], none
    before it and none once its last statement, [plt.close()], has run. *)
Lemma diagram_prefix_open (body : list Call) (o : Output) (s : St) (k : nat) :
  diagram body = Some o -> o_msgs o = [] -> figs s = [] -> o_dir o ∈ dirs s ->
  exists ax s', exec_frame (take k body) (None, s) = inr (ax, s') /\
    length (figs s') = (if bool_decide (0 < k < length body) then 1 else 0)%nat.
Proof.
  intros Hd Hm0 Hf Hdir.
  destruct (diagram_inv _ _ Hd) as (c0 & ax0 & f0 & draws & prints & f & Hb & Ho & Hdraws & Hp & Hr & _ & Hm).
  rewrite Hm0 in Hm. rewrite (prints_nil _ Hp (eq_sym Hm)) in Hb. subst body.
  destruct k as [|k]; [exists None, s; rewrite Hf; split; [reflexivity|]; rewrite bool_decide_false by lia; reflexivity|].
  cbn [take]. unfold exec_frame.
  rewrite fold_res_cons, (open_call_exec _ _ _ _ Ho Hf), bindr_inr, take_app, fold_res_app.
  pose proof (render_exec (take k draws) ax0 f0 (set_figs s [f0]) (forallb_take _ k _ Hdraws) eq_refl)
    as Hre.
  unfold exec_frame in Hre. rewrite Hre. clear Hre.
  destruct (fold_res_prefix _ _ k _ _ Hr) as (f1 & Hr1). unfold render. rewrite Hr1, !bindr_inr.
  assert (Hlen : length (c0 :: draws ++ [CSavefig (o_dir o) (o_name o) (img_dpi (o_img o)); CClose])
                 = (length draws + 3)%nat) by (simpl; rewrite length_app; simpl; lia).
  rewrite Hlen.
  destruct (k - length draws)%nat as [|[|j]] eqn:Ek; cbn [firstn].
  - eexists _, _. split; [reflexivity|]. rewrite bool_decide_true by lia. reflexivity.
  - rewrite fold_res_cons. cbn [exec_call]. unfold savefig, current. simpl.
    rewrite bool_decide_true by exact Hdir.
    eexists _, _. split; [reflexivity|]. rewrite bool_decide_true by lia. reflexivity.
  - rewrite take_nil, !fold_res_cons. cbn [exec_call]. unfold savefig, current. simpl.
    rewrite bool_decide_true by exact Hdir. cbn [firstn fold_res bindr exec_call].
    eexists _, _. split; [reflexivity|]. rewrite bool_decide_false by lia. reflexivity.
Qed.

(** Calling diagram functions one after the other, from a state with
    no open figure, writes their files in order and leaves no figure
    open. *)
Lemma exec_seq_diagrams (bodies : list (list Call)) (os : list Output) (s : St) :
  diagrams bodies = Some os -> figs s = [] -> Forall (fun o => o_dir o ∈ dirs s) os ->
  exec_seq bodies s =
  inr (mkSt [] (dirs s) (blocked s) (write_outputs os (files s))
            (out s ++ concat (map o_msgs os))).
Proof.
  unfold exec_seq.
  revert os s; induction bodies as [|b bs IH]; intros os s Hd Hf Hdir; simpl in Hd.
  - injection Hd as <-. destruct s; simpl in *; subst. rewrite app_nil_r. reflexivity.
  - destruct (diagram b) as [o|] eqn:Hb; [|discriminate].
    destruct (diagrams bs) as [os'|] eqn:Hbs; [|discriminate].
    injection Hd as <-. apply Forall_cons in Hdir as [Ho Hos].
    rewrite fold_res_cons, (diagram_exec b o s Hb Hf Ho), bindr_inr.
    rewrite (IH os') by (simpl; auto). simpl. rewrite app_assoc. reflexivity.
Qed.

Lemma lookup_write_outputs_notin (os : list Output) m k :
  k ∉ map out_key os -> write_outputs os m !! k = m !! k.
Proof.
  revert m; induction os as [|o os IH]; intros m Hk; simpl in *; [reflexivity|].
  rewrite not_elem_of_cons in Hk. destruct Hk as [Hne Hk].
  unfold write_outputs in IH. rewrite IH by exact Hk.
  apply lookup_insert_ne. congruence.
Qed.

Lemma lookup_write_outputs_in (os : list Output) m o :
  NoDup (map out_key os) -> o ∈ os -> write_outputs os m !! out_key o = Some (o_img o).
Proof.
  revert m; induction os as [|o' os IH]; intros m Hnd Ho; [set_solver|].
  simpl in Hnd. apply NoDup_cons in Hnd as [Hnin Hnd].
  apply elem_of_cons in Ho as [->|Ho]; simpl.
  - rewrite (lookup_write_outputs_notin os) by exact Hnin. apply lookup_insert_eq.
  - apply (IH _ Hnd Ho).
Qed.

Lemma makedirs_blocked (d : string) (e : bool) (s : St) :
  d ∉ dirs s -> d ∈ blocked s -> makedirs d e s = inl (FileExistsError d).
Proof.
  intros Hd Hb. unfold makedirs.
  rewrite bool_decide_false by exact Hd. rewrite bool_decide_true by exact Hb.
  reflexivity.
Qed.

(** The script-level consequence of [exec_seq_diagrams]: which files
    exist afterwards and what they hold. *)
Lemma exec_seq_files (bodies : list (list Call)) (os : list Output) (s : St) :
  diagrams bodies = Some os -> NoDup (map out_key os) -> figs s = [] ->
  Forall (fun o => o_dir o ∈ dirs s) os ->
  exists s', exec_seq bodies s = inr s' /\ figs s' = [] /\ dirs s' = dirs s /\
    blocked s' = blocked s /\
    (forall k, k ∉ map out_key os -> files s' !! k = files s !! k) /\
    (forall o, o ∈ os -> files s' !! out_key o = Some (o_img o)) /\
    out s' = out s ++ concat (map o_msgs os).
Proof.
  intros Hd Hnd Hf Hdir. rewrite (exec_seq_diagrams bodies os s Hd Hf Hdir).
  eexists; split; [reflexivity|]. simpl. repeat split; auto.
  - intros k Hk. apply lookup_write_outputs_notin, Hk.
  - intros o Ho. apply lookup_write_outputs_in; auto.
Qed.

(** Soundness of [fig_safe]: no plotted array of the figure holds [nan]
    or [inf]. *)
Lemma fig_safe_sound (f : Fig) (a : Artist) :
  fig_safe f = true -> a ∈ artists f -> Forall (dom 0%R) (artist_coords a).
Proof.
  intros Hs Ha. unfold fig_safe in Hs. rewrite forallb_forall in Hs.
  apply list_elem_of_In in Ha. specialize (Hs _ Ha). rewrite forallb_forall in Hs.
  rewrite <- RMicromega.Q2R_0.
  apply Forall_forall. intros e He. apply list_elem_of_In in He. apply safe_sound; auto.
Qed.

Lemma diagrams_in (bodies : list (list Call)) (os : list Output) (b : list Call) (o : Output) :
  diagrams bodies = Some os -> b ∈ bodies -> diagram b = Some o -> o ∈ os.
Proof.
  revert os; induction bodies as [|b' bs IH]; intros os Hd Hb Ho; [set_solver|].
  simpl in Hd. destruct (diagram b') as [o'|] eqn:Hb'; [|discriminate].
  destruct (diagrams bs) as [os'|]; [|discriminate]. injection Hd as <-.
  apply elem_of_cons in Hb as [->|Hb].
  - rewrite Hb' in Ho. injection Ho as ->. left.
  - right. apply (IH os'); auto.
Qed.

(** Every function of a script [diagrams] accepts has the diagram
    shape. *)
Lemma diagrams_some (bodies : list (list Call)) (os : list Output) (b : list Call) :
  diagrams bodies = Some os -> b ∈ bodies -> exists o, diagram b = Some o.
Proof.
  revert os; induction bodies as [|b' bs IH]; intros os Hd Hb; [set_solver|].
  simpl in Hd. destruct (diagram b') as [o'|] eqn:Hb'; [|discriminate].
  destruct (diagrams bs) as [os'|] eqn:Hbs; [|discriminate].
  apply elem_of_cons in Hb as [->|Hb]; [eauto | exact (IH os' eq_refl Hb)].
Qed.

Lemma script_keys_diagram (bodies : list (list Call)) (ks : list (string * string)) (b : list Call) :
  script_keys bodies = Some ks -> b ∈ bodies -> exists o, diagram b = Some o.
Proof.
  unfold script_keys. destruct (diagrams bodies) as [os|] eqn:Hds; [|discriminate].
  intros _. apply (diagrams_some _ _ _ Hds).
Qed.

(** The key of an output of a script names the script's directory and
    one of its files. *)
Lemma out_keys_dir (os : list Output) (d : string) (names : list string) (o : Output) :
  map out_key os = map (pair d) names -> o ∈ os -> o_dir o = d /\ o_name o ∈ names.
Proof.
  intros Hk Ho. apply list_elem_of_In, (in_map out_key) in Ho. rewrite Hk in Ho.
  apply in_map_iff in Ho as (n & Hn & Hin). unfold out_key in Hn.
  injection Hn as -> ->. split; [reflexivity | apply list_elem_of_In, Hin].
Qed.

(** The figure lifecycle of [diagram_prefix_open] for every function of
    a script whose functions write into [d] and print nothing. *)
Lemma script_prefix_open (bodies : list (list Call)) (d : string) (names : list string)
      (b : list Call) (s : St) (k : nat) :
  script_keys bodies = Some (map (pair d) names) -> script_msgs bodies = Some [] ->
  b ∈ bodies -> figs s = [] -> d ∈ dirs s ->
  exists ax s', exec_frame (take k b) (None, s) = inr (ax, s') /\
    length (figs s') = (if bool_decide (0 < k < length b) then 1 else 0)%nat.
Proof.
  unfold script_keys, script_msgs. intros Hk Hm Hb Hf Hd.
  destruct (diagrams bodies) as [os|] eqn:Hds; [|discriminate].
  injection Hk as Hk. injection Hm as Hm.
  destruct (diagrams_some _ _ _ Hds Hb) as (o & Ho).
  pose proof (diagrams_in _ _ _ _ Hds Hb Ho) as Hoin.
  apply (diagram_prefix_open b o s k Ho); [| exact Hf |].
  - apply concat_nil_Forall, Forall_map in Hm. rewrite Forall_forall in Hm. exact (Hm o Hoin).
  - rewrite (proj1 (out_keys_dir os d names o Hk Hoin)). exact Hd.
Qed.

(** A script whose diagram functions all write into the directory [d]
    under the pairwise distinct names [names]: run from a state with no
    open figure in which [d] exists, it writes each of those files with
    the figure its function draws, leaves every other file as it was,
    prints its messages and closes every figure it opened. *)
Lemma exec_seq_into_dir (bodies : list (list Call)) (d : string) (names msgs : list string)
      (s : St) :
  script_keys bodies = Some (map (pair d) names) -> script_msgs bodies = Some msgs ->
  NoDup names -> figs s = [] -> d ∈ dirs s ->
  exists s', exec_seq bodies s = inr s' /\ figs s' = [] /\ dirs s' = dirs s /\
    blocked s' = blocked s /\
    (forall k, k ∉ map (pair d) names -> files s' !! k = files s !! k) /\
    (forall b o, b ∈ bodies -> diagram b = Some o -> files s' !! (d, o_name o) = Some (o_img o)) /\
    (forall n, n ∈ names -> is_Some (files s' !! (d, n))) /\
    out s' = out s ++ msgs.
Proof.
  intros Hk Hm Hnd Hf Hd. unfold script_keys, script_msgs in *.
  destruct (diagrams bodies) as [os|] eqn:Hds; [|discriminate].
  injection Hk as Hk. injection Hm as <-.
  pose proof (fun o Ho => proj1 (out_keys_dir os d names o Hk Ho)) as Hdir.
  destruct (exec_seq_files bodies os s Hds) as (s' & Hrun & Hf' & Hd' & Hb' & Hother & Hin & Hout).
  - rewrite Hk. apply (NoDup_fmap_2_strong (pair d)); [intros x y _ _ E; injection E; auto | exact Hnd].
  - exact Hf.
  - apply Forall_forall. intros o Ho. rewrite (Hdir o Ho). exact Hd.
  - exists s'. rewrite Hk in Hother. repeat split; auto.
    + intros b o Hb Ho. pose proof (diagrams_in _ _ _ _ Hds Hb Ho) as Hoin.
      rewrite <- (Hdir o Hoin). apply Hin, Hoin.
    + intros n Hn. assert (Hkn : (d, n) ∈ map out_key os)
        by (rewrite Hk; apply (list_elem_of_fmap_2 (pair d)), Hn).
      apply list_elem_of_fmap_1 in Hkn as (o & Ho & Hoin). rewrite Ho.
      rewrite (Hin o Hoin). eexists; reflexivity.
Qed.

(** A script run, its import followed by its [__main__] block of
    diagram functions, from a state with no open figure and an import
    that readies the directory: the files of the script are written, no
    other file changes, no figure is left open. *)
Lemma run_into_dir (init : St -> PyErr + St) (bodies : list (list Call)) (d : string)
      (names msgs : list string) (s : St) :
  script_keys bodies = Some (map (pair d) names) -> script_msgs bodies = Some msgs ->
  NoDup names -> (exists s1, init s = inr s1 /\ dir_ready d s s1) -> figs s = [] ->
  exists s', bindr (init s) (exec_seq bodies) = inr s' /\ figs s' = [] /\ d ∈ dirs s' /\
    blocked s' = blocked s /\
    (forall k, k ∉ map (pair d) names -> files s' !! k = files s !! k) /\
    (forall b o, b ∈ bodies -> diagram b = Some o -> files s' !! (d, o_name o) = Some (o_img o)) /\
    (forall n, n ∈ names -> is_Some (files s' !! (d, n))) /\
    out s' = out s ++ msgs.
Proof.
  intros Hk Hm Hnd (s1 & Hi & Hf1 & Hd1 & Hb1 & Hfl1 & Ho1) Hf. rewrite Hi, bindr_inr.
  rewrite <- Hf1 in Hf.
  destruct (exec_seq_into_dir bodies d names msgs s1 Hk Hm Hnd Hf Hd1)
    as (s' & Hrun & Hf' & Hd' & Hb' & Hother & Himg & Hin & Hout).
  exists s'. rewrite Hd', Hb', <- Hb1, <- Hfl1, <- Ho1. repeat split; auto.
Qed.

Lemma write_outputs_cons (o : Output) (os : list Output) (m : gmap (string * string) Image) :
  write_outputs (o :: os) m = write_outputs os (<[out_key o := o_img o]> m).
Proof. reflexivity. Qed.

Lemma write_outputs_insert (os : list Output) (k : string * string) (v : Image)
      (m : gmap (string * string) Image) :
  k ∉ map out_key os -> write_outputs os (<[k := v]> m) = <[k := v]> (write_outputs os m).
Proof.
  revert m; induction os as [|o os IH]; intros m Hk; [reflexivity|].
  rewrite !write_outputs_cons. apply not_elem_of_cons in Hk as [Hne Hk].
  rewrite insert_insert_ne by congruence. apply IH, Hk.
Qed.

(** Writing two lists of outputs with disjoint keys commutes. *)
Lemma write_outputs_comm (os1 os2 : list Output) (m : gmap (string * string) Image) :
  (forall o, o ∈ os1 -> out_key o ∉ map out_key os2) ->
  write_outputs os1 (write_outputs os2 m) = write_outputs os2 (write_outputs os1 m).
Proof.
  revert m; induction os1 as [|o os1 IH]; intros m H; [reflexivity|].
  rewrite !write_outputs_cons, <- write_outputs_insert by (apply H; left).
  apply IH. intros o' Ho'. apply H. right. exact Ho'.
Qed.

Lemma ensure_dir_present (d : string) (s : St) : d ∈ dirs s -> ensure_dir d s = inr s.
Proof. intros H. unfold ensure_dir, path_exists. rewrite bool_decide_true by tauto. reflexivity. Qed.

(** Two scripts that guard their directory with [ensure_dir], write
    disjoint sets of files into it and print nothing leave the same
    state whichever runs first. *)
Lemma guarded_scripts_commute (d : string) (b1 b2 : list (list Call)) (n1 n2 : list string)
      (s : St) :
  script_keys b1 = Some (map (pair d) n1) -> script_keys b2 = Some (map (pair d) n2) ->
  script_msgs b1 = Some [] -> script_msgs b2 = Some [] ->
  (forall n, n ∈ n1 -> n ∉ n2) -> figs s = [] -> d ∉ blocked s ->
  exists s',
    bindr (bindr (ensure_dir d s) (exec_seq b1)) (fun s1 => bindr (ensure_dir d s1) (exec_seq b2))
      = inr s' /\
    bindr (bindr (ensure_dir d s) (exec_seq b2)) (fun s1 => bindr (ensure_dir d s1) (exec_seq b1))
      = inr s'.
Proof.
  intros Hk1 Hk2 Hm1 Hm2 Hn Hf Hb. unfold script_keys, script_msgs in *.
  destruct (diagrams b1) as [os1|] eqn:Hd1; [|discriminate].
  destruct (diagrams b2) as [os2|] eqn:Hd2; [|discriminate].
  simpl in *. injection Hk1 as Hk1. injection Hk2 as Hk2. injection Hm1 as Hm1. injection Hm2 as Hm2.
  destruct (ensure_dir_ok d s Hb) as (s1 & He & Hf1 & Hdd & _). rewrite <- Hf1 in Hf.
  assert (Hdir : forall os names, map out_key os = map (pair d) names ->
                 Forall (fun o => o_dir o ∈ dirs s1) os).
  { intros os names Hk. apply Forall_forall. intros o Ho.
    rewrite (proj1 (out_keys_dir os d names o Hk Ho)). exact Hdd. }
  rewrite He, !bindr_inr, (exec_seq_diagrams b1 os1 s1 Hd1 Hf (Hdir _ _ Hk1)),
    (exec_seq_diagrams b2 os2 s1 Hd2 Hf (Hdir _ _ Hk2)), !bindr_inr,
    !ensure_dir_present by exact Hdd.
  rewrite !bindr_inr.
  erewrite (exec_seq_diagrams b2 os2 _ Hd2) by (reflexivity || exact (Hdir _ _ Hk2)).
  erewrite (exec_seq_diagrams b1 os1 _ Hd1) by (reflexivity || exact (Hdir _ _ Hk1)).
  eexists. split; [reflexivity|]. cbn [dirs blocked files out]. rewrite Hm1, Hm2.
  rewrite (write_outputs_comm os2 os1); [reflexivity|].
  intros o Ho Hin. rewrite Hk1 in Hin.
  destruct (out_keys_dir os2 d n2 o Hk2 Ho) as [Hod Hon].
  apply list_elem_of_In, in_map_iff in Hin as (n & Hn' & Hin). unfold out_key in Hn'.
  injection Hn' as _ ->. exact (Hn _ (proj2 (list_elem_of_In _ _) Hin) Hon).
Qed.

(** Numeric safety of a whole script from the executable check. *)
Lemma script_safe_sound (bodies : list (list Call)) (b : list Call) (f : Fig) (a : Artist) :
  script_safe bodies = true -> b ∈ bodies -> image_of b = Some f -> a ∈ artists f ->
  Forall (dom 0%R) (artist_coords a).
Proof.
  intros Hs Hb Hf Ha. apply (fig_safe_sound f); [|exact Ha].
  unfold script_safe in Hs. rewrite forallb_forall in Hs.
  apply list_elem_of_In in Hb. specialize (Hs b Hb). rewrite Hf in Hs. exact Hs.
Qed.

(** The error path: when the directory is missing, the diagram function
    raises [FileNotFoundError] at [savefig]. *)
Lemma diagram_exec_missing_dir (body : list Call) (o : Output) (s : St) :
  diagram body = Some o -> figs s = [] -> o_dir o ∉ dirs s ->
  exec body s = inl (FileNotFoundError (path_join (o_dir o) (o_name o))).
Proof.
  intros Hd Hf Hdir.
  destruct (diagram_inv _ _ Hd) as (c0 & ax & f0 & draws & prints & f & -> & Ho & Hdraws & Hp & Hr & Hi & Hm).
  destruct o as [d n [f1 dpi] msgs]; simpl in *; subst f1 msgs.
  pose proof (render_exec draws ax f0 (set_figs s [f0]) Hdraws eq_refl) as Hre.
  unfold exec, exec_frame in *.
  rewrite fold_res_cons, (open_call_exec _ _ _ _ Ho Hf), bindr_inr, fold_res_app, Hre, Hr.
  simpl. unfold savefig, current. simpl. rewrite bool_decide_false by exact Hdir.
  reflexivity.
Qed.

(** ** The artists of a saved figure *)

Lemma artists_set_axes (f : Fig) (a : Axes) : artists (set_axes f a) = ax_artists a.
Proof. reflexivity. Qed.

#[export] Hint Rewrite artists_set_axes : pyplot_rw.

(** Axes methods only append artists. *)
Lemma apply_op_mono (o : AxOp) (a a' : Axes) :
  apply_op o a = inr a' -> exists l, ax_artists a' = ax_artists a ++ l.
Proof.
  destruct o; simpl; intros H; repeat case_bool_decide; res_inv; simpl;
    first [exists []; rewrite app_nil_r; reflexivity | eexists; reflexivity].
Qed.

Lemma apply_op_plot (xs ys : list Expr) (fmt : string) (kw : PlotKw) (a a' : Axes) :
  apply_op (Plot xs ys fmt kw) a = inr a' ->
  exists l, mk_line xs ys fmt kw = inr l /\ ALine l ∈ ax_artists a'.
Proof. simpl. intros H. res_inv. eexists; split; [eassumption|]. simpl. set_solver. Qed.

Lemma draw_call_mono (ax : option nat) (f f' : Fig) (c : Call) :
  draw_call ax f c = inr f' -> exists l, artists f' = artists f ++ l.
Proof.
  destruct c; cbn [draw_call]; intros H;
    try (injection H as <-; exists []; rewrite app_nil_r; reflexivity).
  - res_inv. autorewrite with pyplot_rw. exact (apply_op_mono _ _ _ E).
  - destruct ax as [n|]; [|discriminate]. destruct (Nat.eqb (fnum f) n).
    + res_inv. autorewrite with pyplot_rw. exact (apply_op_mono _ _ _ E).
    + injection H as <-. exists []. rewrite app_nil_r. reflexivity.
Qed.

Lemma render_mono (ax : option nat) (cs : list Call) (f f' : Fig) :
  render ax cs f = inr f' -> exists l, artists f' = artists f ++ l.
Proof.
  unfold render. revert f; induction cs as [|c cs IH]; intros f H.
  - injection H as <-. exists []. rewrite app_nil_r. reflexivity.
  - rewrite fold_res_cons in H. res_inv.
    destruct (draw_call_mono _ _ _ _ E) as [l1 H1]. destruct (IH _ H) as [l2 H2].
    exists (l1 ++ l2). rewrite H2, H1, app_assoc. reflexivity.
Qed.

Lemma draw_call_fnum (ax : option nat) (f f' : Fig) (c : Call) :
  draw_call ax f c = inr f' -> fnum f' = fnum f.
Proof.
  destruct c; cbn [draw_call]; intros H; try (injection H as <-; reflexivity).
  - res_inv. reflexivity.
  - destruct ax as [n|]; [|discriminate].
    destruct (Nat.eqb (fnum f) n); [res_inv; reflexivity | injection H as <-; reflexivity].
Qed.

(** A [plt.plot] or [ax.plot] call among the drawing calls leaves its
    line in the figure, when [ax] names that figure. *)
Lemma render_plot (ax : option nat) (cs : list Call) (f f' : Fig)
      (xs ys : list Expr) (fmt : string) (kw : PlotKw) :
  (forall n, ax = Some n -> n = fnum f) ->
  render ax cs f = inr f' ->
  CPlt (Plot xs ys fmt kw) ∈ cs \/ CAx (Plot xs ys fmt kw) ∈ cs ->
  exists l, mk_line xs ys fmt kw = inr l /\ ALine l ∈ artists f'.
Proof.
  revert f; induction cs as [|c cs IH]; intros f Hax H Hin.
  { rewrite !elem_of_nil in Hin. tauto. }
  unfold render in H. rewrite fold_res_cons in H. res_inv. rewrite !elem_of_cons in Hin.
  destruct (decide (CPlt (Plot xs ys fmt kw) = c \/ CAx (Plot xs ys fmt kw) = c)) as [Hc|Hc].
  - assert (Hd : exists l, mk_line xs ys fmt kw = inr l /\ ALine l ∈ artists a).
    { destruct Hc as [Hc|Hc]; subst c; cbn [draw_call] in E.
      - res_inv. destruct (apply_op_plot _ _ _ _ _ _ E0) as (l & Hl & Hm).
        exists l. split; [exact Hl | exact Hm].
      - destruct ax as [n|]; [|discriminate].
        rewrite (Hax n eq_refl), Nat.eqb_refl in E. res_inv.
        destruct (apply_op_plot _ _ _ _ _ _ E0) as (l & Hl & Hm).
        exists l. split; [exact Hl | exact Hm]. }
    destruct Hd as (l & Hl & Hm). destruct (render_mono ax cs _ _ H) as [l2 H2].
    exists l. split; [exact Hl|]. rewrite H2. apply elem_of_app. left. exact Hm.
  - apply (IH a); [|exact H|tauto].
    intros n Hn. rewrite (draw_call_fnum _ _ _ _ E). apply Hax, Hn.
Qed.

(** A drawing call of a diagram body is one of its drawing calls. *)
Lemma body_draw_in (c c0 : Call) (draws prints : list Call) (d n : string) (dpi : option Q)
      (ax : option nat) (f0 : Fig) :
  drawing c = true -> open_call c0 = Some (ax, f0) -> forallb is_print prints = true ->
  c ∈ c0 :: draws ++ CSavefig d n dpi :: CClose :: prints -> c ∈ draws.
Proof.
  intros Hc Ho Hp Hin.
  apply elem_of_cons in Hin as [->|Hin]; [destruct c0; discriminate|].
  apply elem_of_app in Hin as [Hin|Hin]; [exact Hin|].
  repeat (apply elem_of_cons in Hin as [->|Hin]; [discriminate|]).
  apply list_elem_of_In in Hin. rewrite forallb_forall in Hp. specialize (Hp _ Hin).
  destruct c; discriminate.
Qed.

(** [mk_line] keeps the arrays it is given; its other fields do not
    depend on them, so they are computed on empty arrays. *)
Lemma mk_line_spec (xs ys : list Expr) (fmt : string) (kw : PlotKw) (l : Line2D) :
  mk_line xs ys fmt kw = inr l ->
  ln_xs l = xs /\ ln_ys l = ys /\
  mk_line [] [] fmt kw = inr (mkLine [] [] (ln_color l) (ln_style l) (ln_marker l)
                                     (ln_mfc l) (ln_fill_none l) (ln_label l)).
Proof.
  unfold mk_line. destruct (parse_fmt fmt) as [[[col ls] mk]|]; [|discriminate].
  case_bool_decide; [|discriminate]. intros Hl. injection Hl as <-. simpl. auto.
Qed.

(** Every [plt.plot] call of a diagram function leaves its line, with
    the arrays it was given, in the figure the function saves. *)
Lemma image_of_plot (body : list Call) (f : Fig)
      (xs ys : list Expr) (fmt : string) (kw : PlotKw) :
  image_of body = Some f ->
  CPlt (Plot xs ys fmt kw) ∈ body \/ CAx (Plot xs ys fmt kw) ∈ body ->
  exists l, mk_line xs ys fmt kw = inr l /\ ALine l ∈ artists f.
Proof.
  unfold image_of. intros Hi Hin.
  destruct (diagram body) as [o|] eqn:Hd; [|discriminate]. injection Hi as <-.
  destruct (diagram_inv _ _ Hd) as (c0 & ax & f0 & draws & prints & f & -> & Ho & _ & Hp & Hr & -> & _).
  apply (render_plot ax draws f0); [|exact Hr|].
  - destruct c0; simpl in Ho; try discriminate; injection Ho as <- <-; intros n Hn;
      [discriminate | injection Hn as <-; reflexivity].
  - destruct Hin as [Hin|Hin]; [left|right];
      (eapply body_draw_in; [reflexivity | exact Ho | exact Hp | exact Hin]).
Qed.

(** The same, as the client uses it: the line in the saved figure has
    the plotted arrays, and its style and marker are those [mk_line]
    gives the format string and keywords. *)
Lemma image_of_plot_line (body : list Call) (f : Fig)
      (xs ys : list Expr) (fmt : string) (kw : PlotKw) :
  image_of body = Some f ->
  bool_decide (CPlt (Plot xs ys fmt kw) ∈ body \/ CAx (Plot xs ys fmt kw) ∈ body) = true ->
  exists l, ALine l ∈ artists f /\ ln_xs l = xs /\ ln_ys l = ys /\
    mk_line [] [] fmt kw = inr (mkLine [] [] (ln_color l) (ln_style l) (ln_marker l)
                                       (ln_mfc l) (ln_fill_none l) (ln_label l)).
Proof.
  intros Hf Hin. apply bool_decide_eq_true in Hin.
  destruct (image_of_plot _ _ _ _ _ _ Hf Hin) as (l & Hl & Hm).
  destruct (mk_line_spec _ _ _ _ _ Hl) as (Hx & Hy & H0). eauto.
Qed.

(** A line drawn from arrays computed from the same samples lies on
    what the formulas satisfy at each sample. *)
Lemma line_on_np_apply (P : R -> R -> Prop) (l : Line2D) (fx fy : Expr) (ts : list Expr) :
  ln_xs l = np_apply fx ts -> ln_ys l = np_apply fy ts ->
  Forall (fun t => P (evalR (evalR 0 t) fx) (evalR (evalR 0 t) fy)) ts ->
  line_on P l.
Proof. unfold line_on. intros -> -> H. apply (np_apply_Forall2 P), H. Qed.

Lemma line_on_graph (P : R -> R -> Prop) (l : Line2D) (fy : Expr) (xs : list Expr) :
  ln_xs l = xs -> ln_ys l = np_apply fy xs ->
  Forall (fun x => P (evalR 0 x) (evalR (evalR 0 x) fy)) xs ->
  line_on P l.
Proof. unfold line_on. intros -> -> H. apply (np_apply_graph P), H. Qed.

(** The same with the line style computed from the format string. *)
Lemma image_of_plot_style (body : list Call) (f : Fig)
      (xs ys : list Expr) (fmt : string) (kw : PlotKw) (st : LineStyle) :
  image_of body = Some f ->
  bool_decide (CPlt (Plot xs ys fmt kw) ∈ body \/ CAx (Plot xs ys fmt kw) ∈ body) = true ->
  match mk_line [] [] fmt kw with inr l0 => ln_style l0 = st | inl _ => False end ->
  exists l, ALine l ∈ artists f /\ ln_xs l = xs /\ ln_ys l = ys /\ ln_style l = st.
Proof.
  intros Hf Hin Hs.
  destruct (image_of_plot_line _ _ _ _ _ _ Hf Hin) as (l & Hl & Hx & Hy & H0).
  rewrite H0 in Hs. eauto.
Qed.

(** The same with the colour and the style computed from the format
    string. *)
Lemma image_of_plot_fmt (body : list Call) (f : Fig)
      (xs ys : list Expr) (fmt : string) (kw : PlotKw) (col : option string) (st : LineStyle) :
  image_of body = Some f ->
  bool_decide (CPlt (Plot xs ys fmt kw) ∈ body \/ CAx (Plot xs ys fmt kw) ∈ body) = true ->
  match mk_line [] [] fmt kw with inr l0 => ln_color l0 = col /\ ln_style l0 = st | inl _ => False end ->
  exists l, ALine l ∈ artists f /\ ln_xs l = xs /\ ln_ys l = ys /\ ln_color l = col /\ ln_style l = st.
Proof.
  intros Hf Hin Hs.
  destruct (image_of_plot_line _ _ _ _ _ _ Hf Hin) as (l & Hl & Hx & Hy & H0).
  rewrite H0 in Hs. destruct Hs. eauto 6.
Qed.

End Pyplot.
