(* ===== verification/ArithAlg.v ===== *)
(** * ArithAlg.v: [src/generate_arith_alg_images.py]

    The arithmetic (quiz 278) and algebra (quiz 279) diagrams: a pie
    chart of 3/4, a price tag, a square, the line y = 2x + 1 with its
    slope triangle, the parabola y = x^2 - 4x with its vertex, the line
    through (1, 2) and (3, 6), and the system 3x - y = 10, 2x + y = 5
    with its solution.  Every diagram function is a list of [Call]s in
    source order; the sample arrays and curve formulas, which are Python
    locals, are definitions of their own. *)

From Stdlib Require Import QArith Qreals Reals Psatz String.
From stdpp Require Import base gmap strings list.
From S2P Require Import Spec2Rocq Numpy Pyplot.
Import Numpy Pyplot.

Module ArithAlg.

Local Open Scope Q_scope.

(** ** Module-level code *)

Definition output_dir : string :=
  "L:\PAGINA WEB\APP CUESTIONARIOS\imagenes temporales preguntas".

(** [os.makedirs(output_dir, exist_ok=True)], run on import. *)
Definition module_init (s : St) : PyErr + St := makedirs output_dir true s.

Definition save_plot (filename : string) : list Call :=
  [CSavefig output_dir filename (Some 100);
   CClose;
   CPrint (String.append "Saved " (path_join output_dir filename))].

Definition lbl (l : string) : PlotKw := mkKw None None None None None false (Some l).

(** ** Arithmetic, quiz 278 *)

Definition plot_fraction_3_4 : list Call :=
  [CSubplots (4, 4);
   CAx (Pie [25; 25; 25; 25] ["#4ade80"; "#4ade80"; "#4ade80"; "white"] 90 false);
   CAx (SetTitle "¿Qué fracción está sombreada?")]
  ++ save_plot "C21_P278_Q3732.png".

Definition plot_discount : list Call :=
  [CSubplots (5, 3);
   CAx (AxisMode "off");
   CAx (AddPatch (Rect 0.1 0.1 0.8 0.8 true true));
   CAx (Text (Cst 0.5) (Cst 0.6) "$200");
   CAx (Text (Cst 0.5) (Cst 0.3) "-10%")]
  ++ save_plot "C21_P278_Q3735.png".

Definition plot_square_perimeter : list Call :=
  [CSubplots (4, 4);
   CAx (AddPatch (Rect 1 1 3 3 false false));
   CAx (Text (Cst 2.5) (Cst 0.5) "5 cm");
   CAx (Text (Cst 4.2) (Cst 2.5) "5 cm");
   CAx (SetXlim 0 5);
   CAx (SetYlim 0 5);
   CAx (AxisMode "off");
   CAx (SetTitle "Perímetro = ?")]
  ++ save_plot "C21_P278_Q3739.png".

(** ** Algebra, quiz 279 *)

(** The axes decoration shared by the algebra plots. *)
Definition axes_cross : list Call :=
  [CAx (Grid true);
   CAx (Axhline (Cst 0) Solid None);
   CAx (Axvline (Cst 0) Solid None)].

Definition line_slope_x : list Q := np_linspace (-2) 2 100.
Definition line_slope_f : Expr := Add (Mul (Cst 2) X) (Cst 1).

Definition plot_line_slope : list Call :=
  [CSubplots (5, 5);
   CAx (Plot (arr line_slope_x) (np_apply line_slope_f (arr line_slope_x)) "b-"
             (lbl "y = 2x + 1"))]
  ++ axes_cross ++
  [CAx (Plot [Cst 0; Cst 1] [Cst 1; Cst 1] "r--" kw0);
   CAx (Plot [Cst 1; Cst 1] [Cst 1; Cst 3] "r--" kw0);
   CAx (Text (Cst 0.5) (Cst 0.8) "1");
   CAx (Text (Cst 1.1) (Cst 2) "2");
   CAx (SetTitle "Pendiente de la recta")]
  ++ save_plot "C21_P279_Q3781.png".

Definition parabola_vertex_x : list Q := np_linspace 0 4 100.
Definition parabola_vertex_f : Expr := Sub (Pow X 2) (Mul (Cst 4) X).

Definition plot_parabola_vertex : list Call :=
  [CSubplots (5, 5);
   CAx (Plot (arr parabola_vertex_x) (np_apply parabola_vertex_f (arr parabola_vertex_x))
             "g-" (lbl "y = x² - 4x"));
   CAx (Plot [Cst 2] [Cst (-4)] "ro" kw0);
   CAx (Text (Cst 2.2) (Cst (-3.8)) "Vértice")]
  ++ axes_cross ++
  [CAx (SetTitle "Vértice de la parábola")]
  ++ save_plot "C21_P279_Q3784.png".

Definition two_points_x : list Q := np_linspace 0 4 100.
Definition two_points_f : Expr := Mul (Cst 2) X.

Definition plot_two_points_line : list Call :=
  [CSubplots (5, 5);
   CAx (Plot (arr two_points_x) (np_apply two_points_f (arr two_points_x)) "purple" kw0);
   CAx (Plot [Cst 1] [Cst 2] "bo" kw0);
   CAx (Text (Cst 0.8) (Cst 2.5) "(1, 2)");
   CAx (Plot [Cst 3] [Cst 6] "bo" kw0);
   CAx (Text (Cst 2.8) (Cst 6.5) "(3, 6)")]
  ++ axes_cross ++
  [CAx (SetTitle "Recta por dos puntos")]
  ++ save_plot "C21_P279_Q3790.png".

Definition system_x : list Q := np_linspace 0 5 100.
Definition system_f1 : Expr := Sub (Mul (Cst 3) X) (Cst 10).
Definition system_f2 : Expr := Sub (Cst 5) (Mul (Cst 2) X).

Definition plot_system_intersection : list Call :=
  [CSubplots (5, 5);
   CAx (Plot (arr system_x) (np_apply system_f1 (arr system_x)) "b-" (lbl "3x - y = 10"));
   CAx (Plot (arr system_x) (np_apply system_f2 (arr system_x)) "r-" (lbl "2x + y = 5"));
   CAx (Plot [Cst 3] [Cst (-1)] "ko" kw0);
   CAx (Text (Cst 3.2) (Cst (-0.8)) "Solución")]
  ++ axes_cross ++
  [CAx Legend;
   CAx (SetTitle "Sistema de Ecuaciones")]
  ++ save_plot "C21_P279_Q3791.png".

(** ** The [__main__] block *)

Definition main : list (list Call) :=
  [plot_fraction_3_4; plot_discount; plot_square_perimeter; plot_line_slope;
   plot_parabola_vertex; plot_two_points_line; plot_system_intersection].

(** Running the script: the import-time code, then [__main__]. *)
Definition run (s : St) : PyErr + St :=
  do s1 <- module_init s ; exec_seq main s1.

(** The files the script writes, in order. *)
Definition file_names : list string :=
  ["C21_P278_Q3732.png"; "C21_P278_Q3735.png"; "C21_P278_Q3739.png";
   "C21_P279_Q3781.png"; "C21_P279_Q3784.png"; "C21_P279_Q3790.png";
   "C21_P279_Q3791.png"].

(** ** Running the script *)

Lemma arith_main_keys : script_keys main = Some (map (pair output_dir) file_names).
Proof. vm_compute. reflexivity. Qed.

Lemma arith_main_msgs :
  script_msgs main = Some (map (fun n => String.append "Saved " (path_join output_dir n)) file_names).
Proof. vm_compute. reflexivity. Qed.

Lemma arith_file_names_nodup : NoDup file_names.
Proof. apply (bool_decide_unpack _). vm_compute. reflexivity. Qed.

(** C1: Run from a state with no open figure, in which the output
    directory path is not occupied by a non-directory, the script
    creates the directory, writes each of its seven files there with the
    figure its diagram function draws, leaves every other file as it
    was, prints one "Saved <path>" line per file in order and leaves no
    figure open. *)
Theorem arith_run_writes_files (s : St) :
  figs s = [] -> output_dir ∉ blocked s ->
  exists s', run s = inr s' /\ figs s' = [] /\ output_dir ∈ dirs s' /\
    blocked s' = blocked s /\
    (forall k, k ∉ map (pair output_dir) file_names -> files s' !! k = files s !! k) /\
    (forall b o, b ∈ main -> diagram b = Some o ->
                 files s' !! (output_dir, o_name o) = Some (o_img o)) /\
    (forall n, n ∈ file_names -> is_Some (files s' !! (output_dir, n))) /\
    out s' = out s ++ map (fun n => String.append "Saved " (path_join output_dir n)) file_names.
Proof.
  intros Hf Hb.
  exact (run_into_dir module_init main output_dir file_names _ s arith_main_keys arith_main_msgs
           arith_file_names_nodup (makedirs_exist_ok output_dir s Hb) Hf).
Qed.

Lemma arith_run_writes_files_witness :
  exists s', run init_state = inr s' /\ figs s' = [] /\ output_dir ∈ dirs s'.
Proof.
  destruct (arith_run_writes_files init_state eq_refl ltac:(vm_compute; set_solver))
    as (s' & H1 & H2 & H3 & _).
  exists s'. auto.
Defined.

(** C2: When the output directory path exists and is not a directory,
    importing the script raises [FileExistsError] from
    [os.makedirs(output_dir, exist_ok=True)]: no diagram is drawn and no
    file is written. *)
Theorem arith_run_blocked (s : St) :
  output_dir ∉ dirs s -> output_dir ∈ blocked s ->
  run s = inl (FileExistsError output_dir).
Proof.
  intros Hd Hb. unfold run, module_init. rewrite makedirs_blocked by assumption.
  reflexivity.
Qed.

Lemma arith_run_blocked_witness :
  run (mkSt [] [] [output_dir] ∅ []) = inl (FileExistsError output_dir).
Proof. apply arith_run_blocked; vm_compute; set_solver. Defined.


(** C4: The slope triangle of [plot_line_slope] starts and ends on the
    line it illustrates: the dashed legs go from (0, 1) to (1, 1) and on
    to (1, 3), both ends lie on the drawn line y = 2x + 1, the labels are
    the run "1" and the rise "2", and their ratio is the slope of the
    plotted formula at every point. *)
Theorem line_slope_triangle :
  (forall x : R, evalR (x + 1) line_slope_f - evalR x line_slope_f = 2)%R /\
  option_map (fun f => (segments Dashed f, map snd (texts f),
                        map (fun c => on_polyline (0, 1) c && on_polyline (1, 3) c) (curves f)))
             (image_of plot_line_slope)
  = Some ([((0, 1), (1, 1)); ((1, 1), (1, 3))], ["1"; "2"], [true]).
Proof.
  split.
  - intros x. unfold line_slope_f. evalR_simpl. lra.
  - vm_compute. reflexivity.
Qed.

(** C5: The red point of [plot_parabola_vertex] is the vertex of the
    plotted parabola y = x^2 - 4x: the only marker is (2, -4), the value
    of the formula at 2 is -4, and no point of the parabola is lower. *)
Theorem arith_parabola_vertex_marked :
  option_map markers (image_of plot_parabola_vertex) = Some [(2, -4, false)] /\
  evalR 2 parabola_vertex_f = (-4)%R /\
  (forall x : R, evalR 2 parabola_vertex_f <= evalR x parabola_vertex_f)%R.
Proof.
  split; [vm_compute; reflexivity|].
  unfold parabola_vertex_f. evalR_simpl. split; [lra|].
  intros x. pose proof (pow2_ge_0 (x - 2)). nra.
Qed.

(** C6: The two labelled points of [plot_two_points_line], (1, 2) and
    (3, 6), are the markers it draws, they lie on the drawn line and
    on its formula y = 2x. *)
Theorem two_points_on_line :
  option_map (fun f => (markers f, map (fun c => on_polyline (1, 2) c && on_polyline (3, 6) c)
                                       (curves f)))
             (image_of plot_two_points_line)
  = Some ([(1, 2, false); (3, 6, false)], [true]) /\
  evalR 1 two_points_f = 2%R /\ evalR 3 two_points_f = 6%R.
Proof.
  split; [vm_compute; reflexivity|].
  unfold two_points_f. evalR_simpl. split; lra.
Qed.

(** C7: The marker of [plot_system_intersection] is the solution of the
    plotted system: (3, -1) lies on both drawn lines, and x = 3 is the
    only abscissa where the two formulas agree, with value -1. *)
Theorem system_solution_marked :
  option_map (fun f => (markers f, map (on_polyline (3, -1)) (curves f)))
             (image_of plot_system_intersection)
  = Some ([(3, -1, false)], [true; true]) /\
  (forall x : R, evalR x system_f1 = evalR x system_f2 <-> x = 3%R) /\
  evalR 3 system_f1 = (-1)%R.
Proof.
  split; [vm_compute; reflexivity|].
  unfold system_f1, system_f2. split; intros; evalR_simpl; lra.
Qed.

(** C8: The pie of [plot_fraction_3_4] shades three quarters: its green
    wedges cover 270 of the 360 degrees. *)
Theorem fraction_three_quarters :
  option_map (fun f => (Qeq_bool (wedge_span (Some "#4ade80") f) 270,
                        Qeq_bool (wedge_span None f) 360))
             (image_of plot_fraction_3_4)
  = Some (true, true).
Proof. vm_compute. reflexivity. Qed.

End ArithAlg.
