(* ===== verification/CalcFinal.v ===== *)
(** * CalcFinal.v: [src/server/scripts/generate_calculus_final_images.py]

    The calculus diagrams of quiz 281 in their final version: a number
    line for |x - 2| < 3, a parabola with its vertex, a piecewise
    function with open and closed endpoints, x^3, a removable
    discontinuity, one-sided limits, a horizontal asymptote, a tangent
    line, critical points of x^3 - 3x and the box made from a square
    sheet.  The helper [save_plot] of this script draws the grid and the
    coordinate axes before saving; [q1_inequality] saves by itself. *)

From Stdlib Require Import QArith Qreals Reals Psatz String.
From stdpp Require Import base gmap strings list.
From S2P Require Import Spec2Rocq Numpy Pyplot.
Import Numpy Pyplot.

Module CalcFinal.

Local Open Scope Q_scope.

(** ** Module-level code *)

Definition OUTPUT_DIR : string := "imagenes temporales preguntas".

(** [if not os.path.exists(OUTPUT_DIR): os.makedirs(OUTPUT_DIR)] *)
Definition module_init (s : St) : PyErr + St := ensure_dir OUTPUT_DIR s.

Definition save_plot (filename : string) : list Call :=
  [CPlt (Grid true);
   CPlt (Axhline (Cst 0) Solid None);
   CPlt (Axvline (Cst 0) Solid None);
   CSavefig OUTPUT_DIR filename (Some 100);
   CClose].

Definition lbl (l : string) : PlotKw := mkKw None None None None None false (Some l).

(** A hollow marker: [markerfacecolor='white'] or the format ['wo'] with
    an edge color. *)
Definition open_marker : PlotKw :=
  mkKw None (Some Circle) None (Some "white") (Some "blue") false None.
Definition edge (c : string) : PlotKw := mkKw None None None None (Some c) false None.

(** ** The diagram functions *)

(** The number line of an inequality, shared setup of [ax]. *)
Definition number_line_axes (lo hi : Q) : list Call :=
  [CAx (SetXlim lo hi);
   CAx (SetYlim (-1) 1);
   CAx (SpineVisible "left" false);
   CAx (SpineVisible "right" false);
   CAx (SpineVisible "top" false);
   CAx (YaxisVisible false);
   CAx (SpinePosition "bottom" "center")].

Definition q1_inequality : list Call :=
  [CSubplots (8, 2)]
  ++ number_line_axes (-5) 10 ++
  [CAx (Plot [Cst (-1); Cst 5] [Cst 0; Cst 0] "" (mkKw (Some "blue") None None None None false None));
   CAx (Plot [Cst (-1)] [Cst 0] "" open_marker);
   CAx (Plot [Cst 5] [Cst 0] "" open_marker);
   CAx (SetXticks (np_arange (-5) 11 1));
   CPlt (SetTitle "|x - 2| < 3");
   CSavefig OUTPUT_DIR "C21_P281_Q1_Inecuacion.png" None;
   CClose].

Definition q3_x : list Q := np_linspace 0 4 100.
Definition q3_f : Expr := Add (Sub (Pow X 2) (Mul (Cst 4) X)) (Cst 3).

Definition q3_parabola : list Call :=
  [CFigure (6, 6);
   CPlt (Plot (arr q3_x) (np_apply q3_f (arr q3_x)) "" (lbl "y = x^2 - 4x + 3"));
   CPlt (Plot [Cst 2] [Cst (-1)] "ro" kw0);
   CPlt (Text (Cst 2.1) (Cst (-1)) "V(2, -1)");
   CPlt Legend]
  ++ save_plot "C21_P281_Q3_Parabola.png".

Definition q5_x1 : list Q := np_linspace (-2) 0 50.
Definition q5_f1 : Expr := Add X (Cst 1).
Definition q5_x2 : list Q := np_linspace 0 2 50.
Definition q5_f2 : Expr := Pow X 2.

Definition q5_piecewise : list Call :=
  [CFigure (6, 6);
   CPlt (Plot (arr q5_x1) (np_apply q5_f1 (arr q5_x1)) "b" (lbl "x+1 (x<0)"));
   CPlt (Plot [Cst 0] [Cst 1] "wo" (edge "b"));
   CPlt (Plot (arr q5_x2) (np_apply q5_f2 (arr q5_x2)) "g" (lbl "x^2 (x>=0)"));
   CPlt (Plot [Cst 0] [Cst 0] "go" kw0);
   CPlt Legend]
  ++ save_plot "C21_P281_Q5_Trozos.png".

Definition q6_x : list Q := np_linspace (-2) 2 100.
Definition q6_f : Expr := Pow X 3.

Definition q6_injective : list Call :=
  [CFigure (6, 6);
   CPlt (Plot (arr q6_x) (np_apply q6_f (arr q6_x)) "" (lbl "f(x) = x^3"));
   CPlt (SetTitle "Función Inyectiva");
   CPlt Legend]
  ++ save_plot "C21_P281_Q6_Inyectiva.png".

Definition q9_x : list Q := np_linspace 0 4 100.
Definition q9_f : Expr := Add X (Cst 2).

(** The function named in the title, [(x^2-4)/(x-2)]. *)
Definition q9_title_f : Expr := Div (Sub (Pow X 2) (Cst 4)) (Sub X (Cst 2)).

Definition q9_limit : list Call :=
  [CFigure (6, 6);
   CPlt (Plot (arr q9_x) (np_apply q9_f (arr q9_x)) "" kw0);
   CPlt (Plot [Cst 2] [Cst 4] "wo" (edge "b"));
   CPlt (SetTitle "f(x) = (x^2-4)/(x-2)")]
  ++ save_plot "C21_P281_Q9_Limite.png".

Definition q10_x1 : list Q := np_linspace (-1) 1 50.
Definition q10_f1 : Expr := Sub (Mul (Cst 3) X) (Cst 1).
Definition q10_x2 : list Q := np_linspace 1 3 50.
Definition q10_f2 : Expr := Add X (Cst 4).

Definition q10_lateral : list Call :=
  [CFigure (6, 6);
   CPlt (Plot (arr q10_x1) (np_apply q10_f1 (arr q10_x1)) "b" (lbl "3x-1 (x<=1)"));
   CPlt (Plot [Cst 1] [Cst 2] "bo" kw0);
   CPlt (Plot (arr q10_x2) (np_apply q10_f2 (arr q10_x2)) "g" (lbl "x+4 (x>1)"));
   CPlt (Plot [Cst 1] [Cst 5] "wo" (edge "g"));
   CPlt Legend]
  ++ save_plot "C21_P281_Q10_LimLateral.png".

Definition q12_x : list Q := np_linspace (-5) 5 200.
Definition q12_f : Expr :=
  Div (Sub (Mul (Cst 3) (Pow X 2)) (Mul (Cst 2) X)) (Add (Mul (Cst 2) (Pow X 2)) (Cst 1)).

Definition q12_asymptote : list Call :=
  [CFigure (6, 6);
   CPlt (Plot (arr q12_x) (np_apply q12_f (arr q12_x)) "" kw0);
   CPlt (Axhline (Cst 1.5) Dashed (Some "y = 3/2"));
   CPlt Legend]
  ++ save_plot "C21_P281_Q12_Asintota.png".

Definition q15_x : list Q := np_linspace 0 4 100.
Definition q15_f : Expr := Pow X 2.
Definition q15_tx : list Q := np_linspace 1 3 100.
Definition q15_t : Expr := Sub (Mul (Cst 4) X) (Cst 4).

Definition q15_derivative_concept : list Call :=
  [CFigure (6, 6);
   CPlt (Plot (arr q15_x) (np_apply q15_f (arr q15_x)) "" (lbl "f(x)"));
   CPlt (Plot (arr q15_tx) (np_apply q15_t (arr q15_tx)) "r--" (lbl "Tangente"));
   CPlt (SetTitle "Derivada = Pendiente Tangente");
   CPlt Legend]
  ++ save_plot "C21_P281_Q15_DerivadaConcepto.png".

Definition q20_x : list Q := np_linspace (-2) 2 100.
Definition q20_f : Expr := Sub (Pow X 3) (Mul (Cst 3) X).

Definition q20_critical_points : list Call :=
  [CFigure (6, 6);
   CPlt (Plot (arr q20_x) (np_apply q20_f (arr q20_x)) "" kw0);
   CPlt (Plot [Cst (-1); Cst 1] [Cst 2; Cst (-2)] "ro" kw0);
   CPlt (Text (Cst (-1.2)) (Cst 2.2) "Max (-1, 2)");
   CPlt (Text (Cst 0.8) (Cst (-2.5)) "Min (1, -2)");
   CPlt (SetTitle "f(x) = x^3 - 3x")]
  ++ save_plot "C21_P281_Q20_PuntosCriticos.png".

Definition q22_box : list Call :=
  [CFigure (6, 6);
   CPlt (Plot (arr [0; 10; 10; 0; 0]) (arr [0; 0; 10; 10; 0]) "k" kw0);
   CPlt (Plot (arr [0; 1; 1; 0]) (arr [0; 0; 1; 1]) "r--" kw0);
   CPlt (Plot (arr [9; 10; 10; 9]) (arr [0; 0; 1; 1]) "r--" kw0);
   CPlt (Plot (arr [9; 10; 10; 9]) (arr [9; 9; 10; 10]) "r--" kw0);
   CPlt (Plot (arr [0; 1; 1; 0]) (arr [9; 9; 10; 10]) "r--" kw0);
   CPlt (Text (Cst 0.2) (Cst 0.2) "x");
   CPlt (Text (Cst 5) (Cst (-1)) "30 cm");
   CPlt (AxisMode "off");
   CPlt (SetTitle "Caja: V(x) = x(30-2x)^2")]
  ++ save_plot "C21_P281_Q22_Caja.png".

(** ** The [__main__] block *)

Definition main : list (list Call) :=
  [q1_inequality; q3_parabola; q5_piecewise; q6_injective; q9_limit; q10_lateral;
   q12_asymptote; q15_derivative_concept; q20_critical_points; q22_box].

Definition run (s : St) : PyErr + St :=
  do s1 <- module_init s ; exec_seq main s1.

Definition file_names : list string :=
  ["C21_P281_Q1_Inecuacion.png"; "C21_P281_Q3_Parabola.png"; "C21_P281_Q5_Trozos.png";
   "C21_P281_Q6_Inyectiva.png"; "C21_P281_Q9_Limite.png"; "C21_P281_Q10_LimLateral.png";
   "C21_P281_Q12_Asintota.png"; "C21_P281_Q15_DerivadaConcepto.png";
   "C21_P281_Q20_PuntosCriticos.png"; "C21_P281_Q22_Caja.png"].

(** ** Running the script *)

Lemma calc_final_main_keys : script_keys main = Some (map (pair OUTPUT_DIR) file_names).
Proof. vm_compute. reflexivity. Qed.

Lemma calc_final_main_msgs : script_msgs main = Some [].
Proof. vm_compute. reflexivity. Qed.

Lemma calc_final_file_names_nodup : NoDup file_names.
Proof. apply (bool_decide_unpack _). vm_compute. reflexivity. Qed.

(** The import-time guard creates the directory unless something is
    already at its path. *)
(** C9: Run from a state with no open figure in which nothing but a
    directory may exist at its output path, the script writes each of
    its ten files into that directory with the figure its function
    draws, leaves every other file as it was, prints nothing and leaves
    no figure open. *)
Theorem calc_final_run_writes_files (s : St) :
  figs s = [] -> OUTPUT_DIR ∉ blocked s ->
  exists s', run s = inr s' /\ figs s' = [] /\ OUTPUT_DIR ∈ dirs s' /\
    blocked s' = blocked s /\
    (forall k, k ∉ map (pair OUTPUT_DIR) file_names -> files s' !! k = files s !! k) /\
    (forall b o, b ∈ main -> diagram b = Some o ->
                 files s' !! (OUTPUT_DIR, o_name o) = Some (o_img o)) /\
    (forall n, n ∈ file_names -> is_Some (files s' !! (OUTPUT_DIR, n))) /\
    out s' = out s.
Proof.
  intros Hf Hb.
  destruct (run_into_dir module_init main OUTPUT_DIR file_names [] s calc_final_main_keys
              calc_final_main_msgs calc_final_file_names_nodup (ensure_dir_ok OUTPUT_DIR s Hb) Hf)
    as (s' & Hrun & Hrest).
  exists s'. rewrite app_nil_r in Hrest. exact (conj Hrun Hrest).
Qed.

Lemma calc_final_run_writes_files_witness :
  exists s', run init_state = inr s' /\ figs s' = [] /\ OUTPUT_DIR ∈ dirs s'.
Proof.
  destruct (calc_final_run_writes_files init_state eq_refl ltac:(vm_compute; set_solver))
    as (s' & H1 & H2 & H3 & _).
  exists s'. auto.
Defined.

(** C10: When a file (not a directory) is at the output path, the
    import-time guard [os.path.exists] skips [os.makedirs], and the
    first diagram function raises [FileNotFoundError] at its
    [plt.savefig]: the script stops before writing any file. *)
Theorem calc_final_run_blocked (s : St) :
  figs s = [] -> OUTPUT_DIR ∉ dirs s -> OUTPUT_DIR ∈ blocked s ->
  run s = inl (FileNotFoundError (path_join OUTPUT_DIR "C21_P281_Q1_Inecuacion.png")).
Proof.
  intros Hf Hd Hb. unfold run, module_init.
  rewrite ensure_dir_blocked by exact Hb. rewrite bindr_inr. unfold exec_seq, main.
  rewrite fold_res_cons.
  assert (Ho : diagram q1_inequality =
               option_map (fun o => mkOut OUTPUT_DIR "C21_P281_Q1_Inecuacion.png" (o_img o) [])
                          (diagram q1_inequality)) by (vm_compute; reflexivity).
  destruct (diagram q1_inequality) as [o|] eqn:Hq; [|exfalso; clear -Hq; vm_compute in Hq; discriminate Hq].
  simpl in Ho. injection Ho as Ho.
  rewrite (diagram_exec_missing_dir q1_inequality o s Hq Hf) by (rewrite Ho; exact Hd).
  rewrite Ho. reflexivity.
Qed.

Lemma calc_final_run_blocked_witness :
  run (mkSt [] [] [OUTPUT_DIR] ∅ [])
  = inl (FileNotFoundError (path_join OUTPUT_DIR "C21_P281_Q1_Inecuacion.png")).
Proof. apply calc_final_run_blocked; [reflexivity | vm_compute; set_solver | vm_compute; set_solver]. Defined.

(** C11: The graph [q6_injective] draws under the title "Función
    Inyectiva" is the graph of an injective function: the figure has one
    solid curve, through 100 points each of which lies strictly to the
    right of and strictly above the one before, so every horizontal line
    meets the drawn graph at most once; and the plotted x^3 takes each
    real value at most once. *)
Theorem injective_graph :
  option_map (fun f => map (fun pts => (length pts, increasing_pts pts)) (curves f))
             (image_of q6_injective) = Some [(100%nat, true)] /\
  (forall x y : R, evalR x q6_f = evalR y q6_f -> x = y).
Proof.
  split; [vm_compute; reflexivity|].
  intros x y. cbn [evalR pow]. apply Rcube_inj.
Qed.

(** C12: The number line of [q1_inequality] is the solution set of its
    title |x - 2| < 3: it draws the segment from -1 to 5 with open
    circles at both ends, and a real x satisfies |x - 2| < 3 exactly when
    -1 < x < 5. *)
Theorem inequality_number_line :
  option_map (fun f => (segments Solid f, markers f)) (image_of q1_inequality)
  = Some ([((-1, 0), (5, 0))], [(-1, 0, true); (5, 0, true)]) /\
  (forall x : R, Rabs (x - 2) < 3 <-> -1 < x < 5)%R.
Proof.
  split; [vm_compute; reflexivity|].
  intros x. split; intros H; [split_Rabs; lra | split_Rabs; lra].
Qed.

(** C13: The point V(2, -1) of [q3_parabola] is the vertex of the plotted
    parabola y = x^2 - 4x + 3. *)
Theorem calc_final_parabola_vertex_marked :
  option_map markers (image_of q3_parabola) = Some [(2, -1, false)] /\
  evalR 2 q3_f = (-1)%R /\ (forall x : R, evalR 2 q3_f <= evalR x q3_f)%R.
Proof.
  split; [vm_compute; reflexivity|].
  unfold q3_f. evalR_simpl. split; [lra|].
  intros x. pose proof (pow2_ge_0 (x - 2)). nra.
Qed.

(** C14: The endpoint markers of the piecewise function of
    [q5_piecewise] match its conditions: the piece x + 1 (for x < 0)
    ends at (0, 1) with an open circle, the piece x^2 (for x >= 0)
    starts at (0, 0) with a closed one, and each piece is sampled on its
    own side of 0. *)
Theorem piecewise_endpoints :
  option_map markers (image_of q5_piecewise) = Some [(0, 1, true); (0, 0, false)] /\
  evalR 0 q5_f1 = 1%R /\ evalR 0 q5_f2 = 0%R /\
  Forall (fun v => v <= 0) q5_x1 /\ Forall (fun v => 0 <= v) q5_x2.
Proof.
  split; [vm_compute; reflexivity|].
  unfold q5_f1, q5_f2. evalR_simpl. split; [lra|]. split; [lra|].
  split.
  - eapply Forall_impl; [apply np_linspace_bounds; discriminate|]. intros v [_ Hv]. exact Hv.
  - eapply Forall_impl; [apply np_linspace_bounds; discriminate|]. intros v [Hv _]. exact Hv.
Qed.

(** C15: [q9_limit] draws the removable discontinuity of its title
    function (x^2 - 4)/(x - 2): away from 2 that function is defined and
    equals the plotted x + 2, at 2 it is undefined, and the figure has a
    single open circle, at (2, 4), on the drawn line. *)
Theorem removable_discontinuity :
  option_map (fun f => (markers f, map (on_polyline (2, 4)) (curves f))) (image_of q9_limit)
  = Some ([(2, 4, true)], [true]) /\
  (forall x : R, x <> 2%R -> dom x q9_title_f /\ evalR x q9_title_f = evalR x q9_f) /\
  ~ dom 2 q9_title_f /\ evalR 2 q9_f = 4%R.
Proof.
  split; [vm_compute; reflexivity|].
  unfold q9_title_f, q9_f. split; [|split].
  - intros x Hx. cbn [dom evalR]. evalR_simpl. split; [repeat split; lra|].
    field. lra.
  - cbn [dom evalR]. evalR_simpl. intros (_ & _ & H). lra.
  - evalR_simpl. lra.
Qed.

(** C16: The markers of [q10_lateral] show the one-sided limits: the
    piece 3x - 1 (for x <= 1) ends at (1, 2) with a closed circle, the
    piece x + 4 (for x > 1) starts at (1, 5) with an open one. *)
Theorem one_sided_limits :
  option_map markers (image_of q10_lateral) = Some [(1, 2, false); (1, 5, true)] /\
  evalR 1 q10_f1 = 2%R /\ evalR 1 q10_f2 = 5%R.
Proof.
  split; [vm_compute; reflexivity|].
  unfold q10_f1, q10_f2. evalR_simpl. split; lra.
Qed.

(** C17: The dashed line y = 3/2 of [q12_asymptote] is the horizontal
    asymptote of the plotted (3x^2 - 2x)/(2x^2 + 1): for every eps > 0 the
    function is within eps of 3/2 once |x| > max(1, 2/eps). *)
Theorem horizontal_asymptote (eps : R) :
  (0 < eps)%R ->
  option_map (fun f => existsb (Qeq_bool (3 # 2)) (hlines Dashed f)) (image_of q12_asymptote)
  = Some true /\
  exists M, forall x : R, (M < Rabs x -> Rabs (evalR x q12_f - 3 / 2) < eps)%R.
Proof.
  intros He. split; [vm_compute; reflexivity|].
  exists (Rmax 1 (2 / eps)). intros x Hx.
  pose proof (Rmax_l 1 (2 / eps)) as H1. pose proof (Rmax_r 1 (2 / eps)) as H2.
  unfold q12_f. evalR_simpl.
  set (a := Rabs x) in *.
  assert (Ha1 : (1 < a)%R) by lra. assert (Ha2 : (2 / eps < a)%R) by lra.
  assert (Hea : (2 < eps * a)%R).
  { apply (Rmult_lt_compat_l eps) in Ha2; [|lra]. field_simplify in Ha2; lra. }
  assert (Hx2 : (x * x = a * a)%R).
  { unfold a. rewrite <- Rabs_mult. rewrite Rabs_pos_eq; [reflexivity | nra]. }
  set (den := (2 * (2 * (x * x) + 1))%R).
  assert (Hden : (0 < den)%R) by (unfold den; nra).
  replace ((3 * (x * x) - 2 * x) / (2 * (x * x) + 1) - 3 / 2)%R
    with ((- 4 * x - 3) / den)%R by (unfold den; field; nra).
  assert (Hq : (Rabs ((- 4 * x - 3) / den) * den = Rabs (- 4 * x - 3))%R).
  { rewrite <- (Rabs_pos_eq den) at 2 by lra. rewrite <- Rabs_mult. f_equal. field. lra. }
  assert (Hn : (Rabs (-4 * x - 3) <= 4 * a + 3)%R) by (unfold a; split_Rabs; lra).
  apply (Rmult_lt_reg_r den); [exact Hden|]. rewrite Hq.
  unfold den. rewrite Hx2.
  assert (0 < (eps * a - 2) * a)%R by (apply Rmult_lt_0_compat; lra). nra.
Qed.

Lemma horizontal_asymptote_witness :
  (0 < 1)%R /\
  exists M, forall x : R, (M < Rabs x -> Rabs (evalR x q12_f - 3 / 2) < 1)%R.
Proof. split; [lra|]. apply (horizontal_asymptote 1%R). lra. Defined.

(** C18: The dashed line of [q15_derivative_concept] is the tangent of
    the plotted y = x^2 at x = 2: it passes through (2, 4), stays below
    the parabola and touches it only at x = 2. *)
Theorem tangent_line :
  option_map (fun f => map (on_polyline (2, 4)) (polylines Dashed f))
             (image_of q15_derivative_concept) = Some [true] /\
  (forall x : R, evalR x q15_t <= evalR x q15_f /\
                 (evalR x q15_t = evalR x q15_f <-> x = 2))%R.
Proof.
  split; [vm_compute; reflexivity|].
  intros x. unfold q15_t, q15_f. evalR_simpl.
  pose proof (pow2_ge_0 (x - 2)) as Hsq. split; [nra|].
  split; intros Heq; [|subst; lra].
  assert (Hs : ((x - 2) * (x - 2) = 0)%R) by nra. apply Rmult_integral in Hs. lra.
Qed.

(** C19: The points marked "Max (-1, 2)" and "Min (1, -2)" by
    [q20_critical_points] are on the plotted x^3 - 3x, and they are the
    largest and smallest values of the function over the plotted window
    [-2, 2]. *)
Theorem critical_points_marked :
  option_map markers (image_of q20_critical_points) = Some [(-1, 2, false); (1, -2, false)] /\
  evalR (-1) q20_f = 2%R /\ evalR 1 q20_f = (-2)%R /\
  (forall x : R, -2 <= x <= 2 -> evalR 1 q20_f <= evalR x q20_f <= evalR (-1) q20_f)%R.
Proof.
  split; [vm_compute; reflexivity|].
  unfold q20_f. evalR_simpl. split; [lra|]. split; [lra|].
  intros x Hx.
  assert (0 <= (x + 1) * (x + 1) * (2 - x))%R by (apply Rmult_le_pos; [apply Rle_0_sqr | lra]).
  assert (0 <= (x - 1) * (x - 1) * (x + 2))%R by (apply Rmult_le_pos; [apply Rle_0_sqr | lra]).
  split; nra.
Qed.

End CalcFinal.
