(* ===== verification/Calc.v ===== *)
(** * Calc.v: [src/server/scripts/generate_calculus_images.py]

    The first calculus set of quiz 281 (period I): number lines for
    x <= -5 and -1 < x < 5, the line through (1, 2) and (3, 6), the
    parabola with vertex (3, -4), a rational function with its vertical
    asymptotes (the samples near the poles masked out), log2 with three
    exact points, a piecewise function, the horizontal-line test on x^2,
    two functions on one axes and sqrt(x + 1).  It writes into
    [generated_images_calculus], the directory [CalcP2P3.v]'s script
    also writes into. *)

From Stdlib Require Import QArith Qabs Qreals Reals Psatz String.
From stdpp Require Import base gmap strings list.
From S2P Require Import Spec2Rocq Numpy Pyplot.
Import Numpy Pyplot.

Module Calc.

Local Open Scope Q_scope.

(** ** Module-level code *)

Definition OUTPUT_DIR : string := "generated_images_calculus".

(** [if not os.path.exists(OUTPUT_DIR): os.makedirs(OUTPUT_DIR)] *)
Definition module_init (s : St) : PyErr + St := ensure_dir OUTPUT_DIR s.

Definition save_plot (filename : string) : list Call :=
  [CPlt (Grid true);
   CPlt (Axhline (Cst 0) Solid None);
   CPlt (Axvline (Cst 0) Solid None);
   CSavefig OUTPUT_DIR filename (Some 100);
   CClose].

Definition lbl (l : string) : PlotKw := mkKw None None None None None false (Some l).
Definition blue : PlotKw := mkKw (Some "blue") None None None None false None.

(** ** Number lines *)

Definition number_line_axes (lo hi : Q) : list Call :=
  [CAx (SetXlim lo hi);
   CAx (SetYlim (-1) 1);
   CAx (SpineVisible "left" false);
   CAx (SpineVisible "right" false);
   CAx (SpineVisible "top" false);
   CAx (YaxisVisible false);
   CAx (SpinePosition "bottom" "center")].

(** [marker='o', color='blue']: a closed circle. *)
Definition closed_marker : PlotKw :=
  mkKw (Some "blue") (Some Circle) None None None false None.

(** [marker='o', markerfacecolor='white', markeredgecolor='blue']. *)
Definition open_marker : PlotKw :=
  mkKw None (Some Circle) None (Some "white") (Some "blue") false None.

Definition q1_inequality : list Call :=
  [CSubplots (8, 2)]
  ++ number_line_axes (-10) 10 ++
  [CAx (Plot [Cst (-10); Cst (-5)] [Cst 0; Cst 0] "" blue);
   CAx (Plot [Cst (-5)] [Cst 0] "" closed_marker);
   CAx (SetXticks (np_arange (-10) 11 1));
   CPlt (SetTitle "x <= -5");
   CSavefig OUTPUT_DIR "C21_P281_Q1_Inecuacion.png" None;
   CClose].

Definition q2_abs_value : list Call :=
  [CSubplots (8, 2)]
  ++ number_line_axes (-5) 10 ++
  [CAx (Plot [Cst (-1); Cst 5] [Cst 0; Cst 0] "" blue);
   CAx (Plot [Cst (-1)] [Cst 0] "" open_marker);
   CAx (Plot [Cst 5] [Cst 0] "" open_marker);
   CAx (SetXticks (np_arange (-5) 11 1));
   CPlt (SetTitle "-1 < x < 5");
   CSavefig OUTPUT_DIR "C21_P281_Q2_ValorAbsoluto.png" None;
   CClose].

(** ** Graphs *)

Definition q3_x : list Q := np_linspace (-2) 5 100.
Definition q3_f : Expr := Mul (Cst 2) X.

Definition q3_linear : list Call :=
  [CFigure (6, 6);
   CPlt (Plot (arr q3_x) (np_apply q3_f (arr q3_x)) "" (lbl "y = 2x"));
   CPlt (Scatter (arr [1; 3]) (arr [2; 6]) (Some "red"));
   CPlt (Text (Cst 1.2) (Cst 2) "(1, 2)");
   CPlt (Text (Cst 3.2) (Cst 6) "(3, 6)");
   CPlt Legend]
  ++ save_plot "C21_P281_Q3_Recta.png".

Definition q4_x : list Q := np_linspace 0 6 100.
Definition q4_f : Expr := Add (Sub (Pow X 2) (Mul (Cst 6) X)) (Cst 5).

Definition q4_quadratic : list Call :=
  [CFigure (6, 6);
   CPlt (Plot (arr q4_x) (np_apply q4_f (arr q4_x)) "" (lbl "y = x^2 - 6x + 5"));
   CPlt (Scatter (arr [3]) (arr [-4]) (Some "red"));
   CPlt (Text (Cst 3.2) (Cst (-4)) "V(3, -4)");
   CPlt Legend]
  ++ save_plot "C21_P281_Q4_Parabola.png".

Definition q5_x : list Q := np_linspace (-5) 5 200.
(** [mask = (np.abs(x - 2) > 0.1) & (np.abs(x + 2) > 0.1)] *)
Definition q5_mask (v : Q) : bool :=
  negb (Qle_bool (Qabs (v - 2)) 0.1) && negb (Qle_bool (Qabs (v + 2)) 0.1).
Definition q5_x_masked : list Q := np_mask q5_mask q5_x.
Definition q5_f : Expr := Div (Add X (Cst 1)) (Sub (Pow X 2) (Cst 4)).

Definition q5_rational : list Call :=
  [CFigure (6, 6);
   CPlt (Scatter (arr q5_x_masked) (np_apply q5_f (arr q5_x_masked)) None);
   CPlt (Axvline (Cst 2) Dashed (Some "x=2"));
   CPlt (Axvline (Cst (-2)) Dashed (Some "x=-2"));
   CPlt (SetYlim (-5) 5);
   CPlt Legend]
  ++ save_plot "C21_P281_Q5_Racional.png".

Definition q6_x : list Q := np_linspace 0.1 10 100.
Definition q6_f : Expr := Log2 X.

Definition q6_log : list Call :=
  [CFigure (6, 6);
   CPlt (Plot (arr q6_x) (np_apply q6_f (arr q6_x)) "" (lbl "y = log2(x)"));
   CPlt (Scatter (arr [2; 4; 8]) (arr [1; 2; 3]) (Some "red"));
   CPlt (Text (Cst 2.2) (Cst 1) "(2, 1)");
   CPlt (Text (Cst 4.2) (Cst 2) "(4, 2)");
   CPlt (Text (Cst 8.2) (Cst 3) "(8, 3)");
   CPlt Legend]
  ++ save_plot "C21_P281_Q6_Logaritmo.png".

Definition q7_x1 : list Q := np_linspace (-2) 1 50.
Definition q7_f1 : Expr := Mul (Cst 2) X.
Definition q7_x2 : list Q := np_linspace 1 4 50.
(** [y2 = 3 * np.ones_like(x2)] *)
Definition q7_y2 : list Expr := map (Mul (Cst 3)) (np_ones_like (arr q7_x2)).
(** The mask [x1 < 1]. *)
Definition q7_lt1 (v : Q) : bool := negb (Qle_bool 1 v).

Definition q7_piecewise : list Call :=
  [CFigure (6, 6);
   CPlt (Plot (arr (np_mask_by q7_lt1 q7_x1 q7_x1))
              (np_mask_by q7_lt1 q7_x1 (np_apply q7_f1 (arr q7_x1))) "b" (lbl "2x (x < 1)"));
   CPlt (Plot (arr q7_x2) q7_y2 "g" (lbl "3 (x >= 1)"));
   CPlt (Plot [Cst 1] [Cst 2] "bo" (mkKw None None None None None true None));
   CPlt (Plot [Cst 1] [Cst 3] "go" kw0);
   CPlt Legend]
  ++ save_plot "C21_P281_Q7_Trozos.png".

Definition q8_x : list Q := np_linspace (-2) 2 100.
Definition q8_f : Expr := Pow X 2.

Definition q8_injective : list Call :=
  [CFigure (6, 6);
   CPlt (Plot (arr q8_x) (np_apply q8_f (arr q8_x)) "" (lbl "y = x^2"));
   CPlt (Axhline (Cst 2) Dashed (Some "y=2"));
   CPlt (Scatter (arr [-1.414; 1.414]) (arr [2; 2]) (Some "red"));
   CPlt Legend;
   CPlt (SetTitle "Prueba de la Recta Horizontal")]
  ++ save_plot "C21_P281_Q8_Inyectiva.png".

Definition q9_x : list Q := np_linspace (-2) 2 100.
Definition q9_f : Expr := Add (Mul (Cst 3) (Pow X 2)) (Cst 2).
Definition q9_g : Expr := Sub (Mul (Cst 2) X) (Cst 1).

Definition q9_operations : list Call :=
  [CFigure (6, 6);
   CPlt (Plot (arr q9_x) (np_apply q9_f (arr q9_x)) "" (lbl "f(x) = 3x^2 + 2"));
   CPlt (Plot (arr q9_x) (np_apply q9_g (arr q9_x)) "" (lbl "g(x) = 2x - 1"));
   CPlt Legend]
  ++ save_plot "C21_P281_Q9_Operaciones.png".

Definition q10_x : list Q := np_linspace (-1) 5 100.
Definition q10_f : Expr := Sqrt (Add X (Cst 1)).

Definition q10_composition : list Call :=
  [CFigure (6, 6);
   CPlt (Plot (arr q10_x) (np_apply q10_f (arr q10_x)) "" (lbl "y = sqrt(x+1)"));
   CPlt (Scatter (arr [-1]) (arr [0]) (Some "red"));
   CPlt Legend]
  ++ save_plot "C21_P281_Q10_Composicion.png".

(** ** The [__main__] block *)

Definition main : list (list Call) :=
  [q1_inequality; q2_abs_value; q3_linear; q4_quadratic; q5_rational; q6_log;
   q7_piecewise; q8_injective; q9_operations; q10_composition].

Definition run (s : St) : PyErr + St :=
  do s1 <- module_init s ; exec_seq main s1.

Definition file_names : list string :=
  ["C21_P281_Q1_Inecuacion.png"; "C21_P281_Q2_ValorAbsoluto.png"; "C21_P281_Q3_Recta.png";
   "C21_P281_Q4_Parabola.png"; "C21_P281_Q5_Racional.png"; "C21_P281_Q6_Logaritmo.png";
   "C21_P281_Q7_Trozos.png"; "C21_P281_Q8_Inyectiva.png"; "C21_P281_Q9_Operaciones.png";
   "C21_P281_Q10_Composicion.png"].

(** ** Running the script *)

Lemma calc_main_keys : script_keys main = Some (map (pair OUTPUT_DIR) file_names).
Proof. vm_compute. reflexivity. Qed.

Lemma calc_main_msgs : script_msgs main = Some [].
Proof. vm_compute. reflexivity. Qed.

Lemma calc_file_names_nodup : NoDup file_names.
Proof. apply (bool_decide_unpack _). vm_compute. reflexivity. Qed.

(** C20: Run from a state with no open figure in which nothing but a
    directory may exist at [generated_images_calculus], the script
    writes each of its ten files there with the figure its function
    draws, leaves every other file as it was and leaves no figure
    open. *)
Theorem calc_run_writes_files (s : St) :
  figs s = [] -> OUTPUT_DIR ∉ blocked s ->
  exists s', run s = inr s' /\ figs s' = [] /\ OUTPUT_DIR ∈ dirs s' /\
    blocked s' = blocked s /\
    (forall k, k ∉ map (pair OUTPUT_DIR) file_names -> files s' !! k = files s !! k) /\
    (forall b o, b ∈ main -> diagram b = Some o ->
                 files s' !! (OUTPUT_DIR, o_name o) = Some (o_img o)) /\
    (forall n, n ∈ file_names -> is_Some (files s' !! (OUTPUT_DIR, n))) /\
    out s' = out s.
Proof.
  intros Hf Hb.
  destruct (run_into_dir module_init main OUTPUT_DIR file_names [] s calc_main_keys
              calc_main_msgs calc_file_names_nodup (ensure_dir_ok OUTPUT_DIR s Hb) Hf)
    as (s' & Hrun & Hrest).
  exists s'. rewrite app_nil_r in Hrest. exact (conj Hrun Hrest).
Qed.

Lemma calc_run_writes_files_witness :
  exists s', run init_state = inr s' /\ figs s' = [] /\ OUTPUT_DIR ∈ dirs s'.
Proof.
  destruct (calc_run_writes_files init_state eq_refl ltac:(vm_compute; set_solver))
    as (s' & H1 & H2 & H3 & _).
  exists s'. auto.
Defined.

(** C21: Every array the script plots has finite entries: log2 is
    sampled on positive points, sqrt(x + 1) at points with x + 1 >= 0
    (the first one exactly 0), the rational function (x + 1)/(x^2 - 4)
    only at the points its mask keeps. *)
Theorem calc_curves_finite (b : list Call) (f : Fig) (a : Artist) :
  b ∈ main -> image_of b = Some f -> a ∈ artists f -> Forall (dom 0%R) (artist_coords a).
Proof. apply script_safe_sound. vm_compute. reflexivity. Qed.

Lemma calc_curves_finite_witness :
  exists f a, image_of q5_rational = Some f /\ a ∈ artists f /\ Forall (dom 0%R) (artist_coords a).
Proof.
  assert (Hne : option_map (fun f => head (artists f)) (image_of q5_rational) <> Some None)
    by (vm_compute; congruence).
  destruct (image_of q5_rational) as [f|] eqn:Hf;
    [|exfalso; clear -Hf; vm_compute in Hf; discriminate Hf].
  simpl in Hne. destruct (artists f) as [|a rest] eqn:Ha; [simpl in Hne; congruence|].
  exists f, a. assert (Hin : a ∈ artists f) by (rewrite Ha; left).
  split; [reflexivity|]. split; [exact Hin|].
  apply (calc_curves_finite q5_rational f a); [|exact Hf | exact Hin].
  apply list_elem_of_In. unfold main. cbv [In]. do 4 right. left. reflexivity.
Defined.

(** C22: The dashed vertical lines of [q5_rational] are its asymptotes:
    they stand at x = 2 and x = -2, which are exactly the points where
    the plotted (x + 1)/(x^2 - 4) is undefined, and every plotted sample
    keeps a distance above 0.1 from both. *)
Theorem calc_rational_poles :
  option_map (vlines Dashed) (image_of q5_rational) = Some [2; -2] /\
  (forall x : R, ~ dom x q5_f <-> x = 2%R \/ x = (-2)%R) /\
  Forall (fun v => 0.1 < Qabs (v - 2) /\ 0.1 < Qabs (v + 2)) q5_x_masked.
Proof.
  split; [vm_compute; reflexivity|]. split.
  - intros x. unfold q5_f. cbn [dom evalR]. evalR_simpl. split.
    + intros H. destruct (Req_dec (x * x - 4) 0) as [Hz|Hz]; [|tauto].
      assert (Hf : ((x - 2) * (x + 2) = 0)%R) by lra.
      apply Rmult_integral in Hf. lra.
    + intros Hx (_ & _ & Hne). apply Hne. destruct Hx as [->| ->]; lra.
  - unfold q5_x_masked. eapply Forall_impl; [apply np_mask_spec|]. intros v Hv.
    unfold q5_mask in Hv. apply andb_prop in Hv as [H1 H2].
    apply negb_true_iff in H1, H2.
    split; apply Qnot_le_lt; intros Hle; apply Qle_bool_iff in Hle; congruence.
Qed.

(** C24: The three red points of [q6_log], (2, 1), (4, 2) and (8, 3),
    lie on the plotted y = log2(x), and log2 is sampled only at positive
    points. *)
Theorem calc_log_points :
  option_map markers (image_of q6_log) = Some [(2, 1, false); (4, 2, false); (8, 3, false)] /\
  evalR 2 q6_f = 1%R /\ evalR 4 q6_f = 2%R /\ evalR 8 q6_f = 3%R /\
  Forall (fun v => 0 < v) q6_x.
Proof.
  split; [vm_compute; reflexivity|].
  assert (Hl2 : (0 < ln 2)%R) by (pose proof ln_lt_2; lra).
  unfold q6_f. evalR_simpl. split; [field; lra|].
  split; [|split].
  - replace 4%R with (2 * 2)%R by lra. rewrite ln_mult by lra. field. lra.
  - replace 8%R with (2 * (2 * 2))%R by lra. rewrite !ln_mult by lra. field. lra.
  - eapply Forall_impl; [apply np_linspace_bounds; discriminate|].
    intros v [Hv _]. eapply Qlt_le_trans; [|exact Hv]. reflexivity.
Qed.

(** C25: The markers of [q7_piecewise] match its conditions: the piece
    2x (for x < 1) is drawn only at samples below 1 and ends with an open
    circle at (1, 2); the constant piece 3 (for x >= 1) starts with a
    closed circle at (1, 3). *)
Theorem calc_piecewise_markers :
  option_map markers (image_of q7_piecewise) = Some [(1, 2, true); (1, 3, false)] /\
  evalR 1 q7_f1 = 2%R /\
  Forall (fun v => v < 1) (np_mask_by q7_lt1 q7_x1 q7_x1).
Proof.
  split; [vm_compute; reflexivity|]. split.
  - unfold q7_f1. evalR_simpl. lra.
  - eapply Forall_impl; [apply np_mask_by_self|]. intros v Hv.
    unfold q7_lt1 in Hv. apply negb_true_iff in Hv.
    apply Qnot_le_lt. intros Hle. apply Qle_bool_iff in Hle. congruence.
Qed.

(** C26: The horizontal-line test of [q8_injective]: the dashed line
    y = 2 meets the plotted y = x^2 at the two distinct points x = -sqrt 2
    and x = sqrt 2, so the function is not injective; the two red points
    at x = -1.414 and 1.414 are on the line and within 0.001 of the
    parabola. *)
Theorem calc_horizontal_line_test :
  option_map (fun f => (hlines Dashed f, markers f)) (image_of q8_injective)
  = Some ([2], [(-1.414, 2, false); (1.414, 2, false)]) /\
  evalR (sqrt 2) q8_f = 2%R /\ evalR (- sqrt 2) q8_f = 2%R /\ sqrt 2 <> (- sqrt 2)%R /\
  Qabs (1.414 * 1.414 - 2) < 0.001.
Proof.
  split; [vm_compute; reflexivity|].
  pose proof (sqrt_lt_R0 2 Rlt_0_2) as Hs. pose proof (sqrt_sqrt 2 (Rlt_le _ _ Rlt_0_2)) as Hss.
  unfold q8_f. evalR_simpl. split; [lra|]. split; [nra|]. split; [lra|].
  vm_compute. reflexivity.
Qed.

(** C27: The red point (-1, 0) of [q10_composition] is where the plotted
    sqrt(x + 1) starts: numpy returns a finite value exactly for
    x >= -1, the value there is 0, and the sampling starts at -1. *)
Theorem calc_sqrt_domain_start :
  option_map markers (image_of q10_composition) = Some [(-1, 0, false)] /\
  (forall x : R, dom x q10_f <-> (-1 <= x)%R) /\ evalR (-1) q10_f = 0%R /\
  option_map (Qeq_bool (-1)) (head q10_x) = Some true.
Proof.
  split; [vm_compute; reflexivity|]. split; [|split].
  - intros x. unfold q10_f. cbn [dom evalR]. evalR_simpl. split; [intros (_ & H); lra | intros H; split; [tauto | lra]].
  - unfold q10_f. evalR_simpl. replace (-1 + 1)%R with 0%R by lra. apply sqrt_0.
  - vm_compute. reflexivity.
Qed.

End Calc.
