(* ===== verification/Trig.v ===== *)
(** * Trig.v: [src/generate_trig_images.py]

    The first trigonometry set of quiz 280: the 3-4-5 right triangle, an
    angle of elevation, the unit circle at 30 degrees, an oblique
    triangle for the law of sines, the parabola y = x^2/2 with its focus
    and directrix, and the ellipse x^2/16 + y^2/4 = 1 with its foci.
    The script guards [os.makedirs] with [os.path.exists], prints a line
    before and after the diagrams, and every diagram function starts
    with [setup_plot], whose two optional arguments select the title and
    the grid.  Its curves are sampled over [0, 2 pi], so their arrays are
    numpy expressions in [Pi], and their properties are stated in the
    reals with [line_on]. *)

From Stdlib Require Import QArith Qabs Qreals Reals Psatz String.
From stdpp Require Import base gmap strings list.
From S2P Require Import Spec2Rocq Numpy Pyplot.
Import Numpy Pyplot.

Module Trig.

Local Open Scope Q_scope.

(** ** Module-level code *)

Definition OUTPUT_DIR : string :=
  "L:\PAGINA WEB\APP CUESTIONARIOS\imagenes temporales preguntas".
Definition QUIZ_PREFIX : string := "C21_P280".

(** [if not os.path.exists(OUTPUT_DIR): os.makedirs(OUTPUT_DIR)] *)
Definition module_init (s : St) : PyErr + St := ensure_dir OUTPUT_DIR s.

Definition save_plot (filename : string) : list Call :=
  [CSavefig OUTPUT_DIR filename (Some 100);
   CClose;
   CPrint (String.append "Generated: " filename)].

(** [setup_plot(title="", grid=False)]: [if title:] is false exactly for
    the empty string. *)
Definition setup_plot (title : string) (grid : bool) : list Call :=
  [CFigure (6, 4)]
  ++ (if String.eqb title "" then [] else [CPlt (SetTitle title)])
  ++ (if grid then [CPlt (Grid true)] else [])
  ++ [CPlt (AxisMode "equal")].

(** [f"{QUIZ_PREFIX}_..."] *)
Definition file_name (suffix : string) : string := String.append QUIZ_PREFIX suffix.

(** ** 1. Right triangle *)

Definition rt_A : Q * Q := (0, 0).
Definition rt_B : Q * Q := (4, 0).
Definition rt_C : Q * Q := (4, 3).

Definition plot_right_triangle : list Call :=
  setup_plot "" false ++
  [CPlt (Plot (arr [rt_A.1; rt_B.1; rt_C.1; rt_A.1]) (arr [rt_A.2; rt_B.2; rt_C.2; rt_A.2]) "b-" kw0);
   CPlt (Plot (arr [3.6; 3.6; 4]) (arr [0; 0.4; 0.4]) "k-" kw0);
   CPlt (Text (Cst 2) (Cst (-0.3)) "4");
   CPlt (Text (Cst 4.1) (Cst 1.5) "3");
   CPlt (Text (Cst 1.8) (Cst 1.6) "5");
   CPlt (Text (Cst 0.5) (Cst 0.2) "θ");
   CPlt (AxisMode "off")]
  ++ save_plot (file_name "_Q1_Right_Triangle.png").

(** ** 2. Angle of elevation *)

(** [theta = np.linspace(0, 36.87, 20)], [r = 2],
    [x = r * np.cos(np.radians(theta))], [y = r * np.sin(np.radians(theta))] *)
Definition elevation_theta : list Q := np_linspace 0 36.87 20.
Definition elevation_r : Q := 2.
Definition elevation_fx : Expr := Mul (Cst elevation_r) (Cos (radians X)).
Definition elevation_fy : Expr := Mul (Cst elevation_r) (Sin (radians X)).

Definition plot_angle_elevation : list Call :=
  setup_plot "" false ++
  [CPlt (Plot (arr [0; 10]) (arr [0; 0]) "k-" kw0);
   CPlt (Plot (arr [8; 8]) (arr [0; 6]) "k-" kw0);
   CPlt (Plot (arr [0; 8]) (arr [0; 6]) "b--" kw0);
   CPlt (Plot (arr [0; 5]) (arr [0; 0]) "k:" kw0);
   CPlt (Plot (np_apply elevation_fx (arr elevation_theta))
              (np_apply elevation_fy (arr elevation_theta)) "r-" kw0);
   CPlt (Text (Cst 2.5) (Cst 0.5) "30°");
   CPlt (Text (Cst 8.2) (Cst 3) "h = ?");
   CPlt (Text (Cst 4) (Cst (-0.5)) "50 m");
   CPlt (AxisMode "off")]
  ++ save_plot (file_name "_Q5_Angle_Elevation.png").

(** ** 3. Unit circle *)

(** [theta = np.linspace(0, 2*np.pi, 100)], [angle = np.radians(30)] *)
Definition uc_theta : list Expr := np_linspace_e (Cst 0) (Mul (Cst 2) Pi) 100.
Definition uc_angle : Expr := radians (Cst 30).

Definition plot_unit_circle : list Call :=
  setup_plot "" true ++
  [CPlt (Plot (np_apply (Cos X) uc_theta) (np_apply (Sin X) uc_theta) "k-" kw0);
   CPlt (Axhline (Cst 0) Solid None);
   CPlt (Axvline (Cst 0) Solid None);
   CPlt (Plot [Cst 0; Cos uc_angle] [Cst 0; Sin uc_angle] "r-" kw0);
   CPlt (Plot [Cos uc_angle; Cos uc_angle] [Cst 0; Sin uc_angle] "b--" kw0);
   CPlt (Text (Cst 0.2) (Cst 0.05) "30°");
   CPlt (Text (Cst 0.9) (Cst 0.25) "P(x,y)");
   CPlt (SetXlim (-1.2) 1.2);
   CPlt (SetYlim (-1.2) 1.2)]
  ++ save_plot (file_name "_Q8_Unit_Circle.png").

(** ** 4. Oblique triangle (law of sines) *)

Definition ob_A : Q * Q := (0, 0).
Definition ob_B : Q * Q := (5, 0).
Definition ob_C : Q * Q := (3, 4).

Definition plot_oblique_triangle : list Call :=
  setup_plot "" false ++
  [CPlt (Plot (arr [ob_A.1; ob_B.1; ob_C.1; ob_A.1]) (arr [ob_A.2; ob_B.2; ob_C.2; ob_A.2]) "g-" kw0);
   CPlt (Text (Cst (-0.3)) (Cst (-0.3)) "A");
   CPlt (Text (Cst 5.1) (Cst (-0.3)) "B");
   CPlt (Text (Cst 3) (Cst 4.2) "C");
   CPlt (Text (Cst 2.5) (Cst (-0.3)) "c = 10");
   CPlt (Text (Cst 1.2) (Cst 2.2) "b = ?");
   CPlt (Text (Cst 4.2) (Cst 2.2) "a = 8");
   CPlt (Text (Cst 0.5) (Cst 0.2) "45°");
   CPlt (Text (Cst 4.3) (Cst 0.2) "60°");
   CPlt (AxisMode "off")]
  ++ save_plot (file_name "_Q25_Sine_Law.png").

(** ** 5. Parabola *)

Definition parabola_x : list Q := np_linspace (-4) 4 100.
Definition parabola_f : Expr := Mul (Cst 0.5) (Pow X 2).

Definition plot_parabola : list Call :=
  setup_plot "" true ++
  [CPlt (Plot (arr parabola_x) (np_apply parabola_f (arr parabola_x)) "b-" kw0);
   CPlt (Plot [Cst 0] [Cst 0.5] "ro" kw0);
   CPlt (Axhline (Cst (-0.5)) Dashed None);
   CPlt (Text (Cst 0.2) (Cst 0.6) "Foco");
   CPlt (Text (Cst 2) (Cst (-0.8)) "Directriz");
   CPlt (SetXlim (-5) 5);
   CPlt (SetYlim (-2) 8)]
  ++ save_plot (file_name "_Q30_Parabola.png").

(** ** 6. Ellipse *)

(** [t = np.linspace(0, 2*np.pi, 100)], [a = 4], [b = 2] *)
Definition ellipse_t : list Expr := np_linspace_e (Cst 0) (Mul (Cst 2) Pi) 100.
Definition ellipse_a : Q := 4.
Definition ellipse_b : Q := 2.
Definition ellipse_fx : Expr := Mul (Cst ellipse_a) (Cos X).
Definition ellipse_fy : Expr := Mul (Cst ellipse_b) (Sin X).

Definition plot_ellipse : list Call :=
  setup_plot "" true ++
  [CPlt (Plot (np_apply ellipse_fx ellipse_t) (np_apply ellipse_fy ellipse_t) "m-" kw0);
   CPlt (Plot (arr [-3.46; 3.46]) (arr [0; 0]) "ro" kw0);
   CPlt (Text (Cst (-3.5)) (Cst 0.3) "F1");
   CPlt (Text (Cst 3.5) (Cst 0.3) "F2");
   CPlt (SetXlim (-5) 5);
   CPlt (SetYlim (-3) 3)]
  ++ save_plot (file_name "_Q32_Ellipse.png").

(** ** The [__main__] block *)

Definition main : list (list Call) :=
  [plot_right_triangle; plot_angle_elevation; plot_unit_circle;
   plot_oblique_triangle; plot_parabola; plot_ellipse].

(** Import, then [print("Generating images...")], the six functions and
    [print("Done.")]. *)
Definition run (s : St) : PyErr + St :=
  do s1 <- module_init s ;
  do s2 <- exec_seq main (print "Generating images..." s1) ;
  inr (print "Done." s2).

Definition file_names : list string :=
  map file_name ["_Q1_Right_Triangle.png"; "_Q5_Angle_Elevation.png"; "_Q8_Unit_Circle.png";
                 "_Q25_Sine_Law.png"; "_Q30_Parabola.png"; "_Q32_Ellipse.png"].

(** ** Running the script *)

Lemma trig_main_keys : script_keys main = Some (map (pair OUTPUT_DIR) file_names).
Proof. vm_compute. reflexivity. Qed.

Lemma trig_main_msgs : script_msgs main = Some (map (String.append "Generated: ") file_names).
Proof. vm_compute. reflexivity. Qed.

Lemma trig_file_names_nodup : NoDup file_names.
Proof. apply (bool_decide_unpack _). vm_compute. reflexivity. Qed.

(** The distance from a point (4 cos t, 2 sin t) of the ellipse to
    (-d, 0), for d^2 = 12, is 4 + d cos t. *)
Lemma focal_distance (x y d C S : R) :
  x = (4 * C)%R -> y = (2 * S)%R -> (S * S + C * C = 1)%R -> (d * d = 12)%R ->
  (-1 <= C <= 1)%R -> (-4 < d < 4)%R ->
  sqrt ((x + d) ^ 2 + y ^ 2) = (4 + d * C)%R.
Proof.
  intros -> -> Hsc Hd Hb Ha.
  replace ((4 * C + d) ^ 2 + (2 * S) ^ 2)%R with ((4 + d * C) ^ 2)%R.
  - apply sqrt_pow2. nra.
  - assert (E : ((4 * C + d) ^ 2 + (2 * S) ^ 2 - (4 + d * C) ^ 2
                 = (d * d - 12) * (1 - C * C) + 4 * (S * S + C * C - 1))%R) by ring.
    rewrite Hd, Hsc in E. lra.
Qed.

(** C28: Run from a state with no open figure in which nothing but a
    directory may exist at its output path, the script writes each of
    its six files there with the figure its function draws, leaves
    every other file as it was, leaves no figure open and prints
    "Generating images...", one "Generated: <file>" line per file in
    order, and "Done.". *)
Theorem trig_run_writes_files (s : St) :
  figs s = [] -> OUTPUT_DIR ∉ blocked s ->
  exists s', run s = inr s' /\ figs s' = [] /\ OUTPUT_DIR ∈ dirs s' /\
    blocked s' = blocked s /\
    (forall k, k ∉ map (pair OUTPUT_DIR) file_names -> files s' !! k = files s !! k) /\
    (forall b o, b ∈ main -> diagram b = Some o ->
                 files s' !! (OUTPUT_DIR, o_name o) = Some (o_img o)) /\
    (forall n, n ∈ file_names -> is_Some (files s' !! (OUTPUT_DIR, n))) /\
    out s' = out s ++ ["Generating images..."] ++ map (String.append "Generated: ") file_names
                    ++ ["Done."].
Proof.
  intros Hf Hb. destruct (ensure_dir_ok OUTPUT_DIR s Hb) as (s1 & Hi & Hf1 & Hd1 & Hb1 & Hfl1 & Ho1).
  unfold run, module_init. rewrite Hi, bindr_inr. rewrite <- Hf1 in Hf.
  destruct (exec_seq_into_dir main OUTPUT_DIR file_names _ (print "Generating images..." s1)
              trig_main_keys trig_main_msgs trig_file_names_nodup Hf Hd1)
    as (s' & Hrun & Hf' & Hd' & Hb' & Hother & Himg & Hin & Hout).
  rewrite Hrun, bindr_inr. exists (print "Done." s'). cbn [print figs dirs blocked files out] in *.
  rewrite Hd', Hb', <- Hb1, <- Hfl1, Hout, Ho1, <- !app_assoc.
  repeat split; auto.
Qed.

Lemma trig_run_writes_files_witness :
  exists s', run init_state = inr s' /\ figs s' = [] /\ OUTPUT_DIR ∈ dirs s'.
Proof.
  destruct (trig_run_writes_files init_state eq_refl ltac:(vm_compute; set_solver))
    as (s' & H1 & H2 & H3 & _).
  exists s'. auto.
Defined.

(** C29: [plot_right_triangle] draws the closed triangle A(0, 0),
    B(4, 0), C(4, 3) and a right-angle mark in the corner at B; the
    sides have lengths 4, 3 and 5, the numbers written beside them (each
    label within 0.5 of its side's midpoint), and the angle at B is
    right. *)
Theorem right_triangle_3_4_5 :
  option_map (fun f => (polylines Solid f, text_pos "4" f, text_pos "3" f, text_pos "5" f))
             (image_of plot_right_triangle)
  = Some ([[rt_A; rt_B; rt_C; rt_A]; [(3.6, 0); (3.6, 0.4); (4, 0.4)]],
          Some (2, -0.3), Some (4.1, 1.5), Some (1.8, 1.6)) /\
  dist2 rt_A rt_B == 4 * 4 /\ dist2 rt_B rt_C == 3 * 3 /\ dist2 rt_C rt_A == 5 * 5 /\
  dist2 (2, -0.3) (midpoint rt_A rt_B) < 0.5 * 0.5 /\
  dist2 (4.1, 1.5) (midpoint rt_B rt_C) < 0.5 * 0.5 /\
  dist2 (1.8, 1.6) (midpoint rt_C rt_A) < 0.5 * 0.5 /\
  cos2_at rt_B rt_A rt_C == 0.
Proof. repeat split; vm_compute; reflexivity. Qed.

(** C30: [plot_angle_elevation] labels its angle of elevation "30°",
    but the dashed line of sight it draws rises from (0, 0) to (8, 6),
    at slope 3/4, and tan 30° = 1/sqrt 3 is not 3/4; the red arc that
    marks the angle has radius 2 and runs from 0 to 36.87 degrees, the
    angle of the drawn line, not 30. *)
Theorem elevation_label_mismatch :
  option_map (fun f => (segments Dashed f, text_pos "30°" f)) (image_of plot_angle_elevation)
  = Some ([((0, 0), (8, 6))], Some (2.5, 0.5)) /\
  tan (PI / 6) <> (6 / 8)%R /\
  option_map (Qeq_bool 36.87) (last elevation_theta) = Some true /\
  Forall (fun t => (evalR t elevation_fx ^ 2 + evalR t elevation_fy ^ 2 = 2 ^ 2)%R)
         (map Q2R elevation_theta).
Proof.
  split; [vm_compute; reflexivity|]. split; [|split; [vm_compute; reflexivity|]].
  - rewrite tan_PI6. intros H. pose proof (sqrt_lt_R0 3 ltac:(lra)) as H3.
    pose proof (sqrt_sqrt 3 ltac:(lra)) as H33.
    assert (H1 : (1 / sqrt 3 * sqrt 3 = 1)%R) by (field; lra).
    rewrite H in H1. assert (Hs : sqrt 3 = (4 / 3)%R) by lra.
    rewrite Hs in H33. lra.
  - apply Forall_forall. intros t _. unfold elevation_fx, elevation_fy, elevation_r.
    cbn [evalR]. pose proof (sin2_cos2 (evalR t (radians X))) as Hsc. unfold Rsqr in Hsc.
    replace (Q2R 2) with 2%R by (unfold Q2R; simpl; lra). nra.
Qed.

(** C31: [plot_unit_circle] draws, in the figure it saves, the whole
    unit circle as a solid black line through the 100 points
    (cos (2 pi i / 99), sin (2 pi i / 99)) for i = 0 .. 99, which closes
    at (1, 0); the red radius from the origin to P = (sqrt 3 / 2, 1 / 2),
    the point at 30 degrees; and the dashed blue segment dropping from P
    to the x-axis. *)
Theorem unit_circle_points :
  exists f, image_of plot_unit_circle = Some f /\
    (exists l, ALine l ∈ artists f /\ ln_color l = Some "k" /\ ln_style l = Solid /\
       map (evalR 0) (ln_xs l) = map (fun i => cos (2 * PI * INR i / 99)%R) (seq 0 100) /\
       map (evalR 0) (ln_ys l) = map (fun i => sin (2 * PI * INR i / 99)%R) (seq 0 100)) /\
    (exists l, ALine l ∈ artists f /\ ln_color l = Some "r" /\ ln_style l = Solid /\
       map (evalR 0) (ln_xs l) = [0; sqrt 3 / 2]%R /\ map (evalR 0) (ln_ys l) = [0; 1 / 2]%R) /\
    (exists l, ALine l ∈ artists f /\ ln_color l = Some "b" /\ ln_style l = Dashed /\
       map (evalR 0) (ln_xs l) = [sqrt 3 / 2; sqrt 3 / 2]%R /\ map (evalR 0) (ln_ys l) = [0; 1 / 2]%R).
Proof.
  destruct (image_of plot_unit_circle) as [f|] eqn:Hf;
    [|exfalso; clear -Hf; vm_compute in Hf; discriminate Hf].
  exists f. split; [reflexivity|].
  assert (Ha : evalR 0 uc_angle = (PI / 6)%R)
    by (unfold uc_angle, radians; cbn [evalR]; unfold Q2R; simpl; field).
  assert (H0 : Q2R 0 = 0%R) by (unfold Q2R; simpl; lra).
  assert (H2 : Q2R 2 = 2%R) by (unfold Q2R; simpl; lra).
  split; [|split].
  - destruct (image_of_plot_fmt plot_unit_circle f
                (np_apply (Cos X) uc_theta) (np_apply (Sin X) uc_theta) "k-" kw0 _ _ Hf
                ltac:(vm_compute; reflexivity) ltac:(vm_compute; split; reflexivity))
      as (l & Hl & Hx & Hy & Hc & Hs).
    exists l. repeat (split; [assumption|]).
    rewrite Hx, Hy, !map_evalR_np_apply. unfold uc_theta. rewrite (np_linspace_e_evalR _ _ 98).
    rewrite (INR_IZR_INZ 99). change (Z.of_nat 99) with 99%Z.
    split; rewrite map_map; apply map_ext; intros i; cbn [evalR]; rewrite H0, H2; f_equal; field.
  - destruct (image_of_plot_fmt plot_unit_circle f
                [Cst 0; Cos uc_angle] [Cst 0; Sin uc_angle] "r-" kw0 _ _ Hf
                ltac:(vm_compute; reflexivity) ltac:(vm_compute; split; reflexivity))
      as (l & Hl & Hx & Hy & Hc & Hs).
    exists l. repeat (split; [assumption|]).
    rewrite Hx, Hy. cbn [map evalR]. rewrite Ha, H0, cos_PI6, sin_PI6. split; reflexivity.
  - destruct (image_of_plot_fmt plot_unit_circle f
                [Cos uc_angle; Cos uc_angle] [Cst 0; Sin uc_angle] "b--" kw0 _ _ Hf
                ltac:(vm_compute; reflexivity) ltac:(vm_compute; split; reflexivity))
      as (l & Hl & Hx & Hy & Hc & Hs).
    exists l. repeat (split; [assumption|]).
    rewrite Hx, Hy. cbn [map evalR]. rewrite Ha, H0, cos_PI6, sin_PI6. split; reflexivity.
Qed.

(** C32: In [plot_parabola] the red point (0, 1/2) and the dashed line
    y = -1/2 are the focus and the directrix of the plotted y = x^2/2:
    every drawn point is as far from the one as from the other. *)
Theorem parabola_focus_directrix :
  exists f, image_of plot_parabola = Some f /\
    markers f = [(0, 0.5, false)] /\ hlines Dashed f = [-0.5] /\
    exists l, ALine l ∈ artists f /\ ln_style l = Solid /\
      line_on (fun x y => x * x + (y - 1/2) * (y - 1/2) = (y + 1/2) * (y + 1/2))%R l.
Proof.
  assert (Hm : option_map (fun f => (markers f, hlines Dashed f)) (image_of plot_parabola)
               = Some ([(0, 0.5, false)], [-0.5])) by (vm_compute; reflexivity).
  destruct (image_of plot_parabola) as [f|] eqn:Hf; [|discriminate Hm].
  injection Hm as Hm1 Hm2. exists f. repeat split; auto.
  destruct (image_of_plot_style plot_parabola f
              (arr parabola_x) (np_apply parabola_f (arr parabola_x)) "b-" kw0 Solid Hf
              ltac:(vm_compute; reflexivity) ltac:(vm_compute; reflexivity))
    as (l & Hl & Hx & Hy & Hs).
  exists l. repeat split; auto.
  apply (line_on_graph _ l _ _ Hx Hy), Forall_forall. intros t _.
  unfold parabola_f. cbn [evalR pow]. unfold Q2R; simpl. field.
Qed.

(** C33: The magenta curve of [plot_ellipse] is drawn through points of
    the ellipse x^2/16 + y^2/4 = 1, each at distance sum 8 from the true
    foci (-sqrt 12, 0) and (sqrt 12, 0); the red foci are drawn at
    x = -3.46 and 3.46, within 0.005 of -sqrt 12 and sqrt 12. *)
Theorem ellipse_foci :
  exists f, image_of plot_ellipse = Some f /\
    markers f = [(-3.46, 0, false); (3.46, 0, false)] /\
    (exists l, ALine l ∈ artists f /\ ln_style l = Solid /\
       line_on (fun x y => x * x / 16 + y * y / 4 = 1 /\
                 sqrt ((x - sqrt 12) ^ 2 + y ^ 2) + sqrt ((x + sqrt 12) ^ 2 + y ^ 2) = 8)%R l) /\
    (Rabs (Q2R 3.46 - sqrt 12) < 0.005)%R.
Proof.
  assert (Hm : option_map markers (image_of plot_ellipse)
               = Some [(-3.46, 0, false); (3.46, 0, false)]) by (vm_compute; reflexivity).
  destruct (image_of plot_ellipse) as [f|] eqn:Hf; [|discriminate Hm].
  injection Hm as Hm. exists f. split; [reflexivity|]. split; [exact Hm|].
  pose proof (sqrt_sqrt 12 ltac:(lra)) as Hc2. pose proof (sqrt_lt_R0 12 ltac:(lra)) as Hc0.
  split.
  - destruct (image_of_plot_style plot_ellipse f
                (np_apply ellipse_fx ellipse_t) (np_apply ellipse_fy ellipse_t) "m-" kw0 Solid Hf
                ltac:(vm_compute; reflexivity) ltac:(vm_compute; reflexivity))
      as (l & Hl & Hx & Hy & Hs).
    exists l. repeat split; auto.
    apply (line_on_np_apply _ l _ _ _ Hx Hy), Forall_forall. intros t _.
    unfold ellipse_fx, ellipse_fy, ellipse_a, ellipse_b. cbn [evalR].
    replace (Q2R 4) with 4%R by (unfold Q2R; simpl; lra).
    replace (Q2R 2) with 2%R by (unfold Q2R; simpl; lra).
    pose proof (sin2_cos2 (evalR 0 t)) as Hsc. unfold Rsqr in Hsc.
    pose proof (COS_bound (evalR 0 t)) as Hb.
    set (C := cos (evalR 0 t)) in *. set (S := sin (evalR 0 t)) in *. set (c := sqrt 12) in *.
    split; [field_simplify; lra|].
    assert (Hc4 : (-4 < c < 4)%R) by nra.
    unfold Rminus at 1.
    rewrite (focal_distance (4 * C) (2 * S) (- c) C S), (focal_distance (4 * C) (2 * S) c C S)
      by (first [reflexivity | lra | nra]).
    lra.
  - replace (Q2R 3.46) with (346 / 100)%R by (unfold Q2R; simpl; lra).
    apply Rabs_def1; nra.
Qed.

(** C34: The labels of [plot_oblique_triangle] describe no triangle:
    with A = 45 degrees and B = 60 degrees (so C = 75 degrees), the law
    of sines gives a / sin A = c / sin C, which fails for a = 8 and
    c = 10.  The triangle drawn, A(0, 0), B(5, 0), C(3, 4), has neither
    the labelled angle at A (cos^2 A = 9/25, not 1/2) nor the one at B
    (cos^2 B = 1/5, not 1/4). *)
Theorem sine_law_labels_inconsistent :
  option_map (fun f => (polylines Solid f, text_pos "a = 8" f, text_pos "c = 10" f,
                        text_pos "45°" f, text_pos "60°" f)) (image_of plot_oblique_triangle)
  = Some ([[ob_A; ob_B; ob_C; ob_A]], Some (4.2, 2.2), Some (2.5, -0.3),
          Some (0.5, 0.2), Some (4.3, 0.2)) /\
  (8 / sin (PI / 4) <> 10 / sin (PI - PI / 4 - PI / 3))%R /\
  cos2_at ob_A ob_B ob_C == 9 / 25 /\ cos2_at ob_B ob_A ob_C == 1 / 5.
Proof.
  split; [vm_compute; reflexivity|]. split; [|split; vm_compute; reflexivity].
  replace (PI - PI / 4 - PI / 3)%R with (PI / 4 + PI / 6)%R by field.
  rewrite sin_plus, sin_PI4, cos_PI4, sin_PI6, cos_PI6.
  pose proof (sqrt_lt_R0 2 ltac:(lra)) as H2. pose proof (sqrt_lt_R0 3 ltac:(lra)) as H3.
  pose proof (sqrt_sqrt 3 ltac:(lra)) as H33.
  set (a := sqrt 2) in *. set (b := sqrt 3) in *. intros H.
  replace (8 / (1 / a))%R with (8 * a)%R in H by (field; lra).
  replace (10 / (1 / a * (b / 2) + 1 / a * (1 / 2)))%R with (20 * a / (b + 1))%R in H
    by (field; lra).
  assert (E : (8 * a * (b + 1) = 20 * a)%R) by (rewrite H; field; lra).
  assert (Hb : b = (3 / 2)%R) by (apply (Rmult_eq_reg_r a); lra).
  rewrite Hb in H33. lra.
Qed.

End Trig.
