(* ===== verification/TrigBatch2.v ===== *)
(** * TrigBatch2.v: [src/generate_trig_images_batch2.py]

    The second trigonometry set of quiz 280: the reference angle of 210
    degrees on the unit circle, the sine wave y = 2 + 3 sin(4x - pi)
    with its centre line, extremes and amplitude arrow, a triangle for
    the law of sines (A = 30, B = 45 degrees, a = 10), the triangle with
    sides 5, 6, 7 for the law of cosines, and the complex number of
    modulus 2 and argument pi/3.  The script creates its directory with
    [os.makedirs(..., exist_ok=True)], draws on the axes [plt.subplots]
    returns ([ax.<op>]), adds the triangles as [plt.Polygon] patches and
    prints "Saved <path>" after each file. *)

From Stdlib Require Import QArith Qreals Reals Psatz String.
From stdpp Require Import base gmap strings list.
From S2P Require Import Spec2Rocq Numpy Pyplot.
Import Numpy Pyplot.

Module TrigBatch2.

Local Open Scope Q_scope.

(** ** Module-level code *)

Definition output_dir : string :=
  "L:\PAGINA WEB\APP CUESTIONARIOS\imagenes temporales preguntas".

(** [os.makedirs(output_dir, exist_ok=True)], run on import. *)
Definition module_init (s : St) : PyErr + St := makedirs output_dir true s.

Definition save_plot (filename : string) : list Call :=
  [CSavefig output_dir filename (Some 100);
   CClose;
   CPrint (String.append "Saved " (path_join output_dir filename))].

Definition lbl (l : string) : PlotKw := mkKw None None None None None false (Some l).

(** ** 1. Reference angle of 210 degrees *)

(** [theta = np.linspace(0, 2*np.pi, 100)], [angle_rad = np.radians(210)],
    [ref_theta = np.linspace(np.pi, angle_rad, 20)] *)
Definition ref_circle_theta : list Expr := np_linspace_e (Cst 0) (Mul (Cst 2) Pi) 100.
Definition ref_angle_rad : Expr := radians (Cst 210).
Definition ref_theta : list Expr := np_linspace_e Pi ref_angle_rad 20.

Definition plot_ref_angle_210 : list Call :=
  [CSubplots (5, 5);
   CAx (Plot (np_apply (Cos X) ref_circle_theta) (np_apply (Sin X) ref_circle_theta) "k-" kw0);
   CAx (Axhline (Cst 0) Solid None);
   CAx (Axvline (Cst 0) Solid None);
   CAx (Plot [Cst 0; Cos ref_angle_rad] [Cst 0; Sin ref_angle_rad] "b-" (lbl "210°"));
   CAx (Plot (np_apply (Mul (Cst 0.3) (Cos X)) ref_theta)
             (np_apply (Mul (Cst 0.3) (Sin X)) ref_theta) "r-" kw0);
   CAx (Text (Cst (-0.4)) (Cst (-0.15)) "30°");
   CAx (SetAspect "equal");
   CAx (SetXlim (-1.2) 1.2);
   CAx (SetYlim (-1.2) 1.2);
   CAx (AxisMode "off");
   CAx (SetTitle "Ángulo de Referencia")]
  ++ save_plot "C21_P280_Q_RefAngle210.png".

(** ** 2. Amplitude of a sine wave *)

(** [x = np.linspace(0, 2*np.pi, 400)], [y = 2 + 3 * np.sin(4*x - np.pi)],
    the arrow at [np.pi/8 + np.pi/4] *)
Definition sine_x : list Expr := np_linspace_e (Cst 0) (Mul (Cst 2) Pi) 400.
Definition sine_f : Expr := Add (Cst 2) (Mul (Cst 3) (Sin (Sub (Mul (Cst 4) X) Pi))).
Definition sine_arrow_x : Expr := Add (Div Pi (Cst 8)) (Div Pi (Cst 4)).

Definition plot_sine_amplitude : list Call :=
  [CSubplots (8, 4);
   CAx (Plot sine_x (np_apply sine_f sine_x) "b-" kw0);
   CAx (Axhline (Cst 2) Dashed (Some "Eje central (y=2)"));
   CAx (Axhline (Cst 5) Dotted None);
   CAx (Axhline (Cst (-1)) Dotted None);
   CAx (Annotate "" (sine_arrow_x, Cst 2) (sine_arrow_x, Cst 5));
   CAx (Text (Cst 1.3) (Cst 3.5) "Amplitud = ?");
   CAx (SetTitle "$y = 2 + 3\sin(4x - \pi)$");
   CAx (Grid true);
   CAx (SetYlim (-2) 6)]
  ++ save_plot "C21_P280_Q_SineAmplitude.png".

(** ** 3. Law of sines *)

(** [a = 10], the angles in radians, and the sides [b] and [c] the law of
    sines gives; the script computes them and then draws with the
    rounded lengths [b_len] and [c_len]. *)
Definition ls_a : Q := 10.
Definition ls_rad_A : Expr := radians (Cst 30).
Definition ls_rad_B : Expr := radians (Cst 45).
Definition ls_rad_C : Expr := radians (Cst 105).
Definition ls_b : Expr := Div (Mul (Cst ls_a) (Sin ls_rad_B)) (Sin ls_rad_A).
Definition ls_c : Expr := Div (Mul (Cst ls_a) (Sin ls_rad_C)) (Sin ls_rad_A).
Definition ls_b_len : Q := 14.14.
Definition ls_c_len : Q := 19.32.
Definition ls_A_coord : Expr * Expr := (Cst 0, Cst 0).
Definition ls_C_coord : Expr * Expr :=
  (Mul (Cst ls_b_len) (Cos (radians (Cst 30))), Mul (Cst ls_b_len) (Sin (radians (Cst 30)))).
Definition ls_B_coord : Expr * Expr := (Cst ls_c_len, Cst 0).

Definition plot_law_sines : list Call :=
  [CSubplots (6, 4);
   CAx (AddPatch (Poly [ls_A_coord; ls_B_coord; ls_C_coord] false));
   CAx (Text (Cst (-1)) (Cst (-1)) "A (30°)");
   CAx (Text (Cst ls_c_len) (Cst (-1)) "B (45°)");
   CAx (Text (Sub ls_C_coord.1 (Cst 1)) (Add ls_C_coord.2 (Cst 1)) "C");
   CAx (Text (Div (Cst ls_c_len) (Cst 2)) (Cst (-2)) "c");
   CAx (Text (Sub (Div ls_C_coord.1 (Cst 2)) (Cst 1)) (Add (Div ls_C_coord.2 (Cst 2)) (Cst 1)) "b = ?");
   CAx (Text (Add (Div (Add ls_B_coord.1 ls_C_coord.1) (Cst 2)) (Cst 0.5))
             (Add (Div (Add ls_B_coord.2 ls_C_coord.2) (Cst 2)) (Cst 1)) "a = 10");
   CAx (SetXlim (-2) 22);
   CAx (SetYlim (-3) 10);
   CAx (AxisMode "off");
   CAx (SetTitle "Ley de Senos")]
  ++ save_plot "C21_P280_Q_LawSines.png".

(** ** 4. Law of cosines *)

(** [c_len = 6], [b_len = 5], [angle_A = np.arccos(0.2)] *)
Definition lc_c_len : Q := 6.
Definition lc_b_len : Q := 5.
Definition lc_angle_A : Expr := Arccos (Cst 0.2).
Definition lc_A_coord : Expr * Expr := (Cst 0, Cst 0).
Definition lc_B_coord : Expr * Expr := (Cst lc_c_len, Cst 0).
Definition lc_C_coord : Expr * Expr :=
  (Mul (Cst lc_b_len) (Cos lc_angle_A), Mul (Cst lc_b_len) (Sin lc_angle_A)).

Definition plot_law_cosines : list Call :=
  [CSubplots (6, 4);
   CAx (AddPatch (Poly [lc_A_coord; lc_B_coord; lc_C_coord] false));
   CAx (Text (Cst (-0.5)) (Cst (-0.5)) "A = ?");
   CAx (Text (Cst lc_c_len) (Cst (-0.5)) "B");
   CAx (Text lc_C_coord.1 (Add lc_C_coord.2 (Cst 0.5)) "C");
   CAx (Text (Div (Cst lc_c_len) (Cst 2)) (Cst (-0.8)) "6");
   CAx (Text (Sub (Div lc_C_coord.1 (Cst 2)) (Cst 0.5)) (Div lc_C_coord.2 (Cst 2)) "5");
   CAx (Text (Add (Div (Add lc_B_coord.1 lc_C_coord.1) (Cst 2)) (Cst 0.2))
             (Div (Add lc_B_coord.2 lc_C_coord.2) (Cst 2)) "7");
   CAx (SetXlim (-1) 7);
   CAx (SetYlim (-1) 6);
   CAx (AxisMode "off");
   CAx (SetTitle "Ley de Cosenos")]
  ++ save_plot "C21_P280_Q_LawCosines.png".

(** ** 5. Complex number *)

(** [r = 2], [theta = np.pi/3], [x = r * np.cos(theta)],
    [y = r * np.sin(theta)], [arc_theta = np.linspace(0, theta, 20)] *)
Definition cx_r : Q := 2.
Definition cx_theta : Expr := Div Pi (Cst 3).
Definition cx_x : Expr := Mul (Cst cx_r) (Cos cx_theta).
Definition cx_y : Expr := Mul (Cst cx_r) (Sin cx_theta).
Definition cx_arc_theta : list Expr := np_linspace_e (Cst 0) cx_theta 20.

Definition plot_complex_number : list Call :=
  [CSubplots (5, 5);
   CAx (Axhline (Cst 0) Solid None);
   CAx (Axvline (Cst 0) Solid None);
   CAx (Plot [Cst 0; cx_x] [Cst 0; cx_y] "b-" kw0);
   CAx (Plot [cx_x] [cx_y] "bo" kw0);
   CAx (Plot [cx_x; cx_x] [Cst 0; cx_y] "k--" kw0);
   CAx (Plot [Cst 0; cx_x] [cx_y; cx_y] "k--" kw0);
   CAx (Plot (np_apply (Mul (Cst 0.5) (Cos X)) cx_arc_theta)
             (np_apply (Mul (Cst 0.5) (Sin X)) cx_arc_theta) "r-" kw0);
   CAx (Text (Cst 0.6) (Cst 0.3) "$\pi/3$");
   CAx (Text (Cst 0.8) (Cst 1.0) "r = 2");
   CAx (SetXlim (-0.5) 2.5);
   CAx (SetYlim (-0.5) 2.5);
   CAx (SetAspect "equal");
   CAx (Grid true);
   CAx (SetTitle "Número Complejo")]
  ++ save_plot "C21_P280_Q_ComplexNum.png".

(** ** The [__main__] block *)

Definition main : list (list Call) :=
  [plot_ref_angle_210; plot_sine_amplitude; plot_law_sines; plot_law_cosines;
   plot_complex_number].

Definition run (s : St) : PyErr + St :=
  do s1 <- module_init s ; exec_seq main s1.

Definition file_names : list string :=
  ["C21_P280_Q_RefAngle210.png"; "C21_P280_Q_SineAmplitude.png"; "C21_P280_Q_LawSines.png";
   "C21_P280_Q_LawCosines.png"; "C21_P280_Q_ComplexNum.png"].

(** ** Running the script *)

Lemma trig2_main_keys : script_keys main = Some (map (pair output_dir) file_names).
Proof. vm_compute. reflexivity. Qed.

Lemma trig2_main_msgs :
  script_msgs main = Some (map (fun n => String.append "Saved " (path_join output_dir n)) file_names).
Proof. vm_compute. reflexivity. Qed.

Lemma trig2_file_names_nodup : NoDup file_names.
Proof. apply (bool_decide_unpack _). vm_compute. reflexivity. Qed.

(** C35: Run from a state with no open figure, in which the output
    directory path is not occupied by a non-directory, the script
    creates the directory, writes each of its five files there with the
    figure its function draws, leaves every other file as it was, prints
    one "Saved <path>" line per file in order and leaves no figure
    open. *)
Theorem trig2_run_writes_files (s : St) :
  figs s = [] -> output_dir ∉ blocked s ->
  exists s', run s = inr s' /\ figs s' = [] /\ output_dir ∈ dirs s' /\
    blocked s' = blocked s /\
    (forall k, k ∉ map (pair output_dir) file_names -> files s' !! k = files s !! k) /\
    (forall b o, b ∈ main -> diagram b = Some o ->
                 files s' !! (output_dir, o_name o) = Some (o_img o)) /\
    (forall n, n ∈ file_names -> is_Some (files s' !! (output_dir, n))) /\
    out s' = out s ++ map (fun n => String.append "Saved " (path_join output_dir n)) file_names.
Proof.
  intros Hf Hb.
  exact (run_into_dir module_init main output_dir file_names _ s trig2_main_keys trig2_main_msgs
           trig2_file_names_nodup (makedirs_exist_ok output_dir s Hb) Hf).
Qed.

Lemma trig2_run_writes_files_witness :
  exists s', run init_state = inr s' /\ figs s' = [] /\ output_dir ∈ dirs s'.
Proof.
  destruct (trig2_run_writes_files init_state eq_refl ltac:(vm_compute; set_solver))
    as (s' & H1 & H2 & H3 & _).
  exists s'. auto.
Defined.

(** C36: The triangle of [plot_law_cosines] is exactly the one of its
    labels: A = (0, 0), B = (6, 0) and C = (5 cos A, 5 sin A) with
    cos A = 0.2, that is C = (1, sqrt 24), so that its sides AB, AC and
    BC have lengths 6, 5 and 7. *)
Theorem law_cosines_triangle :
  option_map polygons (image_of plot_law_cosines) = Some [[lc_A_coord; lc_B_coord; lc_C_coord]] /\
  ptR lc_C_coord = (1, sqrt 24)%R /\
  dist2R (ptR lc_A_coord) (ptR lc_B_coord) = (6 * 6)%R /\
  dist2R (ptR lc_A_coord) (ptR lc_C_coord) = (5 * 5)%R /\
  dist2R (ptR lc_B_coord) (ptR lc_C_coord) = (7 * 7)%R.
Proof.
  split; [vm_compute; reflexivity|].
  assert (HC : ptR lc_C_coord = (1, sqrt 24)%R).
  { unfold ptR, lc_C_coord, lc_angle_A, lc_b_len. cbn [fst snd evalR].
    assert (Hr : (-1 <= Q2R 0.2 <= 1)%R) by (unfold Q2R; simpl; lra).
    rewrite cos_acos, sin_acos by exact Hr. unfold Rsqr, Q2R; simpl. f_equal; [lra|].
    symmetry. apply sqrt_lem_1; [lra | |].
    - apply Rmult_le_pos; [lra | apply sqrt_pos].
    - set (a := (1 - 2 * / 10 * (2 * / 10))%R).
      assert (Ha : (sqrt a * sqrt a = a)%R) by (apply sqrt_sqrt; unfold a; lra).
      unfold a in *. nra. }
  pose proof (sqrt_sqrt 24 ltac:(lra)) as H24.
  unfold dist2R. rewrite HC. unfold ptR, lc_A_coord, lc_B_coord, lc_c_len. cbn [fst snd evalR].
  unfold Q2R; simpl. repeat split; nra.
Qed.

(** C37: The wave of [plot_sine_amplitude] stays between its two dotted
    lines y = -1 and y = 5 at every one of its 400 points, around the
    dashed centre line y = 2, and the amplitude arrow drawn from y = 2 to
    y = 5 stands at x = pi/8 + pi/4, where the plotted
    2 + 3 sin(4x - pi) reaches its maximum 5. *)
Theorem sine_amplitude_bounds :
  exists f, image_of plot_sine_amplitude = Some f /\
    hlines Dashed f = [2] /\ hlines Dotted f = [5; -1] /\
    (exists l, ALine l ∈ artists f /\ ln_style l = Solid /\ length (ln_xs l) = 400%nat /\
       line_on (fun _ y => -1 <= y <= 5)%R l) /\
    annotations f = [("", (sine_arrow_x, Cst 2), (sine_arrow_x, Cst 5))] /\
    evalR (evalR 0 sine_arrow_x) sine_f = 5%R.
Proof.
  assert (Hm : option_map (fun f => (hlines Dashed f, hlines Dotted f, annotations f))
                 (image_of plot_sine_amplitude)
               = Some ([2], [5; -1], [("", (sine_arrow_x, Cst 2), (sine_arrow_x, Cst 5))]))
    by (vm_compute; reflexivity).
  destruct (image_of plot_sine_amplitude) as [f|] eqn:Hf; [|discriminate Hm].
  injection Hm as Hm1 Hm2 Hm3. exists f. repeat split; auto.
  - destruct (image_of_plot_style plot_sine_amplitude f sine_x (np_apply sine_f sine_x) "b-" kw0
                Solid Hf ltac:(vm_compute; reflexivity) ltac:(vm_compute; reflexivity))
      as (l & Hl & Hx & Hy & Hs).
    exists l. repeat split; auto.
    + rewrite Hx. vm_compute. reflexivity.
    + apply (line_on_graph _ l _ _ Hx Hy), Forall_forall. intros t _.
      unfold sine_f. evalR_simpl. pose proof (SIN_bound (4 * evalR 0 t - PI)%R) as Hb. lra.
  - unfold sine_arrow_x, sine_f. cbn [evalR].
    replace (Q2R 4 * (PI / Q2R 8 + PI / Q2R 4) - PI)%R with (PI / 2)%R
      by (unfold Q2R; simpl; field).
    rewrite sin_PI2. unfold Q2R; simpl. lra.
Qed.

End TrigBatch2.
