(* ===== verification/CalcP2P3.v ===== *)
(** * CalcP2P3.v: [src/server/scripts/generate_calculus_images_p2_p3.py]

    The calculus set of quiz 281 for periods II and III: nineteen graphs
    on limits (a hole above a filled point, one-sided limits, a
    removable discontinuity, a vertical asymptote, sin(5x)/x near 0, a
    jump) and on derivatives (a tangent line, power, product and chain
    rules, an implicit circle, sin and its second derivative, an
    increasing interval, concavity, the second-derivative test, an
    absolute maximum, the optimal square, concentric circles).  It
    writes into [generated_images_calculus], the directory of [Calc.v]'s
    script, behind the same [os.path.exists] guard; [SharedDir.v] relates
    the two.  The [for] loop of [q29_rates] is a [map] over its list of
    radii. *)

From Stdlib Require Import QArith Qabs Qreals Reals Psatz Ascii String.
From stdpp Require Import base gmap strings list.
From S2P Require Import Spec2Rocq Numpy Pyplot.
Import Numpy Pyplot.

Module CalcP2P3.

Local Open Scope Q_scope.

(** ** Module-level code *)

Definition OUTPUT_DIR : string := "generated_images_calculus".

(** [if not os.path.exists(OUTPUT_DIR): os.makedirs(OUTPUT_DIR)] *)
Definition module_init (s : St) : PyErr + St := ensure_dir OUTPUT_DIR s.

Definition save_plot (filename : string) : list Call :=
  [CPlt (Grid true);
   CPlt (Axhline (Cst 0) Solid None);
   CPlt (Axvline (Cst 0) Solid None);
   CSavefig OUTPUT_DIR filename (Some 100);
   CClose].

Definition lbl (l : string) : PlotKw := mkKw None None None None None false (Some l).

(** [markeredgecolor='b'] *)
Definition mec_b : PlotKw := mkKw None None None None (Some "b") false None.

(** ** Period II *)

Definition q11_x : list Q := np_linspace 0 4 100.
Definition q11_f : Expr := Add X (Cst 1).

Definition q11_limit_graph : list Call :=
  [CFigure (6, 6);
   CPlt (Plot (arr q11_x) (np_apply q11_f (arr q11_x)) "b" kw0);
   CPlt (Plot [Cst 2] [Cst 3] "wo" mec_b);
   CPlt (Plot [Cst 2] [Cst 1] "bo" kw0);
   CPlt (SetTitle "f(x)")]
  ++ save_plot "C21_P281_Q11_LimiteGrafico.png".

Definition q12_x : list Q := np_linspace 1 4 100.
Definition q12_f : Expr := Add (Sub (Mul (Cst 2) (Pow X 2)) (Mul (Cst 5) X)) (Cst 1).

Definition q12_properties : list Call :=
  [CFigure (6, 6);
   CPlt (Plot (arr q12_x) (np_apply q12_f (arr q12_x)) "" kw0);
   CPlt (Plot [Cst 3] [Cst 4] "ro" kw0);
   CPlt (Text (Cst 3.1) (Cst 4) "(3, 4)")]
  ++ save_plot "C21_P281_Q12_PropiedadesLim.png".

Definition q13_x1 : list Q := np_linspace (-1) 1 50.
Definition q13_f1 : Expr := Add X (Cst 1).
Definition q13_x2 : list Q := np_linspace 1 3 50.
Definition q13_f2 : Expr := Pow X 2.

Definition q13_lateral : list Call :=
  [CFigure (6, 6);
   CPlt (Plot (arr q13_x1) (np_apply q13_f1 (arr q13_x1)) "b" (lbl "x+1 (x<1)"));
   CPlt (Plot (arr q13_x2) (np_apply q13_f2 (arr q13_x2)) "g" (lbl "x^2 (x>=1)"));
   CPlt (Plot [Cst 1] [Cst 2] "wo" mec_b);
   CPlt (Plot [Cst 1] [Cst 1] "go" kw0);
   CPlt Legend]
  ++ save_plot "C21_P281_Q13_LimiteLateral.png".

Definition q14_x : list Q := np_linspace 0 4 100.
Definition q14_f : Expr := Add X (Cst 2).

Definition q14_technique : list Call :=
  [CFigure (6, 6);
   CPlt (Plot (arr q14_x) (np_apply q14_f (arr q14_x)) "" kw0);
   CPlt (Plot [Cst 2] [Cst 4] "wo" mec_b);
   CPlt (SetTitle "f(x) = (x^2-4)/(x-2)")]
  ++ save_plot "C21_P281_Q14_TecnicaLimite.png".

Definition q15_x : list Q := np_linspace 0 6 200.
(** [mask = np.abs(x - 3) > 0.1] *)
Definition q15_mask (v : Q) : bool := negb (Qle_bool (Qabs (v - 3)) 0.1).
Definition q15_x_m : list Q := np_mask q15_mask q15_x.
Definition q15_f : Expr := Div (Cst 1) (Sub X (Cst 3)).

Definition q15_asymptote : list Call :=
  [CFigure (6, 6);
   CPlt (Plot (arr q15_x_m) (np_apply q15_f (arr q15_x_m)) "" kw0);
   CPlt (Axvline (Cst 3) Dashed (Some "x=3"));
   CPlt (SetYlim (-10) 10);
   CPlt Legend]
  ++ save_plot "C21_P281_Q15_Asintota.png".

Definition q16_x : list Q := np_linspace (-1) 1 200.
Definition q16_f : Expr := Div (Sin (Mul (Cst 5) X)) X.

Definition q16_trig_limit : list Call :=
  [CFigure (6, 6);
   CPlt (Plot (arr q16_x) (np_apply q16_f (arr q16_x)) "" kw0);
   CPlt (Plot [Cst 0] [Cst 5] "wo" mec_b);
   CPlt (SetTitle "y = sin(5x)/x")]
  ++ save_plot "C21_P281_Q16_LimTrig.png".

Definition q17_x1 : list Q := np_linspace (-1) 1 50.
Definition q17_f1 : Expr := X.
Definition q17_x2 : list Q := np_linspace 1 3 50.
Definition q17_f2 : Expr := Add X (Cst 1).

Definition q17_continuity : list Call :=
  [CFigure (6, 6);
   CPlt (Plot (arr q17_x1) (np_apply q17_f1 (arr q17_x1)) "b" kw0);
   CPlt (Plot (arr q17_x2) (np_apply q17_f2 (arr q17_x2)) "b" kw0);
   CPlt (Plot [Cst 1] [Cst 1] "bo" kw0);
   CPlt (Plot [Cst 1] [Cst 2] "wo" mec_b)]
  ++ save_plot "C21_P281_Q17_Continuidad.png".

Definition q18_x : list Q := np_linspace 0 4 100.
Definition q18_f : Expr := Pow X 2.
Definition q18_tx : list Q := np_linspace 1 3 100.
Definition q18_t : Expr := Sub (Mul (Cst 4) X) (Cst 4).

Definition q18_derivative_concept : list Call :=
  [CFigure (6, 6);
   CPlt (Plot (arr q18_x) (np_apply q18_f (arr q18_x)) "" (lbl "f(x)"));
   CPlt (Plot (arr q18_tx) (np_apply q18_t (arr q18_tx)) "r--" (lbl "Tangente"));
   CPlt (Plot [Cst 2] [Cst 4] "ko" kw0);
   CPlt Legend]
  ++ save_plot "C21_P281_Q18_ConceptoDerivada.png".

Definition q19_x : list Q := np_linspace (-1.5) 1.5 100.
Definition q19_f : Expr := Add (Sub (Mul (Cst 3) (Pow X 4)) (Mul (Cst 2) (Pow X 2))) (Cst 5).

Definition q19_power_rule : list Call :=
  [CFigure (6, 6);
   CPlt (Plot (arr q19_x) (np_apply q19_f (arr q19_x)) "" kw0);
   CPlt (SetTitle "f(x) = 3x^4 - 2x^2 + 5")]
  ++ save_plot "C21_P281_Q19_DerivadaPotencia.png".

Definition q20_x : list Q := np_linspace (-2) 1 100.
Definition q20_f : Expr := Mul X (Exp X).

Definition q20_product_rule : list Call :=
  [CFigure (6, 6);
   CPlt (Plot (arr q20_x) (np_apply q20_f (arr q20_x)) "" kw0);
   CPlt (SetTitle "f(x) = x e^x")]
  ++ save_plot "C21_P281_Q20_ReglaProducto.png".

Definition q21_x : list Q := np_linspace (-2) 1 100.
Definition q21_f : Expr := Pow (Add (Mul (Cst 2) X) (Cst 1)) 3.

Definition q21_chain_rule : list Call :=
  [CFigure (6, 6);
   CPlt (Plot (arr q21_x) (np_apply q21_f (arr q21_x)) "" kw0);
   CPlt (SetTitle "f(x) = (2x+1)^3")]
  ++ save_plot "C21_P281_Q21_ReglaCadena.png".

Definition q22_theta : list Expr := np_linspace_e (Cst 0) (Mul (Cst 2) Pi) 100.
Definition q22_fx : Expr := Mul (Cst 5) (Cos X).
Definition q22_fy : Expr := Mul (Cst 5) (Sin X).

Definition q22_implicit : list Call :=
  [CFigure (6, 6);
   CPlt (Plot (np_apply q22_fx q22_theta) (np_apply q22_fy q22_theta) "" kw0);
   CPlt (AxisMode "equal");
   CPlt (SetTitle "x^2 + y^2 = 25")]
  ++ save_plot "C21_P281_Q22_DerivadaImplicita.png".

Definition q23_x : list Expr := np_linspace_e (Cst 0) (Mul (Cst 2) Pi) 100.
Definition q23_f : Expr := Sin X.

Definition q23_higher_order : list Call :=
  [CFigure (6, 6);
   CPlt (Plot q23_x (np_apply q23_f q23_x) "" (lbl "sin(x)"));
   CPlt (Plot q23_x (np_apply (Neg (Sin X)) q23_x) "--" (lbl "-sin(x) (f'')"));
   CPlt Legend]
  ++ save_plot "C21_P281_Q23_OrdenSuperior.png".

(** ** Period III *)

(** The first [x] and [y] of [q24_increasing] are overwritten before
    use; the graph is the cubic. *)
Definition q24_x : list Q := np_linspace (-1) 3 100.
Definition q24_f : Expr := Add (Neg (Pow X 3)) (Mul (Cst 3) (Pow X 2)).

Definition q24_increasing : list Call :=
  [CFigure (6, 6);
   CPlt (Plot (arr q24_x) (np_apply q24_f (arr q24_x)) "" kw0);
   CPlt (Axvline (Cst 0) Dashed None);
   CPlt (Axvline (Cst 2) Dashed None);
   CPlt (SetTitle "Intervalo Creciente")]
  ++ save_plot "C21_P281_Q24_Crecimiento.png".

Definition q25_x : list Q := np_linspace (-2) 2 100.
Definition q25_f : Expr := Pow X 3.

Definition q25_concavity : list Call :=
  [CFigure (6, 6);
   CPlt (Plot (arr q25_x) (np_apply q25_f (arr q25_x)) "" kw0);
   CPlt (Text (Cst 1) (Cst 1) "Cóncava Arriba");
   CPlt (Text (Cst (-1)) (Cst (-1)) "Cóncava Abajo")]
  ++ save_plot "C21_P281_Q25_Concavidad.png".

Definition q26_x : list Q := np_linspace (-2) 2 100.
Definition q26_f : Expr := Pow X 2.

Definition q26_second_deriv_test : list Call :=
  [CFigure (6, 6);
   CPlt (Plot (arr q26_x) (np_apply q26_f (arr q26_x)) "" kw0);
   CPlt (Plot [Cst 0] [Cst 0] "ro" kw0);
   CPlt (SetTitle "f'(c)=0, f''(c)>0 => Minimo")]
  ++ save_plot "C21_P281_Q26_Criterio2da.png".

Definition q27_x : list Q := np_linspace (-1) 4 100.
Definition q27_f : Expr := Add (Mul (Cst (-0.5)) (Pow (Sub X (Cst 1.5)) 2)) (Cst 3).

Definition q27_max_min : list Call :=
  [CFigure (6, 6);
   CPlt (Plot (arr q27_x) (np_apply q27_f (arr q27_x)) "" kw0);
   CPlt (Plot [Cst 1.5] [Cst 3] "ro" kw0);
   CPlt (Text (Cst 1.6) (Cst 3) "Max Absoluto")]
  ++ save_plot "C21_P281_Q27_MaximosMinimos.png".

(** The line break of ["Area Maxima\nCuadrado 5x5"]. *)
Definition newline : string := String (ascii_of_nat 10) EmptyString.

Definition q28_optimization : list Call :=
  [CFigure (6, 6);
   CPlt (Plot (arr [0; 5; 5; 0; 0]) (arr [0; 0; 5; 5; 0]) "b" kw0);
   CPlt (Text (Cst 2) (Cst 2.5) (String.append "Area Maxima" (String.append newline "Cuadrado 5x5")));
   CPlt (SetXlim (-1) 6);
   CPlt (SetYlim (-1) 6)]
  ++ save_plot "C21_P281_Q28_Optimizacion.png".

Definition q29_theta : list Expr := np_linspace_e (Cst 0) (Mul (Cst 2) Pi) 100.
Definition q29_radii : list Q := [1; 3; 5].

(** [for r in [1, 3, 5]: plt.plot(r*np.cos(theta), r*np.sin(theta), 'b--')] *)
Definition q29_circles : list Call :=
  map (fun r => CPlt (Plot (np_apply (Mul (Cst r) (Cos X)) q29_theta)
                           (np_apply (Mul (Cst r) (Sin X)) q29_theta) "b--" kw0)) q29_radii.

Definition q29_rates : list Call :=
  [CFigure (6, 6)]
  ++ q29_circles ++
  [CPlt (AxisMode "equal");
   CPlt (SetTitle "dr/dt = 1 => dA/dt = ?")]
  ++ save_plot "C21_P281_Q29_RazonCambio.png".

(** ** The [__main__] block *)

Definition main : list (list Call) :=
  [q11_limit_graph; q12_properties; q13_lateral; q14_technique; q15_asymptote;
   q16_trig_limit; q17_continuity; q18_derivative_concept; q19_power_rule;
   q20_product_rule; q21_chain_rule; q22_implicit; q23_higher_order;
   q24_increasing; q25_concavity; q26_second_deriv_test; q27_max_min;
   q28_optimization; q29_rates].

Definition run (s : St) : PyErr + St :=
  do s1 <- module_init s ; exec_seq main s1.

Definition file_names : list string :=
  ["C21_P281_Q11_LimiteGrafico.png"; "C21_P281_Q12_PropiedadesLim.png";
   "C21_P281_Q13_LimiteLateral.png"; "C21_P281_Q14_TecnicaLimite.png";
   "C21_P281_Q15_Asintota.png"; "C21_P281_Q16_LimTrig.png"; "C21_P281_Q17_Continuidad.png";
   "C21_P281_Q18_ConceptoDerivada.png"; "C21_P281_Q19_DerivadaPotencia.png";
   "C21_P281_Q20_ReglaProducto.png"; "C21_P281_Q21_ReglaCadena.png";
   "C21_P281_Q22_DerivadaImplicita.png"; "C21_P281_Q23_OrdenSuperior.png";
   "C21_P281_Q24_Crecimiento.png"; "C21_P281_Q25_Concavidad.png";
   "C21_P281_Q26_Criterio2da.png"; "C21_P281_Q27_MaximosMinimos.png";
   "C21_P281_Q28_Optimizacion.png"; "C21_P281_Q29_RazonCambio.png"].

(** ** Running the script *)

Lemma p2p3_main_keys : script_keys main = Some (map (pair OUTPUT_DIR) file_names).
Proof. vm_compute. reflexivity. Qed.

Lemma p2p3_main_msgs : script_msgs main = Some [].
Proof. vm_compute. reflexivity. Qed.

Lemma p2p3_file_names_nodup : NoDup file_names.
Proof. apply (bool_decide_unpack _). vm_compute. reflexivity. Qed.

(** C38: Run from a state with no open figure in which nothing but a
    directory may exist at [generated_images_calculus], the script
    writes each of its nineteen files there with the figure its function
    draws, leaves every other file as it was and leaves no figure
    open. *)
Theorem p2p3_run_writes_files (s : St) :
  figs s = [] -> OUTPUT_DIR ∉ blocked s ->
  exists s', run s = inr s' /\ figs s' = [] /\ OUTPUT_DIR ∈ dirs s' /\
    blocked s' = blocked s /\
    (forall k, k ∉ map (pair OUTPUT_DIR) file_names -> files s' !! k = files s !! k) /\
    (forall b o, b ∈ main -> diagram b = Some o ->
                 files s' !! (OUTPUT_DIR, o_name o) = Some (o_img o)) /\
    (forall n, n ∈ file_names -> is_Some (files s' !! (OUTPUT_DIR, n))) /\
    out s' = out s.
Proof.
  intros Hf Hb.
  destruct (run_into_dir module_init main OUTPUT_DIR file_names [] s p2p3_main_keys
              p2p3_main_msgs p2p3_file_names_nodup (ensure_dir_ok OUTPUT_DIR s Hb) Hf)
    as (s' & Hrun & Hrest).
  exists s'. rewrite app_nil_r in Hrest. exact (conj Hrun Hrest).
Qed.

Lemma p2p3_run_writes_files_witness :
  exists s', run init_state = inr s' /\ figs s' = [] /\ OUTPUT_DIR ∈ dirs s'.
Proof.
  destruct (p2p3_run_writes_files init_state eq_refl ltac:(vm_compute; set_solver))
    as (s' & H1 & H2 & H3 & _).
  exists s'. auto.
Defined.

(** C39: Every array the script plots has finite entries:
    sin(5x)/x is sampled at 200 points of [-1, 1], none of which is 0,
    and 1/(x - 3) only at the samples its mask keeps, none within 0.1 of
    3. *)
Theorem p2p3_curves_finite (b : list Call) (f : Fig) (a : Artist) :
  b ∈ main -> image_of b = Some f -> a ∈ artists f -> Forall (dom 0%R) (artist_coords a).
Proof. apply script_safe_sound. vm_compute. reflexivity. Qed.

Lemma p2p3_curves_finite_witness :
  exists f a, image_of q16_trig_limit = Some f /\ a ∈ artists f /\ Forall (dom 0%R) (artist_coords a).
Proof.
  assert (Hne : option_map (fun f => head (artists f)) (image_of q16_trig_limit) <> Some None)
    by (vm_compute; congruence).
  destruct (image_of q16_trig_limit) as [f|] eqn:Hf;
    [|exfalso; clear -Hf; vm_compute in Hf; discriminate Hf].
  simpl in Hne. destruct (artists f) as [|a rest] eqn:Ha; [simpl in Hne; congruence|].
  exists f, a. assert (Hin : a ∈ artists f) by (rewrite Ha; left).
  split; [reflexivity|]. split; [exact Hin|].
  apply (p2p3_curves_finite q16_trig_limit f a); [|exact Hf | exact Hin].
  apply list_elem_of_In. unfold main. cbv [In]. do 5 right. left. reflexivity.
Defined.

(** C23: The figure lifecycle of every diagram function of the script:
    called with no figure open and [OUTPUT_DIR] present, every prefix of
    its body runs without raising; no figure is open before its first
    statement, exactly one (the one its [plt.figure] opened) is open
    after each statement up to its [plt.savefig], and none is left once
    its last statement, [plt.close()], has run. *)
Theorem p2p3_figure_lifecycle (b : list Call) (s : St) (k : nat) :
  b ∈ main -> figs s = [] -> OUTPUT_DIR ∈ dirs s ->
  exists ax s', exec_frame (take k b) (None, s) = inr (ax, s') /\
    length (figs s') = (if bool_decide (0 < k < length b) then 1 else 0)%nat.
Proof. exact (script_prefix_open main OUTPUT_DIR file_names b s k p2p3_main_keys p2p3_main_msgs). Qed.

(** [q11_limit_graph] run to its end, [plt.close()] included, from a
    state where the directory exists: no figure is left open. *)
Lemma p2p3_figure_lifecycle_witness :
  q11_limit_graph ∈ main /\
  exists ax s', exec_frame (take 10 q11_limit_graph) (None, mkSt [] [OUTPUT_DIR] [] ∅ []) = inr (ax, s') /\
    length (figs s') = 0%nat.
Proof.
  split; [left|].
  destruct (p2p3_figure_lifecycle q11_limit_graph (mkSt [] [OUTPUT_DIR] [] ∅ []) 10)
    as (ax & s' & Hrun & Hlen); [left | reflexivity | left |].
  exists ax, s'. split; [exact Hrun|]. rewrite Hlen. reflexivity.
Defined.

End CalcP2P3.
