(* ===== verification/SharedDir.v ===== *)
(** * SharedDir.v: the two scripts that write into [generated_images_calculus]

    [generate_calculus_images.py] ([Calc.v]) and
    [generate_calculus_images_p2_p3.py] ([CalcP2P3.v]) use the same
    output directory, guarded the same way ([ensure_dir]), and write
    disjoint sets of files there without printing anything.  Run one
    after the other in the same process state, they leave the same
    state whichever runs first: the directory, the 29 files and every
    other file. *)

From Stdlib Require Import QArith Reals String.
From stdpp Require Import base gmap strings list.
From S2P Require Import Spec2Rocq Numpy Pyplot Calc CalcP2P3.
Import Pyplot.

Module SharedDir.

(** The two scripts share no file name. *)
Lemma calc_file_names_disjoint (n : string) :
  n ∈ Calc.file_names -> n ∉ CalcP2P3.file_names.
Proof.
  revert n. apply Forall_forall, (bool_decide_unpack _). vm_compute. reflexivity.
Qed.

(** C40: From a state with no open figure in which nothing but a
    directory may exist at [generated_images_calculus], running the
    period I script and then the period II-III script succeeds and
    leaves exactly the state that running them in the other order
    leaves. *)
Theorem calc_scripts_commute (s : St) :
  figs s = [] -> Calc.OUTPUT_DIR ∉ blocked s ->
  exists s', bindr (Calc.run s) CalcP2P3.run = inr s' /\
             bindr (CalcP2P3.run s) Calc.run = inr s'.
Proof.
  intros Hf Hb.
  exact (guarded_scripts_commute Calc.OUTPUT_DIR Calc.main CalcP2P3.main Calc.file_names
           CalcP2P3.file_names s Calc.calc_main_keys CalcP2P3.p2p3_main_keys
           Calc.calc_main_msgs CalcP2P3.p2p3_main_msgs calc_file_names_disjoint Hf Hb).
Qed.

Lemma calc_scripts_commute_witness :
  exists s', bindr (Calc.run init_state) CalcP2P3.run = inr s' /\
             bindr (CalcP2P3.run init_state) Calc.run = inr s'.
Proof. apply calc_scripts_commute; [reflexivity | vm_compute; set_solver]. Defined.

End SharedDir.
